(** * EMIS-to-ACG file processor: the mapping-driven transformation engine

    A shallow embedding of [config.py] (the transformation registry) and
    [processing.py] (column resolution, the three file generators and the
    orchestrator), with the properties of the specification stated and
    settled against it.

    Modelling conventions.
    - A cell of a table loaded with [dtype=str] is either a string or the
      missing marker NaN ([value]).  A Python [str] is modelled by the
      [string] of its UTF-8 encoding, so equality of strings is equality of
      their characters.  [str.strip] removes every character [str.isspace]
      accepts, the Unicode white space outside ASCII included, each
      recognised by its encoding; [str.upper] and [str.lower] are given on
      the ASCII letters.
    - A [Series] is the list of its values in row order.  Every series the
      engine assigns to a frame carries the frame's own index, so pandas'
      index alignment is the identity and columns are handled positionally.
    - A [DataFrame] is its index (row labels) and its ordered columns; column
      names are unique in a frame read from a delimited file.
    - Exceptions are explicit ([result]); log calls of the column-level code
      are recorded in a writer ([logged]). *)

From Stdlib Require Import Ascii.
From stdpp Require Import gmap strings list pretty.

(** ** Python string primitives *)

Module Py.

(** The characters [str.isspace] accepts, and so [str.strip] removes, by
    the length of their UTF-8 encoding.  One byte: TAB, LF, VT, FF, CR
    (U+0009 to U+000D), the separators FS, GS, RS, US (U+001C to U+001F)
    and the space (U+0020). *)
Definition is_space1 (c : ascii) : bool :=
  let n := nat_of_ascii c in
  (Nat.leb 9 n && Nat.leb n 13) || (Nat.leb 28 n && Nat.leb n 32).

(** Two bytes: NEL U+0085 (C2 85) and the no-break space U+00A0 (C2 A0). *)
Definition is_space2 (c1 c2 : ascii) : bool :=
  let n1 := nat_of_ascii c1 in
  let n2 := nat_of_ascii c2 in
  Nat.eqb n1 194 && (Nat.eqb n2 133 || Nat.eqb n2 160).

(** Three bytes: U+1680 (E1 9A 80), U+2000 to U+200A (E2 80 80 to E2 80 8A),
    U+2028 and U+2029 (E2 80 A8, E2 80 A9), U+202F (E2 80 AF), U+205F
    (E2 81 9F) and U+3000 (E3 80 80). *)
Definition is_space3 (c1 c2 c3 : ascii) : bool :=
  let n1 := nat_of_ascii c1 in
  let n2 := nat_of_ascii c2 in
  let n3 := nat_of_ascii c3 in
  (Nat.eqb n1 225 && Nat.eqb n2 154 && Nat.eqb n3 128)
  || (Nat.eqb n1 226 && Nat.eqb n2 128
      && ((Nat.leb 128 n3 && Nat.leb n3 138)
          || Nat.eqb n3 168 || Nat.eqb n3 169 || Nat.eqb n3 175))
  || (Nat.eqb n1 226 && Nat.eqb n2 129 && Nat.eqb n3 159)
  || (Nat.eqb n1 227 && Nat.eqb n2 128 && Nat.eqb n3 128).

(** [s.lstrip()]: the leading white-space characters go. *)
Fixpoint lstrip (s : string) : string :=
  match s with
  | EmptyString => EmptyString
  | String c1 s1 =>
      if is_space1 c1 then lstrip s1
      else
        match s1 with
        | EmptyString => s
        | String c2 s2 =>
            if is_space2 c1 c2 then lstrip s2
            else
              match s2 with
              | EmptyString => s
              | String c3 s3 => if is_space3 c1 c2 c3 then lstrip s3 else s
              end
        end
  end.

(** [s.rstrip()]: the trailing white-space characters go.  What is left of
    the tail is empty or the last one or two bytes of a character exactly
    when the tail continues the character that starts here and is white
    space after it. *)
Fixpoint rstrip (s : string) : string :=
  match s with
  | EmptyString => EmptyString
  | String c s' =>
      match rstrip s' with
      | EmptyString => if is_space1 c then EmptyString else String c EmptyString
      | String c2 EmptyString =>
          if is_space2 c c2 then EmptyString
          else String c (String c2 EmptyString)
      | String c2 (String c3 EmptyString) =>
          if is_space3 c c2 c3 then EmptyString
          else String c (String c2 (String c3 EmptyString))
      | r => String c r
      end
  end.

(** [s.strip()] *)
Definition strip (s : string) : string := rstrip (lstrip s).

Definition upper_char (c : ascii) : ascii :=
  let n := nat_of_ascii c in
  if Nat.leb 97 n && Nat.leb n 122 then ascii_of_nat (n - 32) else c.

(** [s.upper()] *)
Fixpoint upper (s : string) : string :=
  match s with
  | EmptyString => EmptyString
  | String c s' => String (upper_char c) (upper s')
  end.

Definition lower_char (c : ascii) : ascii :=
  let n := nat_of_ascii c in
  if Nat.leb 65 n && Nat.leb n 90 then ascii_of_nat (n + 32) else c.

(** [s.lower()] *)
Fixpoint lower (s : string) : string :=
  match s with
  | EmptyString => EmptyString
  | String c s' => String (lower_char c) (lower s')
  end.

(** A string made of white-space characters only (the empty string
    included). *)
Fixpoint whitespace_only (s : string) : bool :=
  match s with
  | EmptyString => true
  | String c1 s1 =>
      if is_space1 c1 then whitespace_only s1
      else
        match s1 with
        | EmptyString => false
        | String c2 s2 =>
            if is_space2 c1 c2 then whitespace_only s2
            else
              match s2 with
              | EmptyString => false
              | String c3 s3 => is_space3 c1 c2 c3 && whitespace_only s3
              end
        end
  end.

(** The no-break space U+00A0 and the em space U+2003, as they are
    encoded. *)
Definition nbsp : string :=
  String (ascii_of_nat 194) (String (ascii_of_nat 160) EmptyString).

Definition em_space : string :=
  String (ascii_of_nat 226)
    (String (ascii_of_nat 128) (String (ascii_of_nat 131) EmptyString)).

End Py.

(** ** Exceptions and logging *)

Inductive exn := KeyError | ValueError | AttributeError | RuntimeError | OtherError.

#[global] Instance exn_eq_dec : EqDecision exn.
Proof. solve_decision. Defined.

Inductive result (A : Type) : Type :=
  | Ok (a : A)
  | Raise (e : exn).
Arguments Ok {A} a.
Arguments Raise {A} e.

#[global] Instance result_ret : MRet result := fun A a => Ok a.
#[global] Instance result_bind : MBind result := fun A B f m =>
  match m with
  | Ok a => f a
  | Raise e => Raise e
  end.

Inductive level := DEBUG | INFO | WARNING | ERROR | EXCEPTION.

(** One call of [logger.<level>(...)]; the message is kept by its fixed
    leading words, the interpolated values are dropped. *)
Definition log_record : Type := level * string.

Definition logged (A : Type) : Type := A * list log_record.

#[global] Instance logged_ret : MRet logged := fun A a => (a, []).
#[global] Instance logged_bind : MBind logged := fun A B f m =>
  let '(a, l1) := m in let '(b, l2) := f a in (b, l1 ++ l2).

Definition tell (lv : level) (msg : string) : logged unit := (tt, [(lv, msg)]).

(** ** pandas values, series and frames *)

Inductive value :=
  | NaN
  | Str (s : string).

#[global] Instance value_eq_dec : EqDecision value.
Proof. solve_decision. Defined.

(** A row label: a position of a default [RangeIndex], or a cell value once a
    column has been made the index ([set_index]). *)
Inductive label :=
  | LPos (i : nat)
  | LKey (v : value).

#[global] Instance label_eq_dec : EqDecision label.
Proof. solve_decision. Defined.

Abbreviation Series := (list value).

Record DataFrame := mkDataFrame {
  df_index : list label;
  df_columns : list (string * Series)
}.

(** [pd.isna(v)] *)
Definition isna (v : value) : bool :=
  match v with NaN => true | Str _ => false end.

(** [str(v)] *)
Definition py_str (v : value) : string :=
  match v with NaN => "nan" | Str s => s end.

Definition label_str (l : label) : string :=
  match l with LPos i => pretty i | LKey v => py_str v end.

(** [pd.isna(x) or str(x).strip() == ''] *)
Definition blank (v : value) : bool :=
  isna v || bool_decide (Py.strip (py_str v) = "").

(** [len(df.index)] *)
Definition nrows (df : DataFrame) : nat := length (df_index df).

Definition column_names (df : DataFrame) : list string := (df_columns df).*1.

(** [df.empty] *)
Definition df_empty (df : DataFrame) : bool :=
  bool_decide (nrows df = 0) || bool_decide (df_columns df = []).

Fixpoint assoc {A} (k : string) (l : list (string * A)) : option A :=
  match l with
  | [] => None
  | (k', a) :: l' => if decide (k = k') then Some a else assoc k l'
  end.

(** [df[c]] for a column that may be absent *)
Definition df_get (c : string) (df : DataFrame) : option Series :=
  assoc c (df_columns df).

(** [c in df.columns] *)
Definition has_column (c : string) (df : DataFrame) : bool :=
  bool_decide (c ∈ column_names df).

Fixpoint assoc_set {A} (k : string) (a : A) (l : list (string * A)) : list (string * A) :=
  match l with
  | [] => [(k, a)]
  | (k', a') :: l' =>
      if decide (k = k') then (k, a) :: l' else (k', a') :: assoc_set k a l'
  end.

(** [df[c] = s]: an existing column is replaced in place, a new one is
    appended *)
Definition df_set (c : string) (s : Series) (df : DataFrame) : DataFrame :=
  mkDataFrame (df_index df) (assoc_set c s (df_columns df)).

(** [pd.Series(dtype='object', index=idx)]: all missing *)
Definition nan_series (n : nat) : Series := replicate n NaN.

(** [pd.Series(x, index=idx)] for a scalar string [x] *)
Definition const_series (x : string) (n : nat) : Series := replicate n (Str x).

(** [series.astype(str)], element-wise *)
Definition astype_str (s : Series) : list string := py_str <$> s.

(** ** config.py *)

Module config.

Definition MERGE_KEY : string := "PatientID".

(** The expected columns of each input file, in the order of the
    dictionary. *)
Definition INPUT_FILE_COLUMNS : list (string * list string) :=
  [ ("Patient_Details",
     ["PatientID"; "NHSNumber"; "Age"; "GenderCode"; "Postcode";
      "Ethnicity"; "LSOA"; "PracticeCode"]);
    ("Care_History",
     ["PatientID"; "Code"; "CodeTerm"; "EffectiveDate"; "Value"; "Unit"]);
    ("Medication_History",
     ["PatientID"; "DrugCode"; "DrugName"; "IssueDate"; "Quantity"; "Dosage"]);
    ("Long_Term_Conditions",
     ["PatientID"; "ConditionCode"; "ConditionName"; "OnsetDate"; "ResolvedDate"]) ].

(** What a registry function is called with: a column of the source frame,
    or the frame's index when the rule names no source column. *)
Inductive tinput :=
  | InSeries (vals : Series)
  | InIndex (labels : list label).

(** What the call gives back: a [pd.Series], some other list-like object
    (an [Index]), or an exception. *)
Inductive outcome :=
  | RetSeries (vals : Series)
  | RetIndex (vals : list value)
  | Raised (e : exn).

Definition sex_mapping : gmap string string :=
  list_to_map [("M", "1"); ("F", "2"); ("1", "1"); ("2", "2")].

(** [.str.upper().map(mapping).fillna('9')] on one stringified element *)
Definition sex_code (s : string) : value :=
  match sex_mapping !! Py.upper s with
  | Some code => Str code
  | None => Str "9"
  end.

(** [transform_sex]: on a series the result is a series; an [Index] has the
    same [astype], [str], [map] and [fillna] and gives back an [Index]. *)
Definition transform_sex (x : tinput) : outcome :=
  match x with
  | InSeries vals => RetSeries (sex_code <$> astype_str vals)
  | InIndex labels => RetIndex (sex_code <$> (label_str <$> labels))
  end.

Definition get_version (code : value) : value :=
  if isna code || bool_decide (Py.strip (py_str code) = "")
  then Str ""
  else Str "S".

(** [determine_dx_version]: [code_series.apply(get_version)]; an [Index]
    has no [apply]. *)
Definition determine_dx_version (x : tinput) : outcome :=
  match x with
  | InSeries vals => RetSeries (get_version <$> vals)
  | InIndex _ => Raised AttributeError
  end.

Definition get_rx_type (code : value) : value :=
  if isna code || bool_decide (code = Str "")
  then Str ""
  else Str "RRxUK".

Definition determine_rx_code_type (x : tinput) : outcome :=
  match x with
  | InSeries vals => RetSeries (get_rx_type <$> vals)
  | InIndex _ => Raised AttributeError
  end.

(** [pd.Series('0', index=input_series.index)]; an [Index] has no
    [index] attribute. *)
Definition set_zero_cost (x : tinput) : outcome :=
  match x with
  | InSeries vals => RetSeries (const_series "0" (length vals))
  | InIndex _ => Raised AttributeError
  end.

Definition set_zero_utilization (x : tinput) : outcome :=
  match x with
  | InSeries vals => RetSeries (const_series "0" (length vals))
  | InIndex _ => Raised AttributeError
  end.

Section Registry.

(** [pd.to_datetime(series, errors='coerce')] followed by
    [.dt.strftime('%Y-%m-%d')]: per row either NaT ([None]) or the
    rendered date.  Date parsing is pandas' own; it is a parameter of
    the development. *)
Variable to_datetime : Series → result (list (option string)).

(** [format_date_yyyy_mm_dd]: every row starts as [''] and the rows
    whose date parsed receive the rendered date. *)
Definition format_date_yyyy_mm_dd (x : tinput) : outcome :=
  match x with
  | InSeries vals =>
      match to_datetime vals with
      | Ok dates =>
          if bool_decide (length dates = length vals)
          then RetSeries ((λ d, Str (default "" d)) <$> dates)
          else Raised ValueError
      | Raise e => Raised e
      end
  | InIndex _ => Raised AttributeError
  end.

Definition TRANSFORMATIONS : gmap string (tinput → outcome) :=
  list_to_map
    [("transform_sex", transform_sex);
     ("format_date_yyyy_mm_dd", format_date_yyyy_mm_dd);
     ("determine_dx_version", determine_dx_version);
     ("determine_rx_code_type", determine_rx_code_type);
     ("set_zero_cost", set_zero_cost);
     ("set_zero_utilization", set_zero_utilization)].

End Registry.

End config.

(** ** More pandas operations used by processing.py *)

(** [series.unique()] / hash-table scan: values in order of first
    appearance; missing values compare equal to each other. *)
Fixpoint unique_from {A} `{EqDecision A} (seen l : list A) : list A :=
  match l with
  | [] => []
  | x :: l' =>
      if decide (x ∈ seen) then unique_from seen l'
      else x :: unique_from (x :: seen) l'
  end.

Definition pd_unique {A} `{EqDecision A} (l : list A) : list A := unique_from [] l.

(** [series.is_unique] *)
Definition is_unique (s : Series) : bool := bool_decide (NoDup s).

(** Boolean-mask row selection, on one column. *)
Fixpoint filter_mask {A} (mask : list bool) (l : list A) : list A :=
  match mask, l with
  | b :: mask', x :: l' => if b then x :: filter_mask mask' l' else filter_mask mask' l'
  | _, _ => []
  end.

(** [df[mask]] *)
Definition df_filter (mask : list bool) (df : DataFrame) : DataFrame :=
  mkDataFrame (filter_mask mask (df_index df))
              (prod_map id (filter_mask mask) <$> df_columns df).

(** The rows [drop_duplicates(keep='first')] keeps: a row stays when its key
    has not been seen in an earlier row. *)
Fixpoint first_seen_mask (seen keys : list value) : list bool :=
  match keys with
  | [] => []
  | k :: keys' =>
      if decide (k ∈ seen) then false :: first_seen_mask seen keys'
      else true :: first_seen_mask (k :: seen) keys'
  end.

(** [df.drop_duplicates(subset=[key], keep='first')] *)
Definition drop_duplicates (key : string) (df : DataFrame) : DataFrame :=
  match df_get key df with
  | Some keys => df_filter (first_seen_mask [] keys) df
  | None => df
  end.

(** [df.set_index(key, inplace=True, drop=False)] *)
Definition set_index (key : string) (df : DataFrame) : DataFrame :=
  match df_get key df with
  | Some keys => mkDataFrame (LKey <$> keys) (df_columns df)
  | None => df
  end.

(** [df.reset_index(drop=True, inplace=True)] *)
Definition reset_index (df : DataFrame) : DataFrame :=
  mkDataFrame (LPos <$> seq 0 (nrows df)) (df_columns df).

(** [df[cols]] for a list of names: [None] stands for the [KeyError] raised
    when a name is not a column. *)
Definition df_select (cols : list string) (df : DataFrame) : option DataFrame :=
  mkDataFrame (df_index df) <$> mapM (M:=option) (λ c, pair c <$> df_get c df) cols.

(** [df.rename(columns={old: new}, inplace=True)] *)
Definition df_rename (old new : string) (df : DataFrame) : DataFrame :=
  mkDataFrame (df_index df)
              (prod_map (λ c, if decide (c = old) then new else c) id <$> df_columns df).

(** Row-wise conjunction of boolean masks over [n] rows. *)
Fixpoint and_masks (n : nat) (masks : list (list bool)) : list bool :=
  match masks with
  | [] => replicate n true
  | m :: masks' => zip_with andb m (and_masks n masks')
  end.

(** [df[c].notna()] *)
Definition notna_mask (s : Series) : list bool := (λ v, negb (isna v)) <$> s.

(** [df.dropna(subset=subset, how='any', inplace=True)]: a name of [subset]
    that is not a column raises [KeyError]. *)
Definition dropna (subset : list string) (df : DataFrame) : result DataFrame :=
  match mapM (M:=option) (λ c, df_get c df) subset with
  | None => Raise KeyError
  | Some cols =>
      Ok (df_filter (and_masks (nrows df) (notna_mask <$> cols)) df)
  end.

(** [df[c].astype(str) != ''] *)
Definition nonempty_mask (s : Series) : list bool :=
  (λ x, bool_decide (x ≠ "")) <$> astype_str s.

(** [pd.concat(dfs, ignore_index=True)]: the columns are the union of the
    frames' columns in order of appearance; a frame without a column
    contributes missing values. *)
Definition pd_concat (dfs : list DataFrame) : DataFrame :=
  let names := pd_unique (dfs ≫= column_names) in
  mkDataFrame
    (LPos <$> seq 0 (sum_list (nrows <$> dfs)))
    ((λ c, (c, dfs ≫= (λ df, default (nan_series (nrows df)) (df_get c df)))) <$> names).

(** [l.remove(x)]: the first occurrence goes (the callers check membership). *)
Fixpoint list_remove (x : string) (l : list string) : list string :=
  match l with
  | [] => []
  | y :: l' => if decide (x = y) then l' else y :: list_remove x l'
  end.

(** [l.insert(i, x)] *)
Definition list_insert_at (i : nat) (x : string) (l : list string) : list string :=
  take i l ++ x :: drop i l.

(** [l[l.index(old)] = new] *)
Fixpoint list_replace_first (old new : string) (l : list string) : list string :=
  match l with
  | [] => []
  | y :: l' => if decide (old = y) then new :: l' else y :: list_replace_first old new l'
  end.

(** [if c in cols: cols.insert(i, cols.pop(cols.index(c)))] *)
Definition prioritize (i : nat) (c : string) (cols : list string) : list string :=
  if decide (c ∈ cols) then list_insert_at i c (list_remove c cols) else cols.

(** ** processing.py *)

(** One row of [mapping.csv] as loaded by [generate_acg_files]: read with
    [dtype=str], the optional fields [TransformationFunction] and
    [SourceLabel] filled with [''].  Rows are taken to name their target
    column. *)
Record MappingRule := mkRule {
  InputConfigKey : value;
  InputColumn : value;
  TargetACGFile : value;
  TargetACGColumn : string;
  TransformationFunction : string;
  SourceLabel : string
}.

(** Python truthiness of an optional string: [None] and [''] are false. *)
Definition truthy (o : option string) : option string :=
  match o with
  | Some s => if decide (s = "") then None else Some s
  | None => None
  end.

(** [input_data_dict[k]] for a key read from the mapping (a missing key is
    in no dictionary). *)
Definition dict_get (d : gmap string DataFrame) (k : value) : option DataFrame :=
  match k with
  | Str s => d !! s
  | NaN => None
  end.

Section processing.

Variable to_datetime : Series → result (list (option string)).

Definition _apply_transformation (target_col_name transform_key : string)
    (source_df : DataFrame) (source_col_name : option string) : logged Series :=
  let n := nrows source_df in
  match config.TRANSFORMATIONS to_datetime !! transform_key with
  | None =>
      tell ERROR "Transformation function not found in config.TRANSFORMATIONS";;
      mret (nan_series n)
  | Some transform_func =>
      let call (input_series : config.tinput) : logged Series :=
        tell DEBUG "Applying transformation";;
        match transform_func input_series with
        | config.Raised _ =>
            tell EXCEPTION "Error applying transformation";;
            mret (nan_series n)
        | config.RetSeries result_series =>
            if bool_decide (length result_series ≠ n)
            then tell ERROR "Transformation returned Series of wrong length";;
                 mret (nan_series n)
            else mret result_series
        | config.RetIndex vals =>
            (* pd.Series(result_series, index=source_df.index) *)
            if bool_decide (length vals ≠ n)
            then tell ERROR "Transformation did not return a Series and couldn't be cast";;
                 mret (nan_series n)
            else mret vals
        end in
      match truthy source_col_name with
      | Some c =>
          match df_get c source_df with
          | None =>
              tell ERROR "Source column for transformation not found in source DataFrame";;
              mret (nan_series n)
          | Some input_series => call (config.InSeries input_series)
          end
      | None => call (config.InIndex (df_index source_df))
      end
  end.

(** The first half of every rule loop body (lines 136-149, 266-279 and
    438-449, which differ in their messages only): the direct copy, the
    empty column for a source column that is not there, and the name of
    the source column a transformation may use. *)
Definition input_column_step (source_df : DataFrame) (row : MappingRule)
    : logged (Series * option string) :=
  let input_col := InputColumn row in
  let transform_key := TransformationFunction row in
  let n := nrows source_df in
  let result_series := nan_series n in
  if negb (blank input_col) then
    let input_col := Py.strip (py_str input_col) in
    match df_get input_col source_df with
    | None =>
        tell WARNING "InputColumn not found. Creating empty column.";;
        mret (const_series "" n, None)
    | Some col =>
        mret (if decide (transform_key = "") then col else result_series,
              Some input_col)
    end
  else if decide (transform_key = "") then
    tell WARNING "Mapping has no InputColumn and no TransformationFunction. Setting to empty.";;
    mret (const_series "" n, None)
  else mret (result_series, None).

Definition required_input_key : string := "Patient_Details".

(** The body of the rule loop of [_generate_patient_data] (lines 108-155);
    [None] is the [continue] that skips the rule. *)
Definition patient_rule (patient_details_df : DataFrame) (row : MappingRule)
    : logged (option Series) :=
  let target_col := TargetACGColumn row in
  let input_key := InputConfigKey row in
  let input_col := InputColumn row in
  let transform_key := TransformationFunction row in
  let n := nrows patient_details_df in
  tell DEBUG "Processing Patient Data column";;
  if decide (input_key ≠ Str required_input_key) then
    if blank input_col then
      if decide (transform_key ≠ "") then
        tell DEBUG "Applying generation transformation";;
        s ← _apply_transformation target_col transform_key patient_details_df None;
        mret (Some s)
      else
        tell WARNING "Mapping has no InputColumn and no TransformationFunction. Setting to empty.";;
        mret (Some (const_series "" n))
    else
      tell ERROR "Mapping specifies an InputConfigKey that is not supported for patient_data generation. Skipping.";;
      mret None
  else
    '(result_series, source_col_for_transform) ← input_column_step patient_details_df row;
    if decide (transform_key ≠ "") then
      if bool_decide (is_Some (truthy source_col_for_transform))
         || (negb (isna input_col) && bool_decide (Py.strip (py_str input_col) = ""))
      then
        s ← _apply_transformation target_col transform_key patient_details_df
              source_col_for_transform;
        mret (Some s)
      else mret (Some result_series)
    else mret (Some result_series).

(** The body of the rule loops of [_generate_medical_services] (lines
    257-318) and [_generate_pharmacy_data] (lines 429-478).  The two differ
    in the transformation that reads another rule's source column
    ([special_key]) and in the target column of that rule
    ([needed_target]). *)
Definition source_rule (special_key needed_target : string)
    (source_mapping : list MappingRule) (source_df : DataFrame)
    (row : MappingRule) : logged Series :=
  let target_col := TargetACGColumn row in
  let input_col := InputColumn row in
  let transform_key := TransformationFunction row in
  let n := nrows source_df in
  tell DEBUG "Processing column";;
  '(result_series, source_col_for_transform) ← input_column_step source_df row;
  if decide (transform_key ≠ "") then
    actual_source_col ←
      (if decide (transform_key = special_key) then
         match filter (λ r, TargetACGColumn r = needed_target) source_mapping with
         | needed :: _ =>
             let needed_input_col := InputColumn needed in
             if blank needed_input_col
                || negb (has_column (py_str needed_input_col) source_df)
             then
               tell ERROR "Cannot apply: InputColumn for the required mapping not found";;
               mret None (* Prevent transform call *)
             else mret (Some (py_str needed_input_col))
         | [] =>
             tell ERROR "Cannot apply: No mapping found for the required TargetACGColumn";;
             mret None (* Prevent transform call *)
         end
       else mret source_col_for_transform);
    let can_transform :=
      match actual_source_col with
      | Some c => has_column c source_df
      | None => false
      end in
    let is_generation_transform := blank input_col in
    if can_transform || is_generation_transform then
      let col_to_pass := truthy actual_source_col in
      _apply_transformation target_col transform_key source_df col_to_pass
    else
      tell WARNING "Skipping transformation due to missing/invalid required source column";;
      mret (const_series "" n)
  else mret result_series.

Definition medical_rule := source_rule "determine_dx_version" "dx_cd_1".
Definition pharmacy_rule := source_rule "determine_rx_code_type" "rx_cd".

(** The rule loop of [_generate_patient_data]:
    [output_patient_df[target_col] = result_series] for every rule that is
    not skipped. *)
Definition patient_loop (patient_details_df : DataFrame)
    (patient_mapping : list MappingRule) (output_patient_df : DataFrame)
    : DataFrame :=
  foldl (λ out row,
           match (patient_rule patient_details_df row).1 with
           | Some result_series => df_set (TargetACGColumn row) result_series out
           | None => out
           end)
        output_patient_df patient_mapping.

Definition patient_id_col : string := "patient_id".

(** Lines 165-180: the column that goes first. *)
Definition place_patient_id (patient_details_df : DataFrame)
    (final_cols : list string) (output_patient_df : DataFrame)
    : list string * DataFrame :=
  if decide (patient_id_col ∈ final_cols) then
    (list_insert_at 0 patient_id_col (list_remove patient_id_col final_cols),
     output_patient_df)
  else
    match df_get config.MERGE_KEY patient_details_df with
    | Some keys =>
        if negb (has_column config.MERGE_KEY output_patient_df) then
          let output_patient_df := df_set config.MERGE_KEY keys output_patient_df in
          let final_cols :=
            if decide (config.MERGE_KEY ∈ final_cols)
            then list_remove config.MERGE_KEY final_cols else final_cols in
          (list_insert_at 0 config.MERGE_KEY final_cols, output_patient_df)
        else
          let final_cols :=
            if decide (config.MERGE_KEY ∈ final_cols)
            then list_replace_first config.MERGE_KEY patient_id_col final_cols
            else final_cols in
          let output_patient_df :=
            df_rename config.MERGE_KEY patient_id_col output_patient_df in
          (list_insert_at 0 patient_id_col final_cols, output_patient_df)
    | None => (final_cols, output_patient_df)
    end.

(** Lines 82-96: the local copy of the patient table, de-duplicated on the
    merge key and indexed by it. *)
Definition prepare_patient_details (patient_details_df : DataFrame) (keys : Series)
    : DataFrame :=
  let patient_details_df :=
    if negb (is_unique keys)
    then drop_duplicates config.MERGE_KEY patient_details_df
    else patient_details_df in
  set_index config.MERGE_KEY patient_details_df.

(** Lines 98-194: from the prepared table to the output. *)
Definition assemble_patient_data (patient_details_df : DataFrame)
    (mapping_df : list MappingRule) : option DataFrame :=
  let patient_mapping :=
    filter (λ r, TargetACGFile r = Str "patient_data") mapping_df in
  if decide (patient_mapping = []) then None
  else
    let output_patient_df :=
      patient_loop patient_details_df patient_mapping
                   (mkDataFrame (df_index patient_details_df) []) in
    let final_cols := pd_unique (TargetACGColumn <$> patient_mapping) in
    let '(final_cols, output_patient_df) :=
      place_patient_id patient_details_df final_cols output_patient_df in
    match df_select final_cols output_patient_df with
    | None => None (* KeyError: columns mapped but not generated *)
    | Some output_patient_df => Some (reset_index output_patient_df)
    end.

Definition _generate_patient_data (input_data_dict : gmap string DataFrame)
    (mapping_df : list MappingRule) : option DataFrame :=
  match input_data_dict !! required_input_key with
  | None => None
  | Some patient_details_df =>
      match df_get config.MERGE_KEY patient_details_df with
      | None => None
      | Some keys =>
          assemble_patient_data (prepare_patient_details patient_details_df keys)
                                mapping_df
      end
  end.

(** Lines 229-253 and 405-425, the same in both multi-source generators:
    the input table of a source label, or [None] for each [continue]. *)
Definition source_table (input_data_dict : gmap string DataFrame)
    (source_mapping : list MappingRule) : result (option DataFrame) :=
  let input_keys := pd_unique (InputConfigKey <$> source_mapping) in
  if decide (1 < length input_keys) then Ok None
  else
    match input_keys with
    | [] => Raise OtherError (* input_keys[0] of an empty array *)
    | config_key :: _ =>
        match dict_get input_data_dict config_key with
        | None => Ok None
        | Some source_df => if df_empty source_df then Ok None else Ok (Some source_df)
        end
    end.

(** The rule loop of one source and the standard columns added empty
    (lines 253-329 and 425-486). *)
Definition source_columns (rule : list MappingRule → DataFrame → MappingRule → logged Series)
    (source_mapping : list MappingRule) (target_columns : list string)
    (source_df : DataFrame) : DataFrame :=
  let output_df :=
    foldl (λ out row,
             df_set (TargetACGColumn row) (rule source_mapping source_df row).1 out)
          (mkDataFrame (df_index source_df) []) source_mapping in
  foldl (λ out std_col,
           if negb (has_column std_col out)
           then df_set std_col (const_series "" (nrows out)) out
           else out)
        output_df target_columns.

(** [df[(df[c1].astype(str) != '') & (df[c2].astype(str) != '')]] *)
Definition filter_nonempty (c1 c2 : string) (df : DataFrame) : result DataFrame :=
  match df_get c1 df, df_get c2 df with
  | Some s1, Some s2 =>
      Ok (df_filter (zip_with andb (nonempty_mask s1) (nonempty_mask s2)) df)
  | _, _ => Raise KeyError
  end.

(** One iteration of the source-label loop of [_generate_medical_services]
    (lines 230-352): the frame to append, if any. *)
Definition medical_source (input_data_dict : gmap string DataFrame)
    (medical_mapping : list MappingRule) (target_columns : list string)
    (source_label : string) : result (option DataFrame) :=
  if decide (source_label = "") then Ok None
  else
    let source_mapping := filter (λ r, SourceLabel r = source_label) medical_mapping in
    source ← source_table input_data_dict source_mapping;
    match source with
    | None => Ok None
    | Some source_df =>
        let output_medical_df :=
          source_columns medical_rule source_mapping target_columns source_df in
        match df_select target_columns output_medical_df with
        | None => Ok None
        | Some output_medical_df =>
            let output_medical_df :=
              match df_get "dx_version_1" output_medical_df with
              | Some version => df_filter (nonempty_mask version) output_medical_df
              | None => output_medical_df
              end in
            output_medical_df ← dropna ["patient_id"; "dx_cd_1"] output_medical_df;
            output_medical_df ← filter_nonempty "patient_id" "dx_cd_1" output_medical_df;
            if negb (df_empty output_medical_df)
            then Ok (Some output_medical_df) else Ok None
        end
    end.

(** The source-label loop: [all_dfs.append(...)] in label order; an
    exception leaves the loop. *)
Fixpoint source_loop (body : string → result (option DataFrame))
    (source_labels : list string) (all_dfs : list DataFrame)
    : result (list DataFrame) :=
  match source_labels with
  | [] => Ok all_dfs
  | source_label :: rest =>
      r ← body source_label;
      source_loop body rest (all_dfs ++ option_list r)
  end.

(** Lines 354-369 and 506-520. *)
Definition concat_sources (target_columns : list string) (all_dfs : list DataFrame)
    : option DataFrame :=
  if decide (all_dfs = []) then None
  else
    let final_df := pd_concat all_dfs in
    match df_select target_columns final_df with
    | Some final_df => Some final_df
    | None => Some final_df (* KeyError logged, the frame is returned as it is *)
    end.

(** [len(source_labels) == 0 or (len(source_labels) == 1 and source_labels[0] == '')] *)
Definition no_source_label (source_labels : list string) : bool :=
  bool_decide (source_labels = []) || bool_decide (source_labels = [""]).

Definition _generate_medical_services (input_data_dict : gmap string DataFrame)
    (mapping_df : list MappingRule) : result (option DataFrame) :=
  let medical_mapping :=
    filter (λ r, TargetACGFile r = Str "medical_services") mapping_df in
  if decide (medical_mapping = []) then Ok None
  else
    let source_labels := pd_unique (SourceLabel <$> medical_mapping) in
    if no_source_label source_labels then Ok None
    else
      let target_columns := pd_unique (TargetACGColumn <$> medical_mapping) in
      let target_columns := prioritize 0 "patient_id" target_columns in
      let target_columns := prioritize 1 "dx_cd_1" target_columns in
      all_medical_dfs ←
        source_loop (medical_source input_data_dict medical_mapping target_columns)
                    source_labels [];
      Ok (concat_sources target_columns all_medical_dfs).

(** One iteration of the source-label loop of [_generate_pharmacy_data]
    (lines 406-504). *)
Definition pharmacy_source (input_data_dict : gmap string DataFrame)
    (pharmacy_mapping : list MappingRule) (target_columns : list string)
    (source_label : string) : result (option DataFrame) :=
  if decide (source_label = "") then Ok None
  else
    let source_mapping := filter (λ r, SourceLabel r = source_label) pharmacy_mapping in
    source ← source_table input_data_dict source_mapping;
    match source with
    | None => Ok None
    | Some source_df =>
        let output_pharmacy_df :=
          source_columns pharmacy_rule source_mapping target_columns source_df in
        match df_select target_columns output_pharmacy_df with
        | None => Ok None
        | Some output_pharmacy_df =>
            output_pharmacy_df ← dropna ["patient_id"; "rx_cd"] output_pharmacy_df;
            output_pharmacy_df ← filter_nonempty "patient_id" "rx_cd" output_pharmacy_df;
            if negb (df_empty output_pharmacy_df)
            then Ok (Some output_pharmacy_df) else Ok None
        end
    end.

Definition _generate_pharmacy_data (input_data_dict : gmap string DataFrame)
    (mapping_df : list MappingRule) : result (option DataFrame) :=
  let pharmacy_mapping :=
    filter (λ r, TargetACGFile r = Str "pharmacy_data") mapping_df in
  if decide (pharmacy_mapping = []) then Ok None
  else
    let source_labels := pd_unique (SourceLabel <$> pharmacy_mapping) in
    if no_source_label source_labels then Ok None
    else
      let target_columns := pd_unique (TargetACGColumn <$> pharmacy_mapping) in
      let target_columns := prioritize 0 "patient_id" target_columns in
      let target_columns := prioritize 1 "rx_cd" target_columns in
      let target_columns := prioritize 2 "rx_fill_date" target_columns in
      all_pharmacy_dfs ←
        source_loop (pharmacy_source input_data_dict pharmacy_mapping target_columns)
                    source_labels [];
      Ok (concat_sources target_columns all_pharmacy_dfs).

(** What a run does that its caller can observe: each generator it calls,
    each file it writes or fails to write, and the exception it ends with. *)
Inductive event :=
  | Generates (target_file : string)
  | Saves (target_file : string)
  | SaveFails (target_file : string)
  | Raises (e : exn).

#[global] Instance event_eq_dec : EqDecision event.
Proof. solve_decision. Defined.

(** [df is not None and not df.empty] *)
Definition has_rows (df : option DataFrame) : bool :=
  match df with
  | Some df => negb (df_empty df)
  | None => false
  end.

(** The [if ... to_csv ... else ...] block after each generator: the events
    and whether the file now exists.  [to_csv] tells whether writing the
    file of a target succeeds. *)
Definition save_file (to_csv : string → bool) (target_file : string)
    (df : option DataFrame) : list event * bool :=
  if has_rows df then
    if to_csv target_file then ([Saves target_file], true)
    else ([SaveFails target_file], false)
  else ([], false).

(** [generate_acg_files], from the loading of the mapping on.
    [mapping_load] is [None] when [mapping.csv] is missing, unreadable or
    lacks a required column. *)
Definition generate_acg_files (mapping_load : option (list MappingRule))
    (to_csv : string → bool) (input_data_dict : gmap string DataFrame)
    : list event * result unit :=
  match mapping_load with
  | None => ([Raises RuntimeError], Raise RuntimeError)
  | Some mapping_df =>
      let generation_successful := true in
      let patient_df := _generate_patient_data input_data_dict mapping_df in
      let '(saved, ok) := save_file to_csv "patient_data" patient_df in
      let trace := Generates "patient_data" :: saved in
      let generation_successful := generation_successful && ok in
      match _generate_medical_services input_data_dict mapping_df with
      | Raise e => (trace ++ [Generates "medical_services"; Raises e], Raise e)
      | Ok medical_df =>
          let '(saved, ok) := save_file to_csv "medical_services" medical_df in
          let trace := trace ++ Generates "medical_services" :: saved in
          let generation_successful := generation_successful && ok in
          match _generate_pharmacy_data input_data_dict mapping_df with
          | Raise e => (trace ++ [Generates "pharmacy_data"; Raises e], Raise e)
          | Ok pharmacy_df =>
              let '(saved, _) := save_file to_csv "pharmacy_data" pharmacy_df in
              let trace := trace ++ Generates "pharmacy_data" :: saved in
              if generation_successful then (trace, Ok ())
              else (trace ++ [Raises RuntimeError], Raise RuntimeError)
          end
      end
  end.

(** ** The contracts in the words of the specification *)

(** The contract of [transform_sex] in the words of the specification. *)
Definition sex_code_spec (v : value) : value :=
  if decide (v ∈ [Str "M"; Str "m"; Str "1"]) then Str "1"
  else if decide (v ∈ [Str "F"; Str "f"; Str "2"]) then Str "2"
  else Str "9".

(** The contract of [determine_dx_version] in the words of the
    specification: "S" for a code that is present, non-empty and not white
    space only, the empty string otherwise. *)
Definition dx_version_spec (code : value) : value :=
  match code with
  | NaN => Str ""
  | Str s => if Py.whitespace_only s then Str "" else Str "S"
  end.

(** The rows that hold the first occurrence of their key: row [i] stays
    when its key is not among the keys of the rows before it. *)
Definition first_occurrence_mask (keys : Series) : list bool :=
  imap (λ i k, bool_decide (k ∉ take i keys)) keys.

(** A cell that is neither missing nor the empty string. *)
Definition non_empty (v : value) : Prop := v ≠ NaN ∧ v ≠ Str "".

(** Every cell of column [c], which the frame has, satisfies [P]. *)
Definition column_all (P : value → Prop) (c : string) (df : DataFrame) : Prop :=
  match df_get c df with
  | Some s => Forall P s
  | None => False
  end.

(** Every cell of column [c] satisfies [P], if the frame has the column. *)
Definition column_if_present (P : value → Prop) (c : string) (df : DataFrame) : Prop :=
  match df_get c df with
  | Some s => Forall P s
  | None => True
  end.

(** A property of the table a generator returns, when it returns one. *)
Definition on_output (r : result (option DataFrame)) (P : DataFrame → Prop) : Prop :=
  match r with
  | Ok (Some out) => P out
  | _ => True
  end.

(** The generators a run called, in order, and the exceptions it raised. *)
Definition generators_run (trace : list event) : list string :=
  omap (λ e, match e with Generates f => Some f | _ => None end) trace.

Definition errors_raised (trace : list event) : list exn :=
  omap (λ e, match e with Raises e => Some e | _ => None end) trace.

(** ** Sample inputs

    The tables follow the dummy data of [processing.py]'s test block; the
    mapping rows are written in the layout of [mapping.csv]. *)

(** A date parser that recognises nothing: every row is NaT. *)
Definition no_dates : Series → result (list (option string)) :=
  λ s, Ok ((λ _, None) <$> s).

Definition demo_patients : DataFrame :=
  mkDataFrame [LPos 0; LPos 1; LPos 2]
    [("PatientID", [Str "1"; Str "2"; Str "1"]);
     ("Age", [Str "38"; Str "31"; Str "39"]);
     ("GenderCode", [Str "M"; Str "F"; Str "M"])].

Definition demo_care : DataFrame :=
  mkDataFrame [LPos 0; LPos 1; LPos 2]
    [("PatientID", [Str "1"; Str "1"; Str "2"]);
     ("Code", [Str "G30.."; Str ""; Str "XE0Uc"]);
     ("EffectiveDate", [Str "2020-01-01"; Str "2021-05-10"; Str "2022-03-15"])].

Definition demo_meds : DataFrame :=
  mkDataFrame [LPos 0; LPos 1]
    [("PatientID", [Str "1"; Str "2"]);
     ("DrugCode", [Str "a123."; Str "b456."])].

Definition demo_input : gmap string DataFrame :=
  list_to_map [("Patient_Details", demo_patients);
               ("Care_History", demo_care);
               ("Medication_History", demo_meds)].

Definition demo_mapping : list MappingRule :=
  [ mkRule (Str "Patient_Details") (Str "PatientID") (Str "patient_data") "patient_id" "" "";
    mkRule (Str "Patient_Details") (Str "Age") (Str "patient_data") "age" "" "";
    mkRule (Str "Patient_Details") (Str "GenderCode") (Str "patient_data") "sex" "transform_sex" "";
    mkRule (Str "Care_History") (Str "PatientID") (Str "medical_services") "patient_id" "" "Care";
    mkRule (Str "Care_History") (Str "Code") (Str "medical_services") "dx_cd_1" "" "Care";
    mkRule (Str "Care_History") NaN (Str "medical_services") "dx_version_1" "determine_dx_version" "Care";
    mkRule (Str "Medication_History") (Str "PatientID") (Str "pharmacy_data") "patient_id" "" "Meds";
    mkRule (Str "Medication_History") (Str "DrugCode") (Str "pharmacy_data") "rx_cd" "" "Meds";
    mkRule (Str "Medication_History") NaN (Str "pharmacy_data") "rx_code_type" "determine_rx_code_type" "Meds" ].

(** The first column of a frame, with its name. *)
Definition first_column (df : DataFrame) : option (string * Series) :=
  head (df_columns df).

(** [not pd.isna(v)] and [str(v) != ''], the two tests of the row filters. *)
Definition present (v : value) : Prop := isna v = false.

Definition not_blank_text (v : value) : Prop := py_str v ≠ "".

(** The frames the source-label loop of the medical-services generator
    collects. *)
Definition medical_rows_ok (target_columns : list string) (df : DataFrame) : Prop :=
  column_names df = target_columns
  ∧ column_all non_empty "patient_id" df
  ∧ column_all non_empty "dx_cd_1" df
  ∧ column_if_present not_blank_text "dx_version_1" df.

Definition pharmacy_rows_ok (target_columns : list string) (df : DataFrame) : Prop :=
  column_names df = target_columns
  ∧ column_all non_empty "patient_id" df
  ∧ column_all non_empty "rx_cd" df.

(** The column [determine_dx_version] is to read, in the words of the
    specification: the source column of the group's first rule that targets
    dx_cd_1, when there is such a rule and its source column is non-empty
    and a column of the source table. *)
Definition dx_cd_1_source (source_mapping : list MappingRule) (source_df : DataFrame)
    : option string :=
  match filter (λ r, TargetACGColumn r = "dx_cd_1") source_mapping with
  | needed :: _ =>
      if blank (InputColumn needed)
         || negb (has_column (py_str (InputColumn needed)) source_df)
      then None
      else Some (py_str (InputColumn needed))
  | [] => None
  end.

Definition demo_patient_output : DataFrame :=
  mkDataFrame [LPos 0; LPos 1]
    [("patient_id", [Str "1"; Str "2"]);
     ("age", [Str "38"; Str "31"]);
     ("sex", [Str "1"; Str "2"])].

Definition demo_medical_output : DataFrame :=
  mkDataFrame [LPos 0; LPos 1]
    [("patient_id", [Str "1"; Str "2"]);
     ("dx_cd_1", [Str "G30.."; Str "XE0Uc"]);
     ("dx_version_1", [Str "S"; Str "S"])].

Definition demo_pharmacy_output : DataFrame :=
  mkDataFrame [LPos 0; LPos 1]
    [("patient_id", [Str "1"; Str "2"]);
     ("rx_cd", [Str "a123."; Str "b456."]);
     ("rx_code_type", [Str "RRxUK"; Str "RRxUK"])].

(** [to_csv] on a disk that takes every file, and on one where the patient
    file cannot be written. *)
Definition disk_ok : string → bool := λ _, true.

Definition patient_file_unwritable : string → bool :=
  λ target_file, bool_decide (target_file ≠ "patient_data").

(** A patient_data mapping that does not mention the merge key. *)
Definition age_only_mapping : list MappingRule :=
  [ mkRule (Str "Patient_Details") (Str "Age") (Str "patient_data") "age" "" "" ].

(** A patient_data mapping with a rule that reads another dataset. *)
Definition foreign_code_rule : MappingRule :=
  mkRule (Str "Care_History") (Str "Code") (Str "patient_data") "last_code" "" "".

Definition foreign_code_mapping : list MappingRule :=
  [ mkRule (Str "Patient_Details") (Str "Age") (Str "patient_data") "age" "" "";
    foreign_code_rule ].

(** The same, with the rule's target named like the merge key. *)
Definition foreign_key_mapping : list MappingRule :=
  [ mkRule (Str "Care_History") (Str "PatientID") (Str "patient_data") "PatientID" "" "" ].

(** A care-history extract with a code-system column that is blank in its
    first row (read as missing) and a mapping that copies it. *)
Definition care_with_code_system : DataFrame :=
  mkDataFrame [LPos 0; LPos 1]
    [("PatientID", [Str "1"; Str "2"]);
     ("Code", [Str "G30.."; Str "H54.."]);
     ("CodeSystem", [NaN; Str "S"])].

Definition code_system_mapping : list MappingRule :=
  [ mkRule (Str "Care_History") (Str "PatientID") (Str "medical_services") "patient_id" "" "Care";
    mkRule (Str "Care_History") (Str "Code") (Str "medical_services") "dx_cd_1" "" "Care";
    mkRule (Str "Care_History") (Str "CodeSystem") (Str "medical_services") "dx_version_1" "" "Care" ].

(** A table whose header carries a leading blank, and a rule that names the
    column as the header spells it. *)
Definition padded_table : DataFrame :=
  mkDataFrame [LPos 0] [(" Age", [Str "38"])].

Definition padded_rule : MappingRule :=
  mkRule (Str "Patient_Details") (Str " Age") (Str "patient_data") "age" "" "".

(** A medical-services group with a dx_version_1 rule and no dx_cd_1 rule. *)
Definition version_rule : MappingRule :=
  mkRule (Str "Care_History") NaN (Str "medical_services") "dx_version_1"
         "determine_dx_version" "Care".

Definition version_only_mapping : list MappingRule :=
  [ mkRule (Str "Care_History") (Str "PatientID") (Str "medical_services") "patient_id" "" "Care";
    version_rule ].

(** A medical_services mapping that declares no patient_id column. *)
Definition code_only_mapping : list MappingRule :=
  [ mkRule (Str "Care_History") (Str "Code") (Str "medical_services") "dx_cd_1" "" "Care" ].


(** ** main.py *)

(** What [pd.read_csv(filepath, nrows=0, dtype=str)] gives: the header's
    column names, or one of the failures the caller tells apart. *)
Inductive header_read :=
  | HeaderColumns (columns : list string)
  | HeaderFileNotFound
  | HeaderEmptyData
  | HeaderOtherError.

(** The second component of [_identify_file_type]'s result, by kind. *)
Inductive identify_error :=
  | ConfigError
  | MatchesMultipleTypes (possible_matches : list string)
  | ColumnsDoNotMatch
  | FileNotFound
  | FileIsEmpty
  | ErrorReadingHeader.

(** [{col.lower() for col in cols}] *)
Definition lower_set (cols : list string) : gset string :=
  list_to_set (Py.lower <$> cols).

(** [self.config_column_sets], built by [MainWindow.__init__]. *)
Definition config_column_sets : list (string * list string) :=
  config.INPUT_FILE_COLUMNS.

(** The keys whose configured columns are the file's, case put aside. *)
Definition possible_matches (column_sets : list (string * list string))
    (file_columns : list string) : list string :=
  (filter (λ kc, lower_set file_columns = lower_set kc.2) column_sets).*1.

(** [MainWindow._identify_file_type], on the outcome of reading the
    header. *)
Definition _identify_file_type (read : header_read)
    : option string * option identify_error :=
  if decide (config_column_sets = []) then (None, Some ConfigError)
  else
    match read with
    | HeaderColumns file_columns =>
        match possible_matches config_column_sets file_columns with
        | [key] => (Some key, None)
        | [] => (None, Some ColumnsDoNotMatch)
        | matches => (None, Some (MatchesMultipleTypes matches))
        end
    | HeaderFileNotFound => (None, Some FileNotFound)
    | HeaderEmptyData => (None, Some FileIsEmpty)
    | HeaderOtherError => (None, Some ErrorReadingHeader)
    end.

(** What [pd.read_csv(file_path, dtype=str, encoding='utf-8')] gives in
    [ProcessingWorker.run]. *)
Inductive read_outcome :=
  | ReadTable (df : DataFrame)
  | ReadFileNotFound
  | ReadEmptyData
  | ReadOtherError.

(** The body of the loading loop of [ProcessingWorker.run] (lines 256-275):
    every failure but an empty file becomes a [RuntimeError]; an empty file
    is loaded as [pd.DataFrame()]. *)
Definition load_file (read_csv : string → read_outcome)
    (loaded_data_dict : gmap string DataFrame) (config_key file_path : string)
    : result (gmap string DataFrame) :=
  match read_csv file_path with
  | ReadTable df =>
      if bool_decide (config_key ≠ "Patient_Details")
         && negb (has_column config.MERGE_KEY df)
      then Raise RuntimeError (* the ValueError, re-raised *)
      else Ok (<[config_key := df]> loaded_data_dict)
  | ReadFileNotFound => Raise RuntimeError
  | ReadEmptyData => Ok (<[config_key := mkDataFrame [] []]> loaded_data_dict)
  | ReadOtherError => Raise RuntimeError
  end.

(** The loading loop, over the items of [input_files_dict] in insertion
    order. *)
Fixpoint load_files (read_csv : string → read_outcome)
    (input_files : list (string * string))
    (loaded_data_dict : gmap string DataFrame) : result (gmap string DataFrame) :=
  match input_files with
  | [] => Ok loaded_data_dict
  | (config_key, file_path) :: rest =>
      loaded ← load_file read_csv loaded_data_dict config_key file_path;
      load_files read_csv rest loaded
  end.

(** [ProcessingWorker.run]: the events of the generation it starts, if it
    gets that far, and the [success] flag it emits.  Both [except] clauses
    of the outer [try] leave [success] false. *)
Definition worker_run (read_csv : string → read_outcome)
    (mapping_load : option (list MappingRule)) (to_csv : string → bool)
    (input_files : list (string * string)) : list event * bool :=
  match load_files read_csv input_files ∅ with
  | Raise _ => ([], false)
  | Ok loaded_data_dict =>
      if bool_decide (size loaded_data_dict ≠ length input_files)
      then ([], false)
      else
        match generate_acg_files mapping_load to_csv loaded_data_dict with
        | (trace, Ok _) => (trace, true)
        | (trace, Raise _) => (trace, false)
        end
  end.

(** ** Well-formed tables *)

(** A rectangular frame: every column has one value per row. *)
Definition rectangular (df : DataFrame) : Prop :=
  Forall (λ cs, length cs.2 = nrows df) (df_columns df).

(** A rule the patient-data generator skips (line 129): it names a source
    column in a dataset other than Patient_Details. *)
Definition skipped (row : MappingRule) : Prop :=
  InputConfigKey row ≠ Str required_input_key ∧ blank (InputColumn row) = false.

(** The patient_data rules of a mapping. *)
Definition patient_rules (mapping_df : list MappingRule) : list MappingRule :=
  filter (λ r, TargetACGFile r = Str "patient_data") mapping_df.


(** ** Sample files, tables and mappings *)

(** The three files of a run, and a reader that finds the sample tables in
    them. *)
Definition demo_files : list (string * string) :=
  [("Patient_Details", "patients.csv");
   ("Care_History", "care.csv");
   ("Medication_History", "meds.csv")].

Definition demo_read_csv (file_path : string) : read_outcome :=
  if decide (file_path = "patients.csv") then ReadTable demo_patients
  else if decide (file_path = "care.csv") then ReadTable demo_care
  else if decide (file_path = "meds.csv") then ReadTable demo_meds
  else ReadFileNotFound.

(** A care table that lacks the merge key, and a reader that finds it. *)
Definition care_without_key : DataFrame :=
  mkDataFrame [LPos 0; LPos 1] [("Code", [Str "G30.."; Str "XE0Uc"])].

Definition read_care_without_key (file_path : string) : read_outcome :=
  if decide (file_path = "care.csv") then ReadTable care_without_key
  else demo_read_csv file_path.

(** A reader for which the patient file is empty. *)
Definition read_empty_patients (file_path : string) : read_outcome :=
  if decide (file_path = "patients.csv") then ReadEmptyData
  else demo_read_csv file_path.

(** A header that lists the Care_History columns in another order and
    another letter case. *)
Definition care_header : list string :=
  ["CODE"; "patientid"; "CodeTerm"; "EffectiveDate"; "Value"; "UNIT"].

Definition age_rule : MappingRule :=
  mkRule (Str "Patient_Details") (Str "Age") (Str "patient_data") "age" "" "".

(** A patient_data mapping with a rule that targets the merge key's name
    and none that targets patient_id. *)
Definition merge_key_target_rule : MappingRule :=
  mkRule (Str "Patient_Details") (Str "Age") (Str "patient_data") "PatientID" "" "".

Definition merge_key_target_mapping : list MappingRule :=
  [ age_rule; merge_key_target_rule ].

(** A pharmacy_data mapping that declares no patient_id column. *)
Definition drug_only_mapping : list MappingRule :=
  [ mkRule (Str "Medication_History") (Str "DrugCode") (Str "pharmacy_data") "rx_cd" "" "Meds" ].

(** A cost rule without a source column, and one that names a column. *)
Definition zero_cost_rule : MappingRule :=
  mkRule (Str "Care_History") NaN (Str "medical_services") "cost" "set_zero_cost" "Care".

Definition zero_cost_from_code_rule : MappingRule :=
  mkRule (Str "Care_History") (Str "Code") (Str "medical_services") "cost" "set_zero_cost" "Care".

(** A second medical source, whose rules declare no dx_version_1. *)
Definition demo_conditions : DataFrame :=
  mkDataFrame [LPos 0; LPos 1]
    [("PatientID", [Str "2"; Str "3"]);
     ("ConditionCode", [Str "C10.."; Str "H33.."])].

Definition two_source_input : gmap string DataFrame :=
  <["Long_Term_Conditions" := demo_conditions]> demo_input.

Definition two_source_mapping : list MappingRule :=
  [ mkRule (Str "Care_History") (Str "PatientID") (Str "medical_services") "patient_id" "" "Care";
    mkRule (Str "Care_History") (Str "Code") (Str "medical_services") "dx_cd_1" "" "Care";
    mkRule (Str "Care_History") NaN (Str "medical_services") "dx_version_1" "determine_dx_version" "Care";
    mkRule (Str "Long_Term_Conditions") (Str "PatientID") (Str "medical_services") "patient_id" "" "LTC";
    mkRule (Str "Long_Term_Conditions") (Str "ConditionCode") (Str "medical_services") "dx_cd_1" "" "LTC" ].

(** The column [determine_rx_code_type] reads (lines 457-468): the source
    column of the group's first rule that targets rx_cd, when there is such
    a rule and its source column is non-empty and a column of the source
    table. *)
Definition rx_cd_source (source_mapping : list MappingRule) (source_df : DataFrame)
    : option string :=
  match filter (λ r, TargetACGColumn r = "rx_cd") source_mapping with
  | needed :: _ =>
      if blank (InputColumn needed)
         || negb (has_column (py_str (InputColumn needed)) source_df)
      then None
      else Some (py_str (InputColumn needed))
  | [] => None
  end.

(** A pharmacy group without an rx_cd rule, and its rx_code_type rule. *)
Definition type_rule : MappingRule :=
  mkRule (Str "Medication_History") NaN (Str "pharmacy_data") "rx_code_type"
         "determine_rx_code_type" "Meds".

Definition type_only_mapping : list MappingRule :=
  [ mkRule (Str "Medication_History") (Str "PatientID") (Str "pharmacy_data") "patient_id" "" "Meds";
    type_rule ].

(** ** Rows *)

(** The cell of column [c] in the row at position [i]. *)
Definition cell (df : DataFrame) (c : string) (i : nat) : option value :=
  df_get c df ≫= (λ s, s !! i).

(** Every row of [f] is a row of [df], the same one in every column. *)
Definition rows_of (f df : DataFrame) : Prop :=
  ∀ i, i < nrows f → ∃ j, j < nrows df ∧ ∀ c, cell f c i = cell df c j.

(** The sex rule of the sample mapping. *)
Definition sex_rule : MappingRule :=
  mkRule (Str "Patient_Details") (Str "GenderCode") (Str "patient_data") "sex"
         "transform_sex" "".

(** A table whose header ends in a no-break space, a rule that names the
    column in the same way, and a patient_data rule on another dataset
    whose source column is a no-break space only. *)
Definition nbsp_padded_table : DataFrame :=
  mkDataFrame [LPos 0] [("Age" +:+ Py.nbsp, [Str "38"])].

Definition nbsp_padded_rule : MappingRule :=
  mkRule (Str "Patient_Details") (Str ("Age" +:+ Py.nbsp)) (Str "patient_data")
         "age" "" "".

Definition nbsp_foreign_mapping : list MappingRule :=
  [ age_rule;
    mkRule (Str "Care_History") (Str Py.nbsp) (Str "patient_data") "last_code" "" "" ].

(** * Properties *)

(** ** Python strings *)

Lemma is_space2_exclusive (c1 c2 : ascii) :
  Py.is_space2 c1 c2 = true → Py.is_space1 c1 = false ∧ Py.is_space1 c2 = false.
Proof.
  unfold Py.is_space2, Py.is_space1.
  generalize (nat_of_ascii c1) (nat_of_ascii c2). intros n1 n2.
  rewrite !andb_true_iff, !orb_true_iff, !orb_false_iff, !andb_false_iff,
    !Nat.eqb_eq, !Nat.leb_gt. lia.
Qed.

Lemma is_space3_exclusive (c1 c2 c3 : ascii) :
  Py.is_space3 c1 c2 c3 = true →
  Py.is_space1 c1 = false ∧ Py.is_space1 c2 = false ∧ Py.is_space1 c3 = false
  ∧ Py.is_space2 c1 c2 = false ∧ Py.is_space2 c2 c3 = false.
Proof.
  unfold Py.is_space3, Py.is_space2, Py.is_space1.
  generalize (nat_of_ascii c1) (nat_of_ascii c2) (nat_of_ascii c3). intros n1 n2 n3.
  rewrite !orb_true_iff, !andb_true_iff, !orb_true_iff, !andb_true_iff,
    !orb_false_iff, !andb_false_iff, !orb_false_iff,
    !Nat.eqb_eq, !Nat.eqb_neq, !Nat.leb_le, !Nat.leb_gt. lia.
Qed.

Lemma rstrip_one (s : string) (c : ascii) :
  Py.rstrip s = String c "" →
  ∃ w, s = String c w ∧ Py.rstrip w = "" ∧ Py.is_space1 c = false.
Proof.
  destruct s as [|a s']; simpl; [done|].
  destruct (Py.rstrip s') as [|c2 [|c3 [|c4 r]]] eqn:Hr.
  - destruct (Py.is_space1 a) eqn:Ha; [done|]. intros [= ->]. by exists s'.
  - by destruct (Py.is_space2 a c2).
  - by destruct (Py.is_space3 a c2 c3).
  - done.
Qed.

Lemma rstrip_two (s : string) (c2 c3 : ascii) :
  Py.rstrip s = String c2 (String c3 "") →
  ∃ w, s = String c2 (String c3 w) ∧ Py.rstrip w = ""
       ∧ Py.is_space1 c3 = false ∧ Py.is_space2 c2 c3 = false.
Proof.
  destruct s as [|a s']; simpl; [done|].
  destruct (Py.rstrip s') as [|b [|b' [|b'' r]]] eqn:Hr.
  - by destruct (Py.is_space1 a).
  - destruct (Py.is_space2 a b) eqn:H2; [done|]. intros [= -> ->].
    apply rstrip_one in Hr as (w & -> & Hw & H1). by exists w.
  - by destruct (Py.is_space3 a b b').
  - done.
Qed.

Lemma rstrip_empty (s : string) :
  Py.rstrip s = "" ↔ Py.whitespace_only s = true.
Proof.
  remember (String.length s) as n eqn:Hn. revert s Hn.
  induction n as [n IH] using lt_wf_ind. intros s ->.
  destruct s as [|c1 s1]; [done|].
  assert (IH1 : Py.rstrip s1 = "" ↔ Py.whitespace_only s1 = true)
    by (eapply IH; [|done]; simpl; lia).
  split.
  - simpl. destruct (Py.rstrip s1) as [|c2 [|c3 [|c4 r]]] eqn:Hr.
    + destruct (Py.is_space1 c1); [intros _; by apply IH1|done].
    + destruct (Py.is_space2 c1 c2) eqn:H2; [intros _|done].
      apply rstrip_one in Hr as (w & -> & Hw & _).
      destruct (is_space2_exclusive _ _ H2) as [-> _]. rewrite H2.
      eapply IH; [|done|done]. simpl. lia.
    + destruct (Py.is_space3 c1 c2 c3) eqn:H3; [intros _|done].
      apply rstrip_two in Hr as (w & -> & Hw & _ & _).
      destruct (is_space3_exclusive _ _ _ H3) as (-> & _ & _ & -> & _). rewrite H3.
      simpl. eapply IH; [|done|done]. simpl. lia.
    + done.
  - cbn [Py.whitespace_only]. destruct (Py.is_space1 c1) eqn:H1.
    + intros Hw%IH1. simpl. by rewrite Hw, H1.
    + destruct s1 as [|c2 s2]; [done|].
      destruct (Py.is_space2 c1 c2) eqn:H2.
      * intros Hw. destruct (is_space2_exclusive _ _ H2) as [_ H12].
        assert (Hr : Py.rstrip s2 = "") by (eapply IH; [|done|done]; simpl; lia).
        simpl. by rewrite Hr, H12, H2.
      * destruct s2 as [|c3 s3]; [done|].
        intros [H3 Hw]%andb_true_iff.
        destruct (is_space3_exclusive _ _ _ H3) as (_ & _ & H13 & _ & H23).
        assert (Hr : Py.rstrip s3 = "") by (eapply IH; [|done|done]; simpl; lia).
        simpl. by rewrite Hr, H13, H23, H3.
Qed.

Lemma whitespace_only_lstrip (s : string) :
  Py.whitespace_only (Py.lstrip s) = Py.whitespace_only s.
Proof.
  remember (String.length s) as n eqn:Hn. revert s Hn.
  induction n as [n IH] using lt_wf_ind. intros s ->.
  destruct s as [|c1 s1]; [done|].
  cbn [Py.lstrip Py.whitespace_only]. destruct (Py.is_space1 c1) eqn:H1.
  - eapply IH; [|done]. simpl. lia.
  - destruct s1 as [|c2 s2]; [by cbn; rewrite H1|].
    destruct (Py.is_space2 c1 c2) eqn:H2.
    + eapply IH; [|done]. simpl. lia.
    + destruct s2 as [|c3 s3]; [by cbn; rewrite H1, H2|].
      destruct (Py.is_space3 c1 c2 c3) eqn:H3.
      * simpl. eapply IH; [|done]. simpl. lia.
      * cbn. by rewrite H1, H2, H3.
Qed.

Lemma strip_empty (s : string) :
  Py.strip s = "" ↔ Py.whitespace_only s = true.
Proof. unfold Py.strip. by rewrite rstrip_empty, whitespace_only_lstrip. Qed.

Lemma strip_empty_decide (s : string) :
  bool_decide (Py.strip s = "") = Py.whitespace_only s.
Proof.
  destruct (Py.whitespace_only s) eqn:H.
  - apply bool_decide_eq_true, strip_empty, H.
  - apply bool_decide_eq_false. rewrite strip_empty, H. discriminate.
Qed.

(** ** The transformation registry *)

Lemma sex_mapping_lookup (k : string) :
  config.sex_mapping !! k =
    if decide (k = "M") then Some "1"
    else if decide (k = "F") then Some "2"
    else if decide (k = "1") then Some "1"
    else if decide (k = "2") then Some "2"
    else None.
Proof.
  unfold config.sex_mapping. simpl.
  rewrite !lookup_insert, lookup_empty.
  repeat case_decide; congruence.
Qed.

Lemma sex_code_refines (v : value) :
  config.sex_code (py_str v) = sex_code_spec v.
Proof.
  destruct v as [|s]; [by vm_compute|].
  unfold config.sex_code. simpl. rewrite sex_mapping_lookup.
  destruct s as [|c [|c2 s2]]; [by vm_compute| |].
  - destruct c as [[] [] [] [] [] [] [] []]; by vm_compute.
  - simpl. unfold sex_code_spec.
    repeat (case_decide; [congruence|]).
    rewrite !decide_False; [done| |];
      intros Hin; repeat (apply elem_of_cons in Hin as [Hin|Hin]; [congruence|]);
      by apply elem_of_nil in Hin.
Qed.

(** C7. [transform_sex] is total and maps each input value, missing or
    not, to one of "1", "2", "9": "M", "m" and "1" give "1"; "F", "f" and
    "2" give "2"; every other value, the empty string and the missing value
    included, gives "9". *)
Theorem transform_sex_total_mapping (codes : Series) :
  config.transform_sex (config.InSeries codes)
    = config.RetSeries (sex_code_spec <$> codes)
  ∧ Forall (λ v, v ∈ [Str "1"; Str "2"; Str "9"]) (sex_code_spec <$> codes)
  ∧ sex_code_spec <$> [Str "M"; Str "m"; Str "1"; Str "F"; Str "f"; Str "2"; Str ""; NaN]
    = [Str "1"; Str "1"; Str "1"; Str "2"; Str "2"; Str "2"; Str "9"; Str "9"].
Proof.
  split; [|split].
  - unfold config.transform_sex, astype_str. f_equal.
    rewrite <- list_fmap_compose. apply list_fmap_ext.
    intros _ v _. apply sex_code_refines.
  - apply Forall_fmap, Forall_true. intros v. unfold sex_code_spec. simpl.
    repeat case_decide; rewrite !elem_of_cons; auto.
  - by vm_compute.
Qed.

Lemma get_version_refines (code : value) :
  config.get_version code = dx_version_spec code.
Proof.
  destruct code as [|s]; [done|].
  unfold config.get_version. simpl. by rewrite strip_empty_decide.
Qed.

(** C8. [determine_dx_version] gives "S" for every value that is non-empty
    and not white space only, and the empty string for a missing, empty or
    white-space-only value, the white space of Unicode included;
    "195967001" gives "S", and "", two spaces, a no-break space and an em
    space followed by a space give "". *)
Theorem determine_dx_version_contract (codes : Series) :
  config.determine_dx_version (config.InSeries codes)
    = config.RetSeries (dx_version_spec <$> codes)
  ∧ config.determine_dx_version
      (config.InSeries [Str "195967001"; Str ""; Str "  "; Str Py.nbsp;
                        Str (Py.em_space +:+ " "); NaN])
    = config.RetSeries [Str "S"; Str ""; Str ""; Str ""; Str ""; Str ""].
Proof.
  split; [|by vm_compute].
  unfold config.determine_dx_version. f_equal.
  apply list_fmap_ext. intros _ v _. apply get_version_refines.
Qed.

(** ** Column resolution *)

Lemma length_nan_series (n : nat) : length (nan_series n) = n.
Proof. apply length_replicate. Qed.

Ltac logged_simpl :=
  unfold mbind, mret, logged_bind, logged_ret, tell in *; simpl in *.

(** C5. For every transform name, registered or not, and every source
    table, [_apply_transformation] gives back a column (it never raises:
    an exception of the registry function is caught) whose length is the
    table's row count; for a name that is not in the registry the column is
    all missing and one error is logged. *)
Theorem apply_transformation_total (target_col_name transform_key : string)
    (source_df : DataFrame) (source_col_name : option string) :
  length (_apply_transformation target_col_name transform_key source_df source_col_name).1
    = nrows source_df
  ∧ match config.TRANSFORMATIONS to_datetime !! transform_key with
    | Some _ => True
    | None =>
        _apply_transformation target_col_name transform_key source_df source_col_name
          = (nan_series (nrows source_df),
             [(ERROR, "Transformation function not found in config.TRANSFORMATIONS")])
    end.
Proof.
  unfold _apply_transformation.
  destruct (config.TRANSFORMATIONS to_datetime !! transform_key) as [f|];
    [|split; [apply length_nan_series|done]].
  split; [|done].
  destruct (truthy source_col_name) as [c|];
    [destruct (df_get c source_df) as [input|]; [|apply length_nan_series]|];
    logged_simpl.
  - destruct (f (config.InSeries input)) as [vals|vals|e]; simpl;
      try case_bool_decide; simpl; rewrite ?length_nan_series; try done;
      by apply dec_stable.
  - destruct (f (config.InIndex (df_index source_df))) as [vals|vals|e]; simpl;
      try case_bool_decide; simpl; rewrite ?length_nan_series; try done;
      by apply dec_stable.
Qed.

Lemma input_column_step_direct (source_df : DataFrame) (row : MappingRule) (col : Series) :
  blank (InputColumn row) = false →
  df_get (Py.strip (py_str (InputColumn row))) source_df = Some col →
  TransformationFunction row = "" →
  input_column_step source_df row
    = (col, Some (Py.strip (py_str (InputColumn row))), []).
Proof.
  intros Hb Hc Ht. unfold input_column_step.
  rewrite Hb, Hc, Ht. simpl. done.
Qed.

(** C6 (amended). A mapping rule whose source column, once surrounding
    white space is stripped, is non-empty and names a column of the source
    table, and whose transform is empty, produces that column's values
    verbatim, row for row, in the medical-services and pharmacy-data
    generators, and in the patient-data generator when the rule reads
    Patient_Details (any other dataset makes the patient-data generator skip
    the rule). *)
Theorem direct_copy_identity (source_mapping : list MappingRule)
    (source_df : DataFrame) (row : MappingRule) (col : Series) :
  blank (InputColumn row) = false →
  df_get (Py.strip (py_str (InputColumn row))) source_df = Some col →
  TransformationFunction row = "" →
  (medical_rule source_mapping source_df row).1 = col
  ∧ (pharmacy_rule source_mapping source_df row).1 = col
  ∧ (patient_rule source_df row).1
    = if decide (InputConfigKey row = Str required_input_key) then Some col else None.
Proof.
  intros Hb Hc Ht.
  pose proof (input_column_step_direct _ _ _ Hb Hc Ht) as Hstep.
  unfold medical_rule, pharmacy_rule, source_rule, patient_rule.
  logged_simpl. rewrite Hstep, Ht, Hb. simpl.
  split; [done|split; [done|]].
  destruct (decide (InputConfigKey row = Str required_input_key)) as [Hk|Hk].
  - rewrite decide_False by (by intros []). done.
  - rewrite decide_True by done. done.
Qed.

(** ** The orchestrator *)

Lemma save_file_trace (to_csv : string → bool) (f : string) (df : option DataFrame) :
  generators_run (save_file to_csv f df).1 = []
  ∧ errors_raised (save_file to_csv f df).1 = []
  ∧ (save_file to_csv f df).2 = has_rows df && to_csv f.
Proof.
  unfold save_file. destruct (has_rows df), (to_csv f); done.
Qed.

Lemma generators_run_app (t1 t2 : list event) :
  generators_run (t1 ++ t2) = generators_run t1 ++ generators_run t2.
Proof. apply omap_app. Qed.

Lemma errors_raised_app (t1 t2 : list event) :
  errors_raised (t1 ++ t2) = errors_raised t1 ++ errors_raised t2.
Proof. apply omap_app. Qed.

(** C1 (amended). Once the mapping is loaded, and unless a generator
    itself raises, a run calls all three generators, in order, before it
    decides its outcome; it raises exactly one run-level error, after the
    third generator, if and only if the patient-data or the
    medical-services generator yields no rows or the file of one of the two
    cannot be written; whether the pharmacy-data generator yields rows, and
    whether its file can be written, does not make the run raise. *)
Theorem generate_acg_files_fails_at_end (mapping_df : list MappingRule)
    (to_csv : string → bool) (input_data_dict : gmap string DataFrame)
    (medical_df pharmacy_df : option DataFrame) :
  _generate_medical_services input_data_dict mapping_df = Ok medical_df →
  _generate_pharmacy_data input_data_dict mapping_df = Ok pharmacy_df →
  let patient_df := _generate_patient_data input_data_dict mapping_df in
  let run := generate_acg_files (Some mapping_df) to_csv input_data_dict in
  let essential_files_written :=
    (has_rows patient_df && to_csv "patient_data")
    && (has_rows medical_df && to_csv "medical_services") in
  generators_run run.1 = ["patient_data"; "medical_services"; "pharmacy_data"]
  ∧ errors_raised run.1 = (if essential_files_written then [] else [RuntimeError])
  ∧ run.2 = (if essential_files_written then Ok () else Raise RuntimeError)
  ∧ (if essential_files_written then True else last run.1 = Some (Raises RuntimeError)).
Proof.
  intros Hm Hx patient_df run written. subst run. unfold generate_acg_files.
  rewrite Hm, Hx. fold patient_df.
  destruct (save_file_trace to_csv "patient_data" patient_df) as (Hg1 & He1 & Hs1).
  destruct (save_file_trace to_csv "medical_services" medical_df) as (Hg2 & He2 & Hs2).
  destruct (save_file_trace to_csv "pharmacy_data" pharmacy_df) as (Hg3 & He3 & _).
  destruct (save_file to_csv "patient_data" patient_df) as [t1 ok1].
  destruct (save_file to_csv "medical_services" medical_df) as [t2 ok2].
  destruct (save_file to_csv "pharmacy_data" pharmacy_df) as [t3 ok3].
  cbn [fst snd] in *. subst ok1 ok2. cbn [andb]. fold written. clearbody written.
  set (steps := ((Generates "patient_data" :: t1) ++ Generates "medical_services" :: t2)
                ++ Generates "pharmacy_data" :: t3).
  assert (Hg : generators_run steps = ["patient_data"; "medical_services"; "pharmacy_data"]).
  { unfold steps.
    change (Generates "patient_data" :: t1) with ([Generates "patient_data"] ++ t1).
    change (Generates "medical_services" :: t2) with ([Generates "medical_services"] ++ t2).
    change (Generates "pharmacy_data" :: t3) with ([Generates "pharmacy_data"] ++ t3).
    by rewrite !generators_run_app, Hg1, Hg2, Hg3. }
  assert (He : errors_raised steps = []).
  { unfold steps.
    change (Generates "patient_data" :: t1) with ([Generates "patient_data"] ++ t1).
    change (Generates "medical_services" :: t2) with ([Generates "medical_services"] ++ t2).
    change (Generates "pharmacy_data" :: t3) with ([Generates "pharmacy_data"] ++ t3).
    by rewrite !errors_raised_app, He1, He2, He3. }
  destruct written; cbn [fst snd].
  - by rewrite Hg, He.
  - rewrite generators_run_app, errors_raised_app, Hg, He.
    repeat split; try done. apply last_snoc.
Qed.

(** ** Frames: lookup, assignment, selection *)

Lemma assoc_None {A} (k : string) (l : list (string * A)) :
  assoc k l = None ↔ k ∉ l.*1.
Proof.
  induction l as [|[k' a] l IH]; simpl.
  - split; [intros _; apply not_elem_of_nil|done].
  - rewrite not_elem_of_cons. case_decide; [|tauto].
    split; [discriminate|]. intros [? _]. done.
Qed.

Lemma assoc_is_Some {A} (k : string) (l : list (string * A)) :
  is_Some (assoc k l) ↔ k ∈ l.*1.
Proof.
  rewrite <- not_eq_None_Some, assoc_None.
  split; [apply dec_stable|auto].
Qed.

Lemma assoc_set_lookup {A} (k k' : string) (a : A) (l : list (string * A)) :
  assoc k (assoc_set k' a l) = if decide (k = k') then Some a else assoc k l.
Proof.
  induction l as [|[k0 a0] l IH]; simpl.
  - repeat case_decide; congruence.
  - destruct (decide (k' = k0)) as [->|Hne]; simpl.
    + repeat case_decide; congruence.
    + rewrite IH. repeat case_decide; congruence.
Qed.

Lemma assoc_set_names {A} (k : string) (a : A) (l : list (string * A)) :
  (assoc_set k a l).*1 = if decide (k ∈ l.*1) then l.*1 else l.*1 ++ [k].
Proof.
  induction l as [|[k0 a0] l IH].
  - simpl. done.
  - cbn [assoc_set fmap list_fmap fst].
    destruct (decide (k = k0)) as [->|Hne]; cbn [fmap list_fmap fst].
    + rewrite decide_True; [done|left].
    + rewrite IH. destruct (decide (k ∈ l.*1)) as [Hin|Hnin].
      * rewrite decide_True; [done|by right].
      * rewrite decide_False; [done|].
        rewrite not_elem_of_cons. done.
Qed.

Lemma df_get_None (c : string) (df : DataFrame) :
  df_get c df = None ↔ c ∉ column_names df.
Proof. apply assoc_None. Qed.

Lemma df_get_set (c c' : string) (s : Series) (df : DataFrame) :
  df_get c (df_set c' s df) = if decide (c = c') then Some s else df_get c df.
Proof. apply assoc_set_lookup. Qed.

Lemma column_names_set (c : string) (s : Series) (df : DataFrame) :
  column_names (df_set c s df)
    = if decide (c ∈ column_names df) then column_names df else column_names df ++ [c].
Proof. apply assoc_set_names. Qed.

Lemma elem_of_column_names_set (c c' : string) (s : Series) (df : DataFrame) :
  c ∈ column_names (df_set c' s df) ↔ c = c' ∨ c ∈ column_names df.
Proof.
  rewrite column_names_set. case_decide.
  - split; [auto|]. intros [->|?]; done.
  - rewrite elem_of_app, list_elem_of_singleton. tauto.
Qed.

Lemma df_select_Some (cols : list string) (df out : DataFrame) :
  df_select cols df = Some out →
  df_index out = df_index df
  ∧ Forall2 (λ c cs, cs.1 = c ∧ df_get c df = Some cs.2) cols (df_columns out).
Proof.
  unfold df_select. intros H.
  apply fmap_Some in H as (l & Hl & ->). simpl. split; [done|].
  apply mapM_Some in Hl.
  eapply Forall2_impl; [exact Hl|].
  intros c [c' s] Hc. simpl in *.
  apply fmap_Some in Hc as (s' & Hs & [= -> ->]). done.
Qed.

Lemma df_select_None (cols : list string) (df : DataFrame) (c : string) :
  c ∈ cols → c ∉ column_names df → df_select cols df = None.
Proof.
  intros Hin Hno. unfold df_select.
  destruct (mapM _ cols) as [l|] eqn:Hl; [|done]. exfalso.
  apply mapM_Some in Hl.
  apply list_elem_of_lookup in Hin as [i Hi].
  destruct (Forall2_lookup_l _ _ _ _ _ Hl Hi) as (cs & _ & Hcs).
  apply fmap_Some in Hcs as (s & Hs & _).
  apply df_get_None in Hno. congruence.
Qed.

Lemma df_select_names (cols : list string) (df out : DataFrame) :
  df_select cols df = Some out → column_names out = cols.
Proof.
  intros (_ & H)%df_select_Some. unfold column_names.
  destruct out as [idx l0]. simpl in *.
  induction H as [|c [c' s] cols l [Hc _] _ IH]; simpl in *; [done|].
  subst c'. f_equal. exact IH.
Qed.

Lemma df_get_select (cols : list string) (df out : DataFrame) (c : string) :
  df_select cols df = Some out →
  df_get c out = if decide (c ∈ cols) then df_get c df else None.
Proof.
  intros (_ & H)%df_select_Some. unfold df_get at 1.
  destruct out as [idx l0]. simpl in *.
  induction H as [|c0 [c' s] cols l [Hc Hs] _ IH]; simpl in *.
  - done.
  - subst c'. destruct (decide (c = c0)) as [->|Hne].
    + rewrite decide_True; [done|left].
    + rewrite IH. destruct (decide (c ∈ cols)) as [Hin|Hnin].
      * rewrite decide_True; [done|by right].
      * rewrite decide_False; [done|]. rewrite not_elem_of_cons. done.
Qed.

Lemma column_names_rename (old new : string) (df : DataFrame) :
  column_names (df_rename old new df)
    = (λ c, if decide (c = old) then new else c) <$> column_names df.
Proof.
  unfold column_names, df_rename. simpl.
  rewrite <- !list_fmap_compose. apply list_fmap_ext. by intros _ [c s] _.
Qed.

Lemma df_get_rename_new (old new : string) (df : DataFrame) :
  new ∉ column_names df →
  df_get new (df_rename old new df) = df_get old df.
Proof.
  unfold df_get, df_rename, column_names. simpl.
  induction (df_columns df) as [|[c s] l IH]; simpl; [done|].
  rewrite not_elem_of_cons. intros [Hne Hnin].
  destruct (decide (c = old)) as [->|Hco].
  - rewrite !decide_True by done. done.
  - rewrite decide_False by done. rewrite decide_False by congruence. auto.
Qed.

(** ** [unique]: first occurrences *)

Lemma elem_of_unique_from {A} `{EqDecision A} (seen l : list A) (x : A) :
  x ∈ unique_from seen l ↔ x ∈ l ∧ x ∉ seen.
Proof.
  revert seen. induction l as [|y l IH]; intros seen; simpl.
  - rewrite elem_of_nil. tauto.
  - case_decide.
    + rewrite IH, elem_of_cons. split; [tauto|].
      intros [[->|?] ?]; tauto.
    + rewrite !elem_of_cons, IH, not_elem_of_cons.
      destruct (decide (x = y)) as [->|]; tauto.
Qed.

Lemma elem_of_pd_unique {A} `{EqDecision A} (l : list A) (x : A) :
  x ∈ pd_unique l ↔ x ∈ l.
Proof.
  unfold pd_unique. rewrite elem_of_unique_from.
  split; [tauto|]. intros ?. split; [done|apply not_elem_of_nil].
Qed.

Lemma NoDup_unique_from {A} `{EqDecision A} (seen l : list A) :
  NoDup (unique_from seen l).
Proof.
  revert seen. induction l as [|y l IH]; intros seen; simpl.
  - constructor.
  - case_decide; [apply IH|].
    constructor; [|apply IH].
    rewrite elem_of_unique_from, not_elem_of_cons. tauto.
Qed.

Lemma NoDup_pd_unique {A} `{EqDecision A} (l : list A) : NoDup (pd_unique l).
Proof. apply NoDup_unique_from. Qed.

(** ** Masks and de-duplication *)

Lemma df_get_filter (c : string) (mask : list bool) (df : DataFrame) :
  df_get c (df_filter mask df) = filter_mask mask <$> df_get c df.
Proof.
  unfold df_get, df_filter. simpl.
  induction (df_columns df) as [|[c' s] l IH]; simpl; [done|].
  case_decide; [done|apply IH].
Qed.

Lemma column_names_filter (mask : list bool) (df : DataFrame) :
  column_names (df_filter mask df) = column_names df.
Proof.
  unfold column_names, df_filter. simpl.
  rewrite <- list_fmap_compose. apply list_fmap_ext. by intros _ [c s] _.
Qed.

Lemma filter_mask_first_seen (seen keys : Series) :
  filter_mask (first_seen_mask seen keys) keys = unique_from seen keys.
Proof.
  revert seen. induction keys as [|k keys IH]; intros seen; simpl; [done|].
  case_decide; simpl; by rewrite IH.
Qed.

Lemma unique_from_NoDup {A} `{EqDecision A} (seen l : list A) :
  NoDup l → (∀ x, x ∈ l → x ∉ seen) → unique_from seen l = l.
Proof.
  revert seen. induction l as [|y l IH]; intros seen Hnd Hseen; simpl; [done|].
  apply NoDup_cons in Hnd as [Hy Hnd].
  rewrite decide_False by (apply Hseen; left).
  f_equal. apply IH; [done|].
  intros x Hx. rewrite not_elem_of_cons. split.
  - intros ->. done.
  - apply Hseen. by right.
Qed.

Lemma pd_unique_NoDup {A} `{EqDecision A} (l : list A) :
  NoDup l → pd_unique l = l.
Proof.
  intros H. apply unique_from_NoDup; [done|]. intros x _. apply not_elem_of_nil.
Qed.

(** The scan with a set of seen keys keeps the rows of first occurrence. *)
Lemma first_seen_mask_spec (seen keys : Series) :
  first_seen_mask seen keys
    = imap (λ i k, bool_decide (k ∉ seen ++ take i keys)) keys.
Proof.
  revert seen. induction keys as [|k keys IH]; intros seen; [done|].
  rewrite imap_cons. simpl. rewrite app_nil_r.
  destruct (decide (k ∈ seen)) as [Hin|Hnin].
  - rewrite bool_decide_eq_false_2 by auto. f_equal.
    rewrite IH. apply imap_ext. intros i k' _. simpl.
    apply bool_decide_ext.
    rewrite !elem_of_app, elem_of_cons.
    split; intros H Hc; apply H; [destruct Hc as [?|[->|?]]; auto | tauto].
  - rewrite bool_decide_eq_true_2 by done. f_equal.
    rewrite IH. apply imap_ext. intros i k' _. simpl.
    apply bool_decide_ext.
    rewrite !elem_of_app, !elem_of_cons, elem_of_app. tauto.
Qed.

Lemma first_seen_mask_first_occurrence (keys : Series) :
  first_seen_mask [] keys = first_occurrence_mask keys.
Proof. apply first_seen_mask_spec. Qed.

Lemma prepare_patient_details_keys (pd : DataFrame) (keys : Series) :
  df_get config.MERGE_KEY pd = Some keys →
  df_get config.MERGE_KEY (prepare_patient_details pd keys) = Some (pd_unique keys)
  ∧ df_index (prepare_patient_details pd keys) = LKey <$> pd_unique keys.
Proof.
  intros Hk. unfold prepare_patient_details, is_unique.
  case_bool_decide as Hnd; simpl.
  - rewrite pd_unique_NoDup by done. unfold set_index. rewrite Hk. done.
  - assert (Hd : df_get config.MERGE_KEY (drop_duplicates config.MERGE_KEY pd)
                 = Some (pd_unique keys)).
    { unfold drop_duplicates. rewrite Hk, df_get_filter, Hk. simpl.
      by rewrite filter_mask_first_seen. }
    unfold set_index at 1 2. rewrite Hd. done.
Qed.

(** ** The patient-data generator *)

Lemma patient_rule_skips (patient_details_df : DataFrame) (row : MappingRule) :
  InputConfigKey row ≠ Str required_input_key →
  blank (InputColumn row) = false →
  (patient_rule patient_details_df row).1 = None.
Proof.
  intros Hk Hb. unfold patient_rule. logged_simpl.
  rewrite decide_True by done. by rewrite Hb.
Qed.

Lemma patient_loop_index (patient_details_df : DataFrame)
    (rules : list MappingRule) (out : DataFrame) :
  df_index (patient_loop patient_details_df rules out) = df_index out.
Proof.
  unfold patient_loop. revert out.
  induction rules as [|r rules IH]; intros out; simpl; [done|].
  rewrite IH. by destruct (patient_rule patient_details_df r).1.
Qed.

Lemma patient_loop_names (patient_details_df : DataFrame)
    (rules : list MappingRule) (out : DataFrame) (c : string) :
  c ∈ column_names (patient_loop patient_details_df rules out) →
  c ∈ column_names out
  ∨ ∃ r, r ∈ rules ∧ TargetACGColumn r = c
         ∧ (patient_rule patient_details_df r).1 ≠ None.
Proof.
  unfold patient_loop. revert out.
  induction rules as [|r rules IH]; intros out; simpl; [auto|].
  intros [Hc|(r' & Hr' & Ht & Hs)]%IH.
  - destruct (patient_rule patient_details_df r).1 as [s|] eqn:Hr; [|auto].
    apply elem_of_column_names_set in Hc as [->|Hc]; [|auto].
    right. exists r. split; [left|]. split; [done|]. by rewrite Hr.
  - right. exists r'. split; [by right|done].
Qed.

Lemma elem_of_list_remove (x y : string) (l : list string) :
  x ∈ l → x ≠ y → x ∈ list_remove y l.
Proof.
  intros Hin Hne. induction l as [|z l IH]; simpl; [done|].
  apply elem_of_cons in Hin as [->|Hin].
  - rewrite decide_False by done. left.
  - case_decide; [done|]. right. auto.
Qed.

Lemma elem_of_list_replace_first (x old new : string) (l : list string) :
  x ∈ l → x ≠ old → x ∈ list_replace_first old new l.
Proof.
  intros Hin Hne. induction l as [|z l IH]; simpl; [done|].
  apply elem_of_cons in Hin as [->|Hin].
  - rewrite decide_False by done. left.
  - case_decide; right; auto.
Qed.

Lemma list_insert_at_0 (x : string) (l : list string) :
  list_insert_at 0 x l = x :: l.
Proof. unfold list_insert_at. by rewrite take_0, drop_0. Qed.

Lemma place_patient_id_index (patient_details_df : DataFrame)
    (final_cols : list string) (out : DataFrame) :
  df_index (place_patient_id patient_details_df final_cols out).2 = df_index out.
Proof.
  unfold place_patient_id.
  repeat (case_decide || case_match); simplify_eq; done.
Qed.

(** C10 (amended). When a patient_data rule has a non-empty source column
    and a source dataset other than Patient_Details, no other rule supplies
    its target column (every patient_data rule with that target is such a
    rule), and its target column is not the merge-key name PatientID (or
    some rule targets patient_id), the rule is skipped, its target stays in
    the declared columns, and the patient-data generation returns no
    output. *)
Theorem patient_data_fails_on_foreign_dataset (input_data_dict : gmap string DataFrame)
    (mapping_df : list MappingRule) (row : MappingRule) :
  row ∈ mapping_df →
  TargetACGFile row = Str "patient_data" →
  InputConfigKey row ≠ Str required_input_key →
  blank (InputColumn row) = false →
  (∀ r, r ∈ mapping_df → TargetACGFile r = Str "patient_data" →
        TargetACGColumn r = TargetACGColumn row →
        InputConfigKey r ≠ Str required_input_key ∧ blank (InputColumn r) = false) →
  TargetACGColumn row ≠ config.MERGE_KEY
  ∨ (∃ r, r ∈ mapping_df ∧ TargetACGFile r = Str "patient_data"
          ∧ TargetACGColumn r = patient_id_col) →
  _generate_patient_data input_data_dict mapping_df = None.
Proof.
  intros Hin Hfile Hkey Hblank Hothers Hname.
  unfold _generate_patient_data.
  destruct (input_data_dict !! required_input_key) as [pd|]; [|done].
  destruct (df_get config.MERGE_KEY pd) as [keys|] eqn:Hkeys; [|done].
  unfold assemble_patient_data.
  set (pdf := prepare_patient_details pd keys).
  set (rules := filter (λ r, TargetACGFile r = Str "patient_data") mapping_df).
  assert (Hrow : row ∈ rules) by (by apply list_elem_of_filter).
  case_decide as Hempty; [done|].
  set (produced := patient_loop pdf rules (mkDataFrame (df_index pdf) [])).
  set (final_cols := pd_unique (TargetACGColumn <$> rules)).
  set (T := TargetACGColumn row).
  assert (HT : T ∈ final_cols).
  { apply elem_of_pd_unique, list_elem_of_fmap. by exists row. }
  assert (HnoT : T ∉ column_names produced).
  { intros [Hc|(r & Hr & Ht & Hs)]%patient_loop_names.
    - by apply elem_of_nil in Hc.
    - apply list_elem_of_filter in Hr as [Hf Hr].
      destruct (Hothers r Hr Hf Ht) as [Hk Hb].
      by rewrite patient_rule_skips in Hs. }
  destruct (place_patient_id pdf final_cols produced) as [cols out] eqn:Hplace.
  rewrite (df_select_None cols out T); [done| |].
  - unfold place_patient_id in Hplace.
    destruct (decide (patient_id_col ∈ final_cols)) as [Hp|Hp].
    + injection Hplace as <- <-. rewrite list_insert_at_0.
      destruct (decide (T = patient_id_col)) as [->|Hne]; [left|].
      right. by apply elem_of_list_remove.
    + assert (HTp : T ≠ patient_id_col) by (by intros He; rewrite He in HT).
      assert (HTm : T ≠ config.MERGE_KEY).
      { destruct Hname as [?|(r & Hr & Hf & Ht)]; [done|].
        exfalso. apply Hp, elem_of_pd_unique, list_elem_of_fmap.
        exists r. split; [done|]. by apply list_elem_of_filter. }
      destruct (df_get config.MERGE_KEY pdf) as [ids|]; [|by injection Hplace as <- <-].
      destruct (has_column config.MERGE_KEY produced); simpl in Hplace;
        injection Hplace as <- <-; rewrite list_insert_at_0; right.
      * case_decide; [|done]. by apply elem_of_list_replace_first.
      * case_decide; [|done]. by apply elem_of_list_remove.
  - unfold place_patient_id in Hplace.
    destruct (decide (patient_id_col ∈ final_cols)) as [Hp|Hp].
    + by injection Hplace as <- <-.
    + assert (HTp : T ≠ patient_id_col) by (by intros He; rewrite He in HT).
      assert (HTm : T ≠ config.MERGE_KEY).
      { destruct Hname as [?|(r & Hr & Hf & Ht)]; [done|].
        exfalso. apply Hp, elem_of_pd_unique, list_elem_of_fmap.
        exists r. split; [done|]. by apply list_elem_of_filter. }
      destruct (df_get config.MERGE_KEY pdf) as [ids|]; [|by injection Hplace as <- <-].
      destruct (has_column config.MERGE_KEY produced); simpl in Hplace;
        injection Hplace as <- <-.
      * rewrite column_names_rename. intros (c & Hc & Hin')%list_elem_of_fmap.
        case_decide; congruence.
      * rewrite elem_of_column_names_set. tauto.
Qed.

Lemma df_select_head (c : string) (cols : list string) (df out : DataFrame) :
  df_select (c :: cols) df = Some out →
  ∃ s, first_column out = Some (c, s) ∧ df_get c df = Some s.
Proof.
  intros (_ & H)%df_select_Some. unfold first_column.
  destruct out as [idx l]. simpl in *.
  inversion H as [|c0 [c' s] cols0 l0 [Hc Hs] _]; simplify_eq/=.
  by exists s.
Qed.

Lemma produced_names_are_targets (patient_details_df : DataFrame)
    (rules : list MappingRule) (c : string) :
  c ∈ column_names (patient_loop patient_details_df rules
                                 (mkDataFrame (df_index patient_details_df) [])) →
  c ∈ TargetACGColumn <$> rules.
Proof.
  intros [Hc|(r & Hr & Ht & _)]%patient_loop_names.
  - by apply elem_of_nil in Hc.
  - apply list_elem_of_fmap. by exists r.
Qed.

(** C2 (amended). In every successful patient-data generation the first
    output column is chosen by a three-case rule on the column names: if a
    rule targets patient_id, the column that rule produced is moved first,
    named patient_id; otherwise, if no produced column is named PatientID
    (the merge key), the merge-key column is inserted first under its own
    name PatientID and holds the distinct merge-key identifiers; otherwise
    the produced column named PatientID is renamed to patient_id and placed
    first. *)
Theorem patient_data_first_column (input_data_dict : gmap string DataFrame)
    (mapping_df : list MappingRule) (pd : DataFrame) (keys : Series) (out : DataFrame) :
  input_data_dict !! required_input_key = Some pd →
  df_get config.MERGE_KEY pd = Some keys →
  _generate_patient_data input_data_dict mapping_df = Some out →
  let patient_details_df := prepare_patient_details pd keys in
  let patient_mapping := filter (λ r, TargetACGFile r = Str "patient_data") mapping_df in
  let produced :=
    patient_loop patient_details_df patient_mapping
                 (mkDataFrame (df_index patient_details_df) []) in
  if decide (patient_id_col ∈ TargetACGColumn <$> patient_mapping) then
    ∃ s, first_column out = Some (patient_id_col, s)
         ∧ df_get patient_id_col produced = Some s
  else if has_column config.MERGE_KEY produced then
    ∃ s, first_column out = Some (patient_id_col, s)
         ∧ df_get config.MERGE_KEY produced = Some s
  else
    first_column out = Some (config.MERGE_KEY, pd_unique keys).
Proof.
  intros Hpd Hkeys Hgen pdf rules produced.
  unfold _generate_patient_data in Hgen. rewrite Hpd, Hkeys in Hgen.
  unfold assemble_patient_data in Hgen. fold pdf rules in Hgen.
  case_decide as Hempty; [done|]. fold produced in Hgen.
  destruct (prepare_patient_details_keys pd keys Hkeys) as [Hids _]. fold pdf in Hids.
  unfold place_patient_id in Hgen. rewrite Hids in Hgen.
  destruct (decide (patient_id_col ∈ TargetACGColumn <$> rules)) as [Hp|Hp].
  - rewrite decide_True in Hgen by (by apply elem_of_pd_unique).
    rewrite list_insert_at_0 in Hgen.
    destruct (df_select _ produced) as [sel|] eqn:Hsel; [|done].
    injection Hgen as <-. by apply df_select_head in Hsel.
  - rewrite decide_False in Hgen by (by rewrite elem_of_pd_unique).
    destruct (has_column config.MERGE_KEY produced); simpl in Hgen;
      rewrite list_insert_at_0 in Hgen.
    + destruct (df_select _ _) as [sel|] eqn:Hsel; [|done].
      injection Hgen as <-. apply df_select_head in Hsel as (s & Hfirst & Hs).
      exists s. split; [done|].
      rewrite df_get_rename_new in Hs; [done|].
      intros Hin. by apply Hp, (produced_names_are_targets pdf).
    + destruct (df_select _ _) as [sel|] eqn:Hsel; [|done].
      injection Hgen as <-. apply df_select_head in Hsel as (s & Hfirst & Hs).
      rewrite df_get_set, decide_True in Hs by done.
      injection Hs as <-. done.
Qed.

(** C9. When some merge-key identifier occurs more than once in the
    patient-details table, a successful patient-data generation works on the
    rows of first occurrence only: the table it reads keeps row [i] exactly
    when the identifier of row [i] does not occur in an earlier row, its
    identifiers are the distinct identifiers of the input in order of first
    occurrence, each once, and the output has one row for each of them. *)
Theorem patient_data_keeps_first_occurrence (input_data_dict : gmap string DataFrame)
    (mapping_df : list MappingRule) (pd : DataFrame) (keys : Series) (out : DataFrame) :
  input_data_dict !! required_input_key = Some pd →
  df_get config.MERGE_KEY pd = Some keys →
  ¬ NoDup keys →
  _generate_patient_data input_data_dict mapping_df = Some out →
  let first_rows := df_filter (first_occurrence_mask keys) pd in
  assemble_patient_data (set_index config.MERGE_KEY first_rows) mapping_df = Some out
  ∧ df_get config.MERGE_KEY first_rows = Some (pd_unique keys)
  ∧ NoDup (pd_unique keys)
  ∧ (∀ k, k ∈ pd_unique keys ↔ k ∈ keys)
  ∧ nrows out = length (pd_unique keys).
Proof.
  intros Hpd Hkeys Hdup Hgen first_rows.
  unfold _generate_patient_data in Hgen. rewrite Hpd, Hkeys in Hgen.
  assert (Hprep : prepare_patient_details pd keys
                  = set_index config.MERGE_KEY first_rows).
  { unfold prepare_patient_details, is_unique.
    rewrite bool_decide_eq_false_2 by done. simpl.
    unfold drop_duplicates. rewrite Hkeys.
    by rewrite first_seen_mask_first_occurrence. }
  split; [by rewrite <- Hprep|].
  split.
  { unfold first_rows. rewrite df_get_filter, Hkeys. simpl.
    by rewrite <- first_seen_mask_first_occurrence, filter_mask_first_seen. }
  split; [apply NoDup_pd_unique|].
  split; [intros k; apply elem_of_pd_unique|].
  destruct (prepare_patient_details_keys pd keys Hkeys) as [_ Hidx].
  unfold assemble_patient_data in Hgen.
  case_decide; [done|].
  destruct (place_patient_id _ _ _) as [cols placed] eqn:Hplace.
  destruct (df_select cols placed) as [sel|] eqn:Hsel; [|done].
  injection Hgen as <-.
  apply df_select_Some in Hsel as [Hsel _].
  unfold nrows, reset_index. simpl. rewrite length_fmap, length_seq.
  unfold nrows. rewrite Hsel.
  replace placed with (place_patient_id (prepare_patient_details pd keys)
    (pd_unique (TargetACGColumn <$>
       filter (λ r, TargetACGFile r = Str "patient_data") mapping_df))
    (patient_loop (prepare_patient_details pd keys)
       (filter (λ r, TargetACGFile r = Str "patient_data") mapping_df)
       (mkDataFrame (df_index (prepare_patient_details pd keys)) []))).2
    by (by rewrite Hplace).
  rewrite place_patient_id_index, patient_loop_index. simpl.
  by rewrite Hidx, length_fmap.
Qed.

(** ** Row filters of the multi-source generators *)

Lemma filter_mask_Forall {A} (P : A → Prop) (mask : list bool) (l : list A) :
  Forall P l → Forall P (filter_mask mask l).
Proof.
  intros H. revert mask. induction H as [|x l Hx _ IH]; intros [|[] mask]; simpl; auto.
Qed.

Lemma filter_mask_Forall_mask {A} (P : A → Prop) (mask : list bool) (l : list A) :
  (∀ i x, mask !! i = Some true → l !! i = Some x → P x) →
  Forall P (filter_mask mask l).
Proof.
  revert l. induction mask as [|b mask IH]; intros [|x l] H; simpl; try constructor.
  assert (Hrest : Forall P (filter_mask mask l)).
  { apply IH. intros i y Hm Hl. by apply (H (S i)). }
  destruct b; [|done]. constructor; [|done]. by apply (H 0).
Qed.

Lemma non_empty_iff (v : value) : non_empty v ↔ present v ∧ not_blank_text v.
Proof.
  unfold non_empty, present, not_blank_text. destruct v as [|s]; simpl.
  - split; [intros [? _]; done|intros [? _]; done].
  - split; [intros [_ H]; split; [done|congruence]|].
    intros [_ H]. split; [done|congruence].
Qed.

Lemma not_blank_text_iff (v : value) : not_blank_text v ↔ v ≠ Str "".
Proof.
  unfold not_blank_text. destruct v as [|s]; simpl; [|split; congruence].
  split; [done|]. intros _. discriminate.
Qed.

Lemma nonempty_mask_true (s : Series) (i : nat) (x : value) :
  nonempty_mask s !! i = Some true → s !! i = Some x → not_blank_text x.
Proof.
  unfold nonempty_mask, astype_str. rewrite !list_lookup_fmap.
  intros Hm Hx. rewrite Hx in Hm. simpl in Hm.
  injection Hm as Hm. by apply bool_decide_eq_true in Hm.
Qed.

Lemma notna_mask_true (s : Series) (i : nat) (x : value) :
  notna_mask s !! i = Some true → s !! i = Some x → present x.
Proof.
  unfold notna_mask, present. rewrite list_lookup_fmap.
  intros Hm Hx. rewrite Hx in Hm. simpl in Hm.
  injection Hm as Hm. by apply negb_true_iff.
Qed.

Lemma zip_with_andb_true (m1 m2 : list bool) (i : nat) :
  zip_with andb m1 m2 !! i = Some true →
  m1 !! i = Some true ∧ m2 !! i = Some true.
Proof.
  intros (b1 & b2 & Hb & H1 & H2)%lookup_zip_with_Some.
  symmetry in Hb. apply andb_true_iff in Hb as [-> ->]. done.
Qed.

Lemma column_all_filter (P : value → Prop) (c : string) (mask : list bool) (df : DataFrame) :
  column_all P c df → column_all P c (df_filter mask df).
Proof.
  unfold column_all. rewrite df_get_filter.
  destruct (df_get c df); simpl; [apply filter_mask_Forall|done].
Qed.

Lemma column_if_present_filter (P : value → Prop) (c : string) (mask : list bool)
    (df : DataFrame) :
  column_if_present P c df → column_if_present P c (df_filter mask df).
Proof.
  unfold column_if_present. rewrite df_get_filter.
  destruct (df_get c df); simpl; [apply filter_mask_Forall|done].
Qed.

Lemma column_all_and (P Q : value → Prop) (c : string) (df : DataFrame) :
  column_all P c df → column_all Q c df → column_all (λ v, P v ∧ Q v) c df.
Proof.
  unfold column_all. destruct (df_get c df); [|done].
  intros. by apply Forall_and.
Qed.

Lemma column_all_impl (P Q : value → Prop) (c : string) (df : DataFrame) :
  (∀ v, P v → Q v) → column_all P c df → column_all Q c df.
Proof.
  unfold column_all. destruct (df_get c df); [|done].
  intros HPQ H. eapply Forall_impl; eauto.
Qed.

Lemma column_if_present_impl (P Q : value → Prop) (c : string) (df : DataFrame) :
  (∀ v, P v → Q v) → column_if_present P c df → column_if_present Q c df.
Proof.
  unfold column_if_present. destruct (df_get c df); [|done].
  intros HPQ H. eapply Forall_impl; eauto.
Qed.

Lemma dropna_pair (c1 c2 : string) (df g : DataFrame) :
  dropna [c1; c2] df = Ok g →
  column_names g = column_names df
  ∧ column_all present c1 g ∧ column_all present c2 g
  ∧ (∀ c P, column_if_present P c df → column_if_present P c g).
Proof.
  unfold dropna. simpl.
  destruct (df_get c1 df) as [s1|] eqn:H1; simpl; [|done].
  destruct (df_get c2 df) as [s2|] eqn:H2; simpl; [|done].
  intros [= <-]. split; [apply column_names_filter|].
  split; [|split].
  - unfold column_all. rewrite df_get_filter, H1. simpl.
    apply filter_mask_Forall_mask. intros i x [Hm _]%zip_with_andb_true.
    by apply notna_mask_true.
  - unfold column_all. rewrite df_get_filter, H2. simpl.
    apply filter_mask_Forall_mask.
    intros i x [_ [Hm _]%zip_with_andb_true]%zip_with_andb_true.
    by apply notna_mask_true.
  - intros c P. apply column_if_present_filter.
Qed.

Lemma filter_nonempty_pair (c1 c2 : string) (g f : DataFrame) :
  filter_nonempty c1 c2 g = Ok f →
  column_names f = column_names g
  ∧ column_all not_blank_text c1 f ∧ column_all not_blank_text c2 f
  ∧ (∀ c P, column_all P c g → column_all P c f)
  ∧ (∀ c P, column_if_present P c g → column_if_present P c f).
Proof.
  unfold filter_nonempty.
  destruct (df_get c1 g) as [s1|] eqn:H1; [|done].
  destruct (df_get c2 g) as [s2|] eqn:H2; [|done].
  intros [= <-]. split; [apply column_names_filter|].
  split; [|split; [|split]].
  - unfold column_all. rewrite df_get_filter, H1. simpl.
    apply filter_mask_Forall_mask. intros i x [Hm _]%zip_with_andb_true.
    by apply nonempty_mask_true.
  - unfold column_all. rewrite df_get_filter, H2. simpl.
    apply filter_mask_Forall_mask. intros i x [_ Hm]%zip_with_andb_true.
    by apply nonempty_mask_true.
  - intros c P. apply column_all_filter.
  - intros c P. apply column_if_present_filter.
Qed.

(** What the two row filters leave, for the required columns [c1], [c2]. *)
Lemma required_columns_filtered (c1 c2 : string) (df g f : DataFrame) :
  dropna [c1; c2] df = Ok g →
  filter_nonempty c1 c2 g = Ok f →
  column_names f = column_names df
  ∧ column_all non_empty c1 f ∧ column_all non_empty c2 f
  ∧ (∀ c P, column_if_present P c df → column_if_present P c f).
Proof.
  intros (Hn1 & Hp1 & Hp2 & Hk1)%dropna_pair (Hn2 & Hb1 & Hb2 & Hall & Hk2)%filter_nonempty_pair.
  split; [congruence|]. split; [|split].
  - eapply column_all_impl; [intros v; apply non_empty_iff|].
    apply column_all_and; [by apply Hall|done].
  - eapply column_all_impl; [intros v; apply non_empty_iff|].
    apply column_all_and; [by apply Hall|done].
  - intros c P H. by apply Hk2, Hk1.
Qed.

Lemma medical_source_rows_ok (input_data_dict : gmap string DataFrame)
    (medical_mapping : list MappingRule) (target_columns : list string)
    (source_label : string) (f : DataFrame) :
  medical_source input_data_dict medical_mapping target_columns source_label = Ok (Some f) →
  medical_rows_ok target_columns f.
Proof.
  unfold medical_source. case_decide; [done|].
  destruct (source_table _ _) as [[source_df|]|]; simpl; try done.
  destruct (df_select target_columns _) as [sel|] eqn:Hsel; [|done].
  apply df_select_names in Hsel.
  set (h := match df_get "dx_version_1" sel with
            | Some version => df_filter (nonempty_mask version) sel
            | None => sel
            end).
  assert (Hh : column_names h = target_columns
               ∧ column_if_present not_blank_text "dx_version_1" h).
  { unfold h. destruct (df_get "dx_version_1" sel) as [ver|] eqn:Hver.
    - split; [by rewrite column_names_filter|].
      unfold column_if_present. rewrite df_get_filter, Hver. simpl.
      apply filter_mask_Forall_mask. intros i x. apply nonempty_mask_true.
    - split; [done|]. unfold column_if_present. by rewrite Hver. }
  destruct Hh as [Hnames Hver].
  destruct (dropna _ h) as [g|] eqn:Hg; simpl; [|done].
  destruct (filter_nonempty _ _ g) as [f'|] eqn:Hf; simpl; [|done].
  destruct (required_columns_filtered _ _ _ _ _ Hg Hf) as (Hn & H1 & H2 & Hk).
  destruct (negb (df_empty f')); [|done].
  intros [= <-]. split; [congruence|]. split; [done|]. split; [done|].
  by apply Hk.
Qed.

Lemma pharmacy_source_rows_ok (input_data_dict : gmap string DataFrame)
    (pharmacy_mapping : list MappingRule) (target_columns : list string)
    (source_label : string) (f : DataFrame) :
  pharmacy_source input_data_dict pharmacy_mapping target_columns source_label = Ok (Some f) →
  pharmacy_rows_ok target_columns f.
Proof.
  unfold pharmacy_source. case_decide; [done|].
  destruct (source_table _ _) as [[source_df|]|]; simpl; try done.
  destruct (df_select target_columns _) as [sel|] eqn:Hsel; [|done].
  apply df_select_names in Hsel.
  destruct (dropna _ sel) as [g|] eqn:Hg; simpl; [|done].
  destruct (filter_nonempty _ _ g) as [f'|] eqn:Hf; simpl; [|done].
  destruct (required_columns_filtered _ _ _ _ _ Hg Hf) as (Hn & H1 & H2 & Hk).
  destruct (negb (df_empty f')); [|done].
  intros [= <-]. split; [congruence|]. done.
Qed.

Lemma source_loop_Forall (P : DataFrame → Prop)
    (body : string → result (option DataFrame))
    (source_labels : list string) (all_dfs res : list DataFrame) :
  (∀ l f, body l = Ok (Some f) → P f) →
  Forall P all_dfs →
  source_loop body source_labels all_dfs = Ok res →
  Forall P res.
Proof.
  intros Hbody. revert all_dfs.
  induction source_labels as [|l ls IH]; intros all_dfs Hall; simpl.
  - by intros [= <-].
  - destruct (body l) as [[f|]|] eqn:Hl; simpl; [| |done].
    + apply IH. apply Forall_app. split; [done|].
      constructor; [by eapply Hbody|constructor].
    + apply IH. by rewrite app_nil_r.
Qed.

Lemma assoc_fmap_pair {A} (g : string → A) (names : list string) (c : string) :
  assoc c ((λ c, (c, g c)) <$> names) = if decide (c ∈ names) then Some (g c) else None.
Proof.
  induction names as [|c' names IH]; [done|].
  cbn [fmap list_fmap assoc]. fold (fmap (M:=list) (λ c, (c, g c)) names).
  destruct (decide (c = c')) as [->|Hne].
  - rewrite decide_True; [done|left].
  - rewrite IH. destruct (decide (c ∈ names)) as [Hin|Hnin].
    + rewrite decide_True; [done|by right].
    + rewrite decide_False; [done|]. rewrite not_elem_of_cons. done.
Qed.

Lemma df_get_concat (c : string) (dfs : list DataFrame) :
  df_get c (pd_concat dfs)
    = if decide (c ∈ dfs ≫= column_names)
      then Some (dfs ≫= (λ df, default (nan_series (nrows df)) (df_get c df)))
      else None.
Proof.
  unfold df_get at 1, pd_concat. simpl. rewrite assoc_fmap_pair.
  destruct (decide (c ∈ dfs ≫= column_names)) as [Hin|Hnin].
  - rewrite decide_True; [done|by apply elem_of_pd_unique].
  - rewrite decide_False; [done|by rewrite elem_of_pd_unique].
Qed.

Lemma column_all_has_column (P : value → Prop) (c : string) (df : DataFrame) :
  column_all P c df → c ∈ column_names df.
Proof.
  unfold column_all. destruct (df_get c df) eqn:H; [|done].
  intros _. apply assoc_is_Some. unfold df_get in H. by rewrite H.
Qed.

Lemma column_all_concat (P : value → Prop) (c : string) (dfs : list DataFrame) :
  dfs ≠ [] → Forall (column_all P c) dfs → column_all P c (pd_concat dfs).
Proof.
  intros Hne Hall. unfold column_all at 1. rewrite df_get_concat.
  rewrite decide_True.
  - apply Forall_bind. eapply Forall_impl; [exact Hall|].
    intros df Hdf. simpl. unfold column_all in Hdf.
    by destruct (df_get c df).
  - destruct dfs as [|df dfs]; [done|].
    apply Forall_cons in Hall as [Hdf _].
    apply list_elem_of_bind. exists df. split; [|left].
    by eapply column_all_has_column.
Qed.

Lemma column_if_present_concat (P : value → Prop) (c : string) (dfs : list DataFrame) :
  P NaN → Forall (column_if_present P c) dfs → column_if_present P c (pd_concat dfs).
Proof.
  intros Hnan Hall. unfold column_if_present at 1. rewrite df_get_concat.
  case_decide; [|done].
  apply Forall_bind. eapply Forall_impl; [exact Hall|].
  intros df Hdf. simpl. unfold column_if_present in Hdf.
  destruct (df_get c df); simpl; [done|].
  by apply Forall_replicate.
Qed.

Lemma concat_sources_column_all (P : value → Prop) (c : string)
    (target_columns : list string) (all_dfs : list DataFrame) (out : DataFrame) :
  concat_sources target_columns all_dfs = Some out →
  Forall (λ df, column_names df = target_columns) all_dfs →
  Forall (column_all P c) all_dfs →
  column_all P c out.
Proof.
  unfold concat_sources. case_decide as Hne; [done|].
  intros Hout Hnames Hall.
  pose proof (column_all_concat P c all_dfs Hne Hall) as Hcat.
  destruct (df_select target_columns (pd_concat all_dfs)) as [sel|] eqn:Hsel;
    injection Hout as <-; [|done].
  unfold column_all. rewrite (df_get_select _ _ _ c Hsel).
  rewrite decide_True; [done|].
  destruct all_dfs as [|df dfs]; [done|].
  apply Forall_cons in Hnames as [<- _]. apply Forall_cons in Hall as [Hdf _].
  by eapply column_all_has_column.
Qed.

Lemma concat_sources_column_if_present (P : value → Prop) (c : string)
    (target_columns : list string) (all_dfs : list DataFrame) (out : DataFrame) :
  P NaN →
  concat_sources target_columns all_dfs = Some out →
  Forall (column_if_present P c) all_dfs →
  column_if_present P c out.
Proof.
  unfold concat_sources. intros Hnan. case_decide as Hne; [done|].
  intros Hout Hall.
  pose proof (column_if_present_concat P c all_dfs Hnan Hall) as Hcat.
  destruct (df_select target_columns (pd_concat all_dfs)) as [sel|] eqn:Hsel;
    injection Hout as <-; [|done].
  unfold column_if_present. rewrite (df_get_select _ _ _ c Hsel).
  case_decide; done.
Qed.

(** C3 (amended). Every row of the final medical-services output has a
    patient_id and a dx_cd_1 that are neither missing nor empty, and, when
    the output has a dx_version_1 column, a dx_version_1 that is not the
    empty string (a missing dx_version_1 is not filtered); every row of the
    final pharmacy-data output has a patient_id and an rx_cd that are
    neither missing nor empty. *)
Theorem multi_source_rows_have_required_values
    (input_data_dict : gmap string DataFrame) (mapping_df : list MappingRule) :
  on_output (_generate_medical_services input_data_dict mapping_df)
    (λ out, column_all non_empty "patient_id" out
            ∧ column_all non_empty "dx_cd_1" out
            ∧ column_if_present (λ v, v ≠ Str "") "dx_version_1" out)
  ∧ on_output (_generate_pharmacy_data input_data_dict mapping_df)
      (λ out, column_all non_empty "patient_id" out
              ∧ column_all non_empty "rx_cd" out).
Proof.
  split.
  - unfold _generate_medical_services. case_decide; [done|].
    destruct (no_source_label _); [done|].
    set (tc := prioritize 1 "dx_cd_1" _).
    destruct (source_loop _ _ []) as [all|] eqn:Hloop; simpl; [|done].
    assert (Hall : Forall (medical_rows_ok tc) all).
    { eapply source_loop_Forall; [|constructor|exact Hloop].
      intros l f. apply medical_source_rows_ok. }
    destruct (concat_sources tc all) as [out|] eqn:Hout; [|done]. simpl.
    split; [|split].
    + eapply concat_sources_column_all; [exact Hout| |];
        (eapply Forall_impl; [exact Hall|]); by intros df (? & ? & ? & ?).
    + eapply concat_sources_column_all; [exact Hout| |];
        (eapply Forall_impl; [exact Hall|]); by intros df (? & ? & ? & ?).
    + eapply column_if_present_impl; [intros v; apply not_blank_text_iff|].
      eapply concat_sources_column_if_present; [done|exact Hout|].
      eapply Forall_impl; [exact Hall|]. by intros df (? & ? & ? & ?).
  - unfold _generate_pharmacy_data. case_decide; [done|].
    destruct (no_source_label _); [done|].
    set (tc := prioritize 2 "rx_fill_date" _).
    destruct (source_loop _ _ []) as [all|] eqn:Hloop; simpl; [|done].
    assert (Hall : Forall (pharmacy_rows_ok tc) all).
    { eapply source_loop_Forall; [|constructor|exact Hloop].
      intros l f. apply pharmacy_source_rows_ok. }
    destruct (concat_sources tc all) as [out|] eqn:Hout; [|done]. simpl.
    split.
    + eapply concat_sources_column_all; [exact Hout| |];
        (eapply Forall_impl; [exact Hall|]); by intros df (? & ? & ?).
    + eapply concat_sources_column_all; [exact Hout| |];
        (eapply Forall_impl; [exact Hall|]); by intros df (? & ? & ?).
Qed.

(** ** The cross-column dependency of [determine_dx_version] *)

Lemma lookup_determine_dx_version :
  config.TRANSFORMATIONS to_datetime !! "determine_dx_version"
    = Some config.determine_dx_version.
Proof. reflexivity. Qed.

Lemma blank_false_nonempty (c : string) : blank (Str c) = false → c ≠ "".
Proof. intros H ->. discriminate H. Qed.

Lemma truthy_Some (c : string) : c ≠ "" → truthy (Some c) = Some c.
Proof. intros H. unfold truthy. by rewrite decide_False. Qed.

Lemma apply_determine_dx_version (target_col_name : string) (source_df : DataFrame)
    (c : string) (col : Series) :
  c ≠ "" →
  df_get c source_df = Some col →
  length col = nrows source_df →
  _apply_transformation target_col_name "determine_dx_version" source_df (Some c)
    = (config.get_version <$> col, [(DEBUG, "Applying transformation")]).
Proof.
  intros Hc Hcol Hlen. unfold _apply_transformation.
  rewrite lookup_determine_dx_version, truthy_Some, Hcol by done.
  logged_simpl.
  rewrite length_fmap, bool_decide_eq_false_2 by (by intros ?). done.
Qed.

Lemma apply_determine_dx_version_on_index (target_col_name : string)
    (source_df : DataFrame) :
  _apply_transformation target_col_name "determine_dx_version" source_df None
    = (nan_series (nrows source_df),
       [(DEBUG, "Applying transformation"); (EXCEPTION, "Error applying transformation")]).
Proof.
  unfold _apply_transformation. by rewrite lookup_determine_dx_version.
Qed.

(** With the dependency resolved, the transform reads the source column of
    the dx_cd_1 rule, whatever the rule's own source column is. *)
Lemma medical_rule_reads_dx_cd_1_source (source_mapping : list MappingRule)
    (source_df : DataFrame) (row : MappingRule) (c : string) (col : Series) :
  TransformationFunction row = "determine_dx_version" →
  dx_cd_1_source source_mapping source_df = Some c →
  df_get c source_df = Some col →
  length col = nrows source_df →
  (medical_rule source_mapping source_df row).1 = dx_version_spec <$> col.
Proof.
  intros Ht Hdep Hcol Hlen.
  unfold dx_cd_1_source in Hdep.
  unfold medical_rule, source_rule.
  destruct (input_column_step source_df row) as [[rs sc] lg].
  unfold mbind, mret, logged_bind, logged_ret, tell. cbn beta iota zeta.
  rewrite Ht. rewrite decide_True by done. rewrite decide_True by done.
  destruct (filter _ source_mapping) as [|needed rest]; [done|].
  destruct (blank (InputColumn needed)) eqn:Hb; [done|].
  destruct (has_column (py_str (InputColumn needed)) source_df) eqn:Hh; [|done].
  injection Hdep as Hc. rewrite Hc in Hh |- *.
  assert (Hne : c ≠ "").
  { destruct (InputColumn needed) as [|s]; [done|]. simpl in Hc. subst s.
    by apply blank_false_nonempty. }
  cbn [orb negb]. rewrite Hh. cbn [orb].
  rewrite truthy_Some by done.
  rewrite (apply_determine_dx_version _ _ _ col) by done.
  cbn [fst].
  apply list_fmap_ext. intros _ v _. apply get_version_refines.
Qed.

Ltac logged_step :=
  unfold mbind, mret, logged_bind, logged_ret, tell; cbn beta iota zeta.

Lemma input_column_step_blank (source_df : DataFrame) (row : MappingRule) :
  blank (InputColumn row) = true →
  TransformationFunction row ≠ "" →
  input_column_step source_df row = (nan_series (nrows source_df), None, []).
Proof.
  intros Hb Ht. unfold input_column_step. rewrite Hb. cbn [negb].
  by rewrite decide_False.
Qed.

Lemma input_column_step_log (source_df : DataFrame) (row : MappingRule) :
  Forall (λ rec, rec.1 = WARNING) (input_column_step source_df row).2.
Proof.
  unfold input_column_step.
  destruct (negb (blank (InputColumn row)));
    [destruct (df_get _ source_df)|case_decide]; logged_step; cbn;
    repeat constructor.
Qed.

(** With the dependency unresolved and a source column of its own, the
    rule skips the transform and emits the empty string in every row. *)
Lemma medical_rule_skips_without_dependency (source_mapping : list MappingRule)
    (source_df : DataFrame) (row : MappingRule) :
  TransformationFunction row = "determine_dx_version" →
  dx_cd_1_source source_mapping source_df = None →
  blank (InputColumn row) = false →
  let r := medical_rule source_mapping source_df row in
  r.1 = const_series "" (nrows source_df)
  ∧ ((DEBUG, "Applying transformation") ∉ r.2)
  ∧ ∃ msg, (ERROR, msg) ∈ r.2.
Proof.
  intros Ht Hdep Hb r. subst r.
  unfold dx_cd_1_source in Hdep.
  unfold medical_rule, source_rule.
  pose proof (input_column_step_log source_df row) as Hlog.
  destruct (input_column_step source_df row) as [[rs sc] lg]. cbn [snd] in Hlog.
  logged_step.
  rewrite Ht. rewrite decide_True by done. rewrite decide_True by done.
  assert (Hlg : (DEBUG, "Applying transformation") ∉ lg).
  { intros Hin. rewrite Forall_forall in Hlog. by apply Hlog in Hin. }
  destruct (filter _ source_mapping) as [|needed rest];
    [|destruct (orb (blank (InputColumn needed)) _); [|done]];
    cbn [orb]; rewrite Hb; cbn [fst snd].
  all: split; [done|]; split;
    [rewrite !not_elem_of_app, !not_elem_of_cons;
     repeat split; try done; apply not_elem_of_nil
    |eexists; rewrite !elem_of_app, !elem_of_cons; eauto 10].
Qed.

(** With the dependency unresolved and no source column of its own, the
    rule still calls the transform, on the row index; [determine_dx_version]
    fails there and the column is missing in every row. *)
Lemma medical_rule_calls_without_dependency (source_mapping : list MappingRule)
    (source_df : DataFrame) (row : MappingRule) :
  TransformationFunction row = "determine_dx_version" →
  dx_cd_1_source source_mapping source_df = None →
  blank (InputColumn row) = true →
  let r := medical_rule source_mapping source_df row in
  r.1 = nan_series (nrows source_df)
  ∧ ((DEBUG, "Applying transformation") ∈ r.2)
  ∧ ∃ msg, (ERROR, msg) ∈ r.2.
Proof.
  intros Ht Hdep Hb r. subst r.
  unfold dx_cd_1_source in Hdep.
  unfold medical_rule, source_rule.
  rewrite input_column_step_blank by (by rewrite ?Ht).
  logged_step.
  rewrite Ht. rewrite decide_True by done. rewrite decide_True by done.
  destruct (filter _ source_mapping) as [|needed rest];
    [|destruct (orb (blank (InputColumn needed)) _); [|done]];
    cbn [orb]; rewrite Hb; cbn [orb truthy];
    rewrite apply_determine_dx_version_on_index; cbn [fst snd app].
  all: split; [done|]; split; [|eexists];
    rewrite ?elem_of_app, ?elem_of_cons; eauto 10.
Qed.

(** * Further properties of the engine and of its caller *)

(** ** Identifying an input file by its columns *)

Lemma configured_column_sets_differ :
  ∀ k1 c1 k2 c2,
    (k1, c1) ∈ config_column_sets → (k2, c2) ∈ config_column_sets →
    lower_set c1 = lower_set c2 → k1 = k2.
Proof.
  intros k1 c1 k2 c2 H1 H2 Heq.
  unfold config_column_sets, config.INPUT_FILE_COLUMNS in H1, H2.
  repeat (apply elem_of_cons in H1 as [H1|H1]; [injection H1 as -> ->|]);
    [..|by apply elem_of_nil in H1];
    (repeat (apply elem_of_cons in H2 as [H2|H2]; [injection H2 as -> ->|]);
     [..|by apply elem_of_nil in H2]);
    try reflexivity;
    exfalso; revert Heq; apply (bool_decide_eq_false_1 (_ = _));
    vm_compute; reflexivity.
Qed.

Lemma configured_keys_distinct : NoDup config_column_sets.*1.
Proof. apply (bool_decide_eq_true_1 (NoDup _)). vm_compute. reflexivity. Qed.

Lemma elem_of_possible_matches (column_sets : list (string * list string))
    (file_columns : list string) (key : string) :
  key ∈ possible_matches column_sets file_columns
  ↔ ∃ cols, (key, cols) ∈ column_sets ∧ lower_set file_columns = lower_set cols.
Proof.
  unfold possible_matches. rewrite list_elem_of_fmap. split.
  - intros ([k cols] & -> & [Heq Hin]%list_elem_of_filter). by exists cols.
  - intros (cols & Hin & Heq). exists (key, cols). split; [done|].
    by apply list_elem_of_filter.
Qed.

Lemma possible_matches_NoDup (file_columns : list string) :
  NoDup (possible_matches config_column_sets file_columns).
Proof.
  unfold possible_matches.
  pose proof configured_keys_distinct as Hnd.
  induction config_column_sets as [|[k c] l IH]; [constructor|].
  apply NoDup_cons in Hnd as [Hk Hnd].
  rewrite filter_cons. case_decide; [|by apply IH].
  rewrite fmap_cons. apply NoDup_cons. split; [|by apply IH].
  intros (kc & Hkc & Hin%list_elem_of_filter)%list_elem_of_fmap.
  apply Hk, list_elem_of_fmap. exists kc. tauto.
Qed.

Lemma possible_matches_at_most_one (file_columns : list string) :
  length (possible_matches config_column_sets file_columns) ≤ 1.
Proof.
  pose proof (possible_matches_NoDup file_columns) as Hnd.
  destruct (possible_matches config_column_sets file_columns)
    as [|k1 [|k2 rest]] eqn:Hm; simpl; [lia..|]. exfalso.
  assert (H1 : k1 ∈ possible_matches config_column_sets file_columns)
    by (rewrite Hm; left).
  assert (H2 : k2 ∈ possible_matches config_column_sets file_columns)
    by (rewrite Hm; right; left).
  apply elem_of_possible_matches in H1 as (c1 & Hin1 & Heq1).
  apply elem_of_possible_matches in H2 as (c2 & Hin2 & Heq2).
  assert (k1 = k2) as ->.
  { eapply configured_column_sets_differ; [done..|]. congruence. }
  apply NoDup_cons in Hnd as [Hnd _]. apply Hnd. left.
Qed.

(** X1. A file is identified as input type [key] exactly when the set of
    its lower-cased column names is the set of the lower-cased columns
    configured for [key]; and no header ever matches several types. *)
Theorem identify_file_type_characterised (file_columns : list string) (key : string) :
  (_identify_file_type (HeaderColumns file_columns) = (Some key, None)
   ↔ ∃ cols, (key, cols) ∈ config.INPUT_FILE_COLUMNS
             ∧ lower_set file_columns = lower_set cols)
  ∧ ∀ matches, (_identify_file_type (HeaderColumns file_columns)).2
               ≠ Some (MatchesMultipleTypes matches).
Proof.
  pose proof (possible_matches_at_most_one file_columns) as Hone.
  pose proof (elem_of_possible_matches config_column_sets file_columns key) as Hin.
  unfold _identify_file_type.
  rewrite decide_False by done.
  destruct (possible_matches config_column_sets file_columns)
    as [|k1 [|k2 rest]]; simpl in Hone; [| |lia].
  - split; [|done]. rewrite <- Hin. split; [done|]. by intros ?%elem_of_nil.
  - split; [|done]. rewrite <- Hin, list_elem_of_singleton.
    split; [by intros [= ->]|by intros ->].
Qed.

Lemma identify_depends_on_lower_set (cols1 cols2 : list string) :
  lower_set cols1 = lower_set cols2 →
  _identify_file_type (HeaderColumns cols1) = _identify_file_type (HeaderColumns cols2).
Proof.
  intros H. unfold _identify_file_type, possible_matches. by rewrite H.
Qed.

(** X2. Identification looks at neither the order nor the letter case of
    the header: two headers whose lower-cased column names are the same up
    to order are identified alike, with the same key or the same kind of
    error. *)
Theorem identify_file_type_ignores_order_and_case (cols1 cols2 : list string) :
  Py.lower <$> cols1 ≡ₚ Py.lower <$> cols2 →
  _identify_file_type (HeaderColumns cols1)
    = _identify_file_type (HeaderColumns cols2).
Proof.
  intros Hp. apply identify_depends_on_lower_set.
  unfold lower_set. apply leibniz_equiv. by rewrite Hp.
Qed.

(** ** The orchestrator and the worker that calls it *)

Lemma save_file_saves (to_csv : string → bool) (f : string) (df : option DataFrame) :
  (save_file to_csv f df).2 = true →
  has_rows df = true ∧ to_csv f = true ∧ (save_file to_csv f df).1 = [Saves f].
Proof.
  unfold save_file. destruct (has_rows df), (to_csv f); simpl; by intros.
Qed.

(** The shape of a run that returns without raising. *)
Lemma run_Ok_inv (mapping_load : option (list MappingRule))
    (to_csv : string → bool) (input_data_dict : gmap string DataFrame) :
  (generate_acg_files mapping_load to_csv input_data_dict).2 = Ok () →
  ∃ mapping_df medical_df pharmacy_df,
    mapping_load = Some mapping_df
    ∧ _generate_medical_services input_data_dict mapping_df = Ok medical_df
    ∧ _generate_pharmacy_data input_data_dict mapping_df = Ok pharmacy_df
    ∧ has_rows (_generate_patient_data input_data_dict mapping_df) = true
    ∧ has_rows medical_df = true
    ∧ (generate_acg_files mapping_load to_csv input_data_dict).1
      = ([Generates "patient_data"; Saves "patient_data"]
         ++ [Generates "medical_services"; Saves "medical_services"])
        ++ Generates "pharmacy_data"
           :: (save_file to_csv "pharmacy_data" pharmacy_df).1.
Proof.
  unfold generate_acg_files.
  destruct mapping_load as [mapping_df|]; [|done].
  destruct (_generate_medical_services input_data_dict mapping_df)
    as [medical_df|] eqn:Hm.
  2: { by destruct (save_file to_csv "patient_data" _). }
  pose proof (save_file_saves to_csv "patient_data"
                (_generate_patient_data input_data_dict mapping_df)) as Hp.
  pose proof (save_file_saves to_csv "medical_services" medical_df) as Hmed.
  destruct (save_file to_csv "patient_data" _) as [t1 ok1].
  destruct (save_file to_csv "medical_services" medical_df) as [t2 ok2].
  destruct (_generate_pharmacy_data input_data_dict mapping_df)
    as [pharmacy_df|] eqn:Hph; [|done].
  destruct (save_file to_csv "pharmacy_data" pharmacy_df) as [t3 ok3] eqn:Hs3.
  cbn [fst snd andb] in *.
  destruct ok1; [|done]. destruct ok2; [|done]. cbn [andb fst snd]. intros _.
  destruct Hp as (Hp1 & _ & ->); [done|]. destruct Hmed as (Hm1 & _ & ->); [done|].
  exists mapping_df, medical_df, pharmacy_df. rewrite Hs3. by repeat split.
Qed.

Lemma completed_run_facts (mapping_load : option (list MappingRule))
    (to_csv : string → bool) (input_data_dict : gmap string DataFrame) :
  (generate_acg_files mapping_load to_csv input_data_dict).2 = Ok () →
  (∃ mapping_df, mapping_load = Some mapping_df
     ∧ has_rows (_generate_patient_data input_data_dict mapping_df) = true)
  ∧ Saves "patient_data" ∈ (generate_acg_files mapping_load to_csv input_data_dict).1
  ∧ Saves "medical_services"
      ∈ (generate_acg_files mapping_load to_csv input_data_dict).1.
Proof.
  intros (m & md & ph & -> & _ & _ & Hp & _ & ->)%run_Ok_inv.
  split; [by exists m|].
  rewrite !elem_of_app, !elem_of_cons. auto 10.
Qed.

(** X3. A run that returns without raising has loaded the mapping, called
    the three generators, got rows from the patient-data and from the
    medical-services generator, and written both files; a pharmacy file is
    written exactly when the pharmacy-data generator yields rows and the
    file can be written. *)
Theorem completed_run_wrote_required_files (mapping_load : option (list MappingRule))
    (to_csv : string → bool) (input_data_dict : gmap string DataFrame) :
  (generate_acg_files mapping_load to_csv input_data_dict).2 = Ok () →
  let trace := (generate_acg_files mapping_load to_csv input_data_dict).1 in
  ∃ mapping_df medical_df pharmacy_df,
    mapping_load = Some mapping_df
    ∧ has_rows (_generate_patient_data input_data_dict mapping_df) = true
    ∧ _generate_medical_services input_data_dict mapping_df = Ok medical_df
    ∧ has_rows medical_df = true
    ∧ _generate_pharmacy_data input_data_dict mapping_df = Ok pharmacy_df
    ∧ Saves "patient_data" ∈ trace
    ∧ Saves "medical_services" ∈ trace
    ∧ (Saves "pharmacy_data" ∈ trace
       ↔ has_rows pharmacy_df = true ∧ to_csv "pharmacy_data" = true).
Proof.
  intros (m & md & ph & -> & Hmd & Hph & Hp & Hm & Htrace)%run_Ok_inv trace.
  subst trace. rewrite Htrace. clear Htrace.
  exists m, md, ph.
  do 5 (split; [done|]).
  split; [rewrite !elem_of_app, !elem_of_cons; auto|].
  split; [rewrite !elem_of_app, !elem_of_cons; auto 10|].
  unfold save_file.
  destruct (has_rows ph), (to_csv "pharmacy_data"); cbn [fst];
    rewrite !elem_of_app, !elem_of_cons, ?elem_of_nil; split.
  all: try (intros _; auto 10; fail).
  all: try (intros [? ?]; discriminate).
  all: intros H; exfalso;
    repeat (destruct H as [H|H]; try discriminate H; try done).
Qed.

Lemma load_files_Ok_inv (read_csv : string → read_outcome)
    (input_files : list (string * string)) (d loaded : gmap string DataFrame) :
  load_files read_csv input_files d = Ok loaded →
  Forall (λ kp, ∃ df, load_file read_csv ∅ kp.1 kp.2 = Ok (<[kp.1 := df]> ∅))
         input_files.
Proof.
  revert d. induction input_files as [|[k p] rest IH]; intros d; simpl; [constructor|].
  destruct (load_file read_csv d k p) as [d'|] eqn:Hl; simpl; [|done].
  intros Hrest. constructor; [|by eapply IH].
  simpl. unfold load_file in *.
  destruct (read_csv p) as [df| | |]; try done.
  - destruct (bool_decide _ && negb _); [done|]. by exists df.
  - by eexists.
Qed.

Lemma load_file_rejects (read_csv : string → read_outcome)
    (d : gmap string DataFrame) (config_key file_path : string) (df : DataFrame) :
  config_key ≠ "Patient_Details" →
  read_csv file_path = ReadTable df →
  has_column config.MERGE_KEY df = false →
  load_file read_csv d config_key file_path = Raise RuntimeError.
Proof.
  intros Hk Hr Hc. unfold load_file. rewrite Hr, Hc.
  by rewrite bool_decide_eq_true_2.
Qed.

Lemma load_files_raises (read_csv : string → read_outcome)
    (input_files : list (string * string)) (d : gmap string DataFrame)
    (config_key file_path : string) :
  (config_key, file_path) ∈ input_files →
  (∀ d', ∃ e, load_file read_csv d' config_key file_path = Raise e) →
  ∃ e, load_files read_csv input_files d = Raise e.
Proof.
  intros Hin Hbad. revert d.
  induction input_files as [|[k p] rest IH]; intros d; [by apply elem_of_nil in Hin|].
  simpl. apply elem_of_cons in Hin as [[= <- <-]|Hin].
  - destruct (Hbad d) as [e ->]. by exists e.
  - destruct (load_file read_csv d k p) as [d'|e]; simpl; [by apply IH|by exists e].
Qed.

(** X4. The worker gives up before any generator runs when one of the
    files, other than the patient details, was read but has no column named
    exactly like the merge key: it reports failure, whatever the other
    files are. *)
Theorem worker_rejects_table_without_merge_key (read_csv : string → read_outcome)
    (mapping_load : option (list MappingRule)) (to_csv : string → bool)
    (input_files : list (string * string)) (config_key file_path : string)
    (df : DataFrame) :
  (config_key, file_path) ∈ input_files →
  config_key ≠ "Patient_Details" →
  read_csv file_path = ReadTable df →
  has_column config.MERGE_KEY df = false →
  worker_run read_csv mapping_load to_csv input_files = ([], false).
Proof.
  intros Hin Hk Hr Hc. unfold worker_run.
  destruct (load_files_raises read_csv input_files ∅ config_key file_path Hin)
    as [e ->]; [|done].
  intros d'. exists RuntimeError. by eapply load_file_rejects.
Qed.

Lemma load_files_lookup (read_csv : string → read_outcome)
    (input_files : list (string * string)) (d loaded : gmap string DataFrame)
    (config_key file_path : string) :
  NoDup input_files.*1 →
  (config_key, file_path) ∈ input_files →
  load_files read_csv input_files d = Ok loaded →
  loaded !! config_key
    = Some (match read_csv file_path with
            | ReadTable df => df
            | _ => mkDataFrame [] []
            end).
Proof.
  intros Hnd Hin. revert d.
  induction input_files as [|[k p] rest IH]; intros d; [by apply elem_of_nil in Hin|].
  simpl in *. apply NoDup_cons in Hnd as [Hk Hnd].
  destruct (load_file read_csv d k p) as [d'|] eqn:Hl; simpl; [|done].
  intros Hrest. apply elem_of_cons in Hin as [[= <- <-]|Hin]; [|by eapply IH].
  assert (Hkeep : ∀ rest' d1 d2 v,
             config_key ∉ rest'.*1 → d1 !! config_key = Some v →
             load_files read_csv rest' d1 = Ok d2 → d2 !! config_key = Some v).
  { clear. induction rest' as [|[k p] rest' IH']; intros d1 d2 v Hk Hv; simpl.
    - by intros [= <-].
    - apply not_elem_of_cons in Hk as [Hne Hk].
      destruct (load_file read_csv d1 k p) as [d1'|] eqn:Hl; simpl; [|done].
      apply IH'; [done|]. unfold load_file in Hl.
      destruct (read_csv p); try done.
      + destruct (bool_decide _ && negb _); [done|]. simplify_eq.
        by rewrite lookup_insert_ne.
      + simplify_eq. by rewrite lookup_insert_ne. }
  unfold load_file in *.
  destruct (read_csv file_path) as [df| | |]; try done.
  - destruct (bool_decide _ && negb _); [done|]. simplify_eq.
    eapply Hkeep; [done| |done]. apply lookup_insert_eq.
  - simplify_eq. eapply Hkeep; [done| |done]. apply lookup_insert_eq.
Qed.

Lemma run_needs_patient_data (mapping_load : option (list MappingRule))
    (to_csv : string → bool) (input_data_dict : gmap string DataFrame) :
  (∀ mapping_df, has_rows (_generate_patient_data input_data_dict mapping_df) = false) →
  (generate_acg_files mapping_load to_csv input_data_dict).2 ≠ Ok ().
Proof.
  intros Hno Hok.
  apply completed_run_facts in Hok as [(m & _ & Hrows) _].
  by rewrite Hno in Hrows.
Qed.

Lemma load_files_Ok (read_csv : string → read_outcome)
    (input_files : list (string * string)) (d : gmap string DataFrame) :
  Forall (λ kp, read_csv kp.2 = ReadEmptyData
                ∨ ∃ df, read_csv kp.2 = ReadTable df
                        ∧ (kp.1 = "Patient_Details"
                           ∨ has_column config.MERGE_KEY df = true))
         input_files →
  ∃ loaded, load_files read_csv input_files d = Ok loaded
            ∧ dom loaded = list_to_set input_files.*1 ∪ dom d.
Proof.
  intros Hall. revert d.
  induction Hall as [|[k p] rest Hkp _ IH]; intros d; simpl.
  - exists d. split; [done|]. by rewrite (left_id_L ∅ (∪)).
  - assert (Hl : ∃ df, load_file read_csv d k p = Ok (<[k := df]> d)).
    { unfold load_file. simpl in Hkp. destruct Hkp as [->|(df & -> & Hk)].
      - by eexists.
      - exists df. destruct Hk as [-> | ->]; [|by rewrite andb_false_r].
        by rewrite bool_decide_eq_false_2 by (by intros H; apply H). }
    destruct Hl as [df ->]. simpl.
    destruct (IH (<[k := df]> d)) as (loaded & -> & Hdom).
    exists loaded. split; [done|]. rewrite Hdom, dom_insert_L.
    by rewrite (assoc_L (∪)), (comm_L (∪) _ {[k]}).
Qed.

Lemma run_without_patient_rows (mapping_load : option (list MappingRule))
    (to_csv : string → bool) (input_data_dict : gmap string DataFrame) :
  (∀ mapping_df, has_rows (_generate_patient_data input_data_dict mapping_df) = false) →
  (Saves "patient_data")
    ∉ (generate_acg_files mapping_load to_csv input_data_dict).1.
Proof.
  intros Hno. unfold generate_acg_files.
  destruct mapping_load as [mapping_df|].
  2: { cbn. rewrite not_elem_of_cons. split; [done|apply not_elem_of_nil]. }
  unfold save_file. rewrite Hno.
  destruct (_generate_medical_services input_data_dict mapping_df) as [md|e];
    [destruct (has_rows md), (to_csv "medical_services");
     (destruct (_generate_pharmacy_data input_data_dict mapping_df) as [ph|e];
      [destruct (has_rows ph), (to_csv "pharmacy_data")|])|];
    cbn; rewrite ?not_elem_of_app, ?not_elem_of_cons;
    repeat split; try done; apply not_elem_of_nil.
Qed.

(** X5. An empty patient-details file does not stop the loading loop: it
    is loaded as a table without rows or columns and, when the other files
    are readable, every file is loaded and the generation is started.  The
    worker nevertheless reports failure: the patient-data generator finds
    no merge key in the empty table, so the patient-data file is never
    written and the run cannot complete. *)
Theorem worker_fails_on_empty_patient_details (read_csv : string → read_outcome)
    (mapping_load : option (list MappingRule)) (to_csv : string → bool)
    (input_files : list (string * string)) (file_path : string) :
  NoDup input_files.*1 →
  ("Patient_Details", file_path) ∈ input_files →
  read_csv file_path = ReadEmptyData →
  (∀ loaded_data_dict,
     load_file read_csv loaded_data_dict "Patient_Details" file_path
       = Ok (<["Patient_Details" := mkDataFrame [] []]> loaded_data_dict))
  ∧ (worker_run read_csv mapping_load to_csv input_files).2 = false
  ∧ (Forall (λ kp, read_csv kp.2 = ReadEmptyData
                   ∨ ∃ df, read_csv kp.2 = ReadTable df
                           ∧ (kp.1 = "Patient_Details"
                              ∨ has_column config.MERGE_KEY df = true))
            input_files →
     ∃ loaded_data_dict,
       load_files read_csv input_files ∅ = Ok loaded_data_dict
       ∧ loaded_data_dict !! "Patient_Details" = Some (mkDataFrame [] [])
       ∧ worker_run read_csv mapping_load to_csv input_files
         = ((generate_acg_files mapping_load to_csv loaded_data_dict).1, false)
       ∧ (Saves "patient_data")
           ∉ (generate_acg_files mapping_load to_csv loaded_data_dict).1).
Proof.
  intros Hnd Hin Hr.
  assert (Hfail : ∀ loaded,
            load_files read_csv input_files ∅ = Ok loaded →
            loaded !! "Patient_Details" = Some (mkDataFrame [] [])
            ∧ (generate_acg_files mapping_load to_csv loaded).2 ≠ Ok ()
            ∧ (Saves "patient_data")
                ∉ (generate_acg_files mapping_load to_csv loaded).1).
  { intros loaded Hl.
    pose proof (load_files_lookup _ _ _ _ _ _ Hnd Hin Hl) as Hdf.
    rewrite Hr in Hdf. split; [done|].
    assert (Hno : ∀ m, has_rows (_generate_patient_data loaded m) = false).
    { intros m. unfold _generate_patient_data, required_input_key. by rewrite Hdf. }
    split; [by apply run_needs_patient_data|by apply run_without_patient_rows]. }
  split; [|split].
  - intros d. unfold load_file. by rewrite Hr.
  - unfold worker_run.
    destruct (load_files read_csv input_files ∅) as [loaded|] eqn:Hl; [|done].
    case_bool_decide; [done|].
    destruct (Hfail loaded eq_refl) as (_ & Hrun & _).
    by destruct (generate_acg_files mapping_load to_csv loaded) as [trace [[]|e]].
  - intros Hall.
    destruct (load_files_Ok read_csv input_files ∅ Hall) as (loaded & Hl & Hdom).
    exists loaded. destruct (Hfail loaded Hl) as (Hdf & Hrun & Hsaves).
    split; [done|]. split; [done|]. split; [|done].
    unfold worker_run. rewrite Hl.
    rewrite bool_decide_eq_false_2.
    + by destruct (generate_acg_files mapping_load to_csv loaded) as [trace [[]|e]].
    + intros Hsize. apply Hsize.
      rewrite <- size_dom, Hdom, dom_empty_L, (right_id_L ∅ (∪)).
      rewrite size_list_to_set by done. apply length_fmap.
Qed.

(** X6. When the worker reports success, every input file was read (as a
    table or as an empty file), and the run it started wrote the
    patient-data and the medical-services file. *)
Theorem worker_success_wrote_required_files (read_csv : string → read_outcome)
    (mapping_load : option (list MappingRule)) (to_csv : string → bool)
    (input_files : list (string * string)) :
  (worker_run read_csv mapping_load to_csv input_files).2 = true →
  Forall (λ kp, read_csv kp.2 = ReadEmptyData
                ∨ ∃ df, read_csv kp.2 = ReadTable df
                        ∧ (kp.1 = "Patient_Details"
                           ∨ has_column config.MERGE_KEY df = true))
         input_files
  ∧ Saves "patient_data" ∈ (worker_run read_csv mapping_load to_csv input_files).1
  ∧ Saves "medical_services"
      ∈ (worker_run read_csv mapping_load to_csv input_files).1.
Proof.
  unfold worker_run.
  destruct (load_files read_csv input_files ∅) as [loaded|] eqn:Hl; [|done].
  case_bool_decide; [done|].
  pose proof (completed_run_facts mapping_load to_csv loaded) as Hrun.
  destruct (generate_acg_files mapping_load to_csv loaded) as [trace [[]|e]];
    [|done].
  intros _. destruct Hrun as (_ & Hp & Hm); [done|].
  split; [|done].
  apply load_files_Ok_inv in Hl. eapply Forall_impl; [exact Hl|].
  intros [k p] [df Hdf]. simpl in *. unfold load_file in Hdf.
  destruct (read_csv p) as [df'| | |]; try done; [|by left].
  right. exists df'. split; [done|].
  destruct (bool_decide (k ≠ "Patient_Details")) eqn:Hk;
    destruct (has_column config.MERGE_KEY df') eqn:Hc; simpl in Hdf; try done; auto.
  all: left; apply bool_decide_eq_false in Hk; by apply dec_stable.
Qed.

(** ** When the patient-data generator succeeds *)

Lemma patient_rule_None_iff (patient_details_df : DataFrame) (row : MappingRule) :
  (patient_rule patient_details_df row).1 = None ↔ skipped row.
Proof.
  unfold skipped. split.
  - unfold patient_rule. logged_step.
    destruct (decide (InputConfigKey row ≠ Str required_input_key)) as [Hk|Hk].
    + destruct (blank (InputColumn row)); [|done].
      case_decide; [|done].
      by destruct (_apply_transformation _ _ _ _).
    + destruct (input_column_step patient_details_df row) as [[rs sc] lg].
      case_decide; [|done].
      destruct (_ || _); [|done].
      by destruct (_apply_transformation _ _ _ _).
  - intros [Hk Hb]. by apply patient_rule_skips.
Qed.

Lemma patient_loop_names_iff (patient_details_df : DataFrame)
    (rules : list MappingRule) (out : DataFrame) (c : string) :
  c ∈ column_names (patient_loop patient_details_df rules out)
  ↔ c ∈ column_names out
    ∨ ∃ r, r ∈ rules ∧ TargetACGColumn r = c ∧ ¬ skipped r.
Proof.
  split.
  - intros [?|(r & Hr & Ht & Hs)]%patient_loop_names; [by left|].
    right. exists r. by rewrite <- (patient_rule_None_iff patient_details_df).
  - unfold patient_loop. revert out.
    induction rules as [|r rules IH]; intros out; simpl.
    + intros [?|(r & Hr & _)]; [done|by apply elem_of_nil in Hr].
    + intros H. apply IH.
      destruct (patient_rule patient_details_df r).1 as [s|] eqn:Hrule.
      * rewrite elem_of_column_names_set.
        destruct H as [?|(r' & [Heq|Hr']%elem_of_cons & Ht & Hs)].
        -- by left; right.
        -- subst r'. by left; left.
        -- right. by exists r'.
      * destruct H as [?|(r' & [Heq|Hr']%elem_of_cons & Ht & Hs)].
        -- by left.
        -- subst r'. by apply patient_rule_None_iff in Hrule.
        -- right. by exists r'.
Qed.

Lemma df_select_is_Some (cols : list string) (df : DataFrame) :
  is_Some (df_select cols df) ↔ ∀ c, c ∈ cols → c ∈ column_names df.
Proof.
  split.
  - intros [out Hout] c Hc.
    destruct (decide (c ∈ column_names df)) as [|Hno]; [done|].
    by rewrite (df_select_None cols df c) in Hout.
  - intros Hall. unfold df_select. apply fmap_is_Some, mapM_is_Some.
    apply Forall_forall. intros c Hc. simpl. apply fmap_is_Some.
    apply assoc_is_Some. by apply Hall.
Qed.

Lemma elem_of_list_remove_iff (x y : string) (l : list string) :
  NoDup l → x ∈ list_remove y l ↔ x ∈ l ∧ x ≠ y.
Proof.
  induction l as [|z l IH]; intros Hnd; simpl.
  - rewrite elem_of_nil. tauto.
  - apply NoDup_cons in Hnd as [Hz Hnd]. case_decide as Hyz.
    + subst z. rewrite elem_of_cons. split.
      * intros Hx. split; [by right|]. by intros ->.
      * intros [[->|?] ?]; done.
    + rewrite !elem_of_cons, IH by done. split.
      * intros [->|[? ?]]; [split; [by left|congruence]|tauto].
      * intros [[->|?] ?]; tauto.
Qed.

Lemma elem_of_list_replace_first_iff (x old new : string) (l : list string) :
  NoDup l →
  x ∈ list_replace_first old new l ↔ (x = new ∧ old ∈ l) ∨ (x ∈ l ∧ x ≠ old).
Proof.
  induction l as [|z l IH]; intros Hnd; simpl.
  - rewrite !elem_of_nil. tauto.
  - apply NoDup_cons in Hnd as [Hz Hnd]. case_decide as Hoz.
    + subst z. rewrite !elem_of_cons. split.
      * intros [->|Hx]; [left; auto|]. right. split; [by right|]. by intros ->.
      * intros [[-> _]|[[->|?] ?]]; tauto.
    + rewrite !elem_of_cons, IH by done. split.
      * intros [->|[[-> ?]|[? ?]]]; [right; split; [by left|congruence]|tauto|tauto].
      * intros [[-> [?|?]]|[[->|?] ?]]; [congruence|tauto|tauto|tauto].
Qed.

Lemma has_column_true (c : string) (df : DataFrame) :
  has_column c df = true ↔ is_Some (df_get c df).
Proof.
  unfold has_column. rewrite bool_decide_eq_true. symmetry. apply assoc_is_Some.
Qed.

(** X7. The patient-data generator returns a table exactly when the input
    dictionary holds a Patient_Details table with a PatientID column, the
    mapping has a patient_data rule, and every target column of these rules
    is supplied by a rule that is not skipped (one that reads
    Patient_Details or names no source column), the target PatientID being
    also supplied by the merge key itself when no rule targets
    patient_id. *)
Theorem patient_data_succeeds_iff (input_data_dict : gmap string DataFrame)
    (mapping_df : list MappingRule) :
  is_Some (_generate_patient_data input_data_dict mapping_df)
  ↔ ∃ pd, input_data_dict !! required_input_key = Some pd
          ∧ has_column config.MERGE_KEY pd = true
          ∧ patient_rules mapping_df ≠ []
          ∧ ∀ r, r ∈ patient_rules mapping_df →
                 (∃ r', r' ∈ patient_rules mapping_df
                        ∧ TargetACGColumn r' = TargetACGColumn r ∧ ¬ skipped r')
                 ∨ (TargetACGColumn r = config.MERGE_KEY
                    ∧ patient_id_col ∉ TargetACGColumn <$> patient_rules mapping_df).
Proof.
  unfold _generate_patient_data.
  destruct (input_data_dict !! required_input_key) as [pd|];
    [|split; [by intros []|by intros (? & ? & _)]].
  destruct (df_get config.MERGE_KEY pd) as [keys|] eqn:Hkeys.
  2: { split; [by intros []|]. intros (? & [= <-] & Hc%has_column_true & _).
       rewrite Hkeys in Hc. by destruct Hc. }
  assert (Hhas : has_column config.MERGE_KEY pd = true)
    by (apply has_column_true; by rewrite Hkeys).
  unfold assemble_patient_data. fold (patient_rules mapping_df).
  set (rules := patient_rules mapping_df).
  case_decide as Hempty.
  { split; [by intros []|]. by intros (? & _ & _ & ? & _). }
  set (pdf := prepare_patient_details pd keys).
  set (produced := patient_loop pdf rules (mkDataFrame (df_index pdf) [])).
  set (U := pd_unique (TargetACGColumn <$> rules)).
  assert (HU : ∀ c, c ∈ U ↔ ∃ r, r ∈ rules ∧ TargetACGColumn r = c).
  { intros c. unfold U. rewrite elem_of_pd_unique, list_elem_of_fmap.
    split; [intros (r & -> & Hr)|intros (r & Hr & <-)]; by exists r. }
  assert (Hnd : NoDup U) by apply NoDup_pd_unique.
  assert (Hprod : ∀ c, c ∈ column_names produced
                       ↔ ∃ r, r ∈ rules ∧ TargetACGColumn r = c ∧ ¬ skipped r).
  { intros c. unfold produced. rewrite patient_loop_names_iff. simpl.
    split; [intros [?%elem_of_nil|?]; done|by right]. }
  destruct (prepare_patient_details_keys pd keys Hkeys) as [Hids _]. fold pdf in Hids.
  assert (Hgoal : ∀ (cols : list string) (placed : DataFrame),
            place_patient_id pdf U produced = (cols, placed) →
            (∀ c, c ∈ cols → c ∈ column_names placed)
            ↔ ∀ c, c ∈ U → c ∈ column_names produced
                           ∨ (c = config.MERGE_KEY ∧ patient_id_col ∉ U)).
  { intros cols placed Hplace. unfold place_patient_id in Hplace.
    rewrite Hids in Hplace.
    pose proof (λ x y, elem_of_list_remove_iff x y U Hnd) as Hrem.
    pose proof (λ x, elem_of_list_replace_first_iff x config.MERGE_KEY
                       patient_id_col U Hnd) as Hrep.
    destruct (decide (patient_id_col ∈ U)) as [Hp|Hp].
    - injection Hplace as <- <-. rewrite list_insert_at_0. split.
      + intros H c Hc. left. apply H.
        destruct (decide (c = patient_id_col)) as [->|]; [left|right].
        by apply Hrem.
      + intros H c Hc. apply elem_of_cons in Hc as [->|Hc].
        * destruct (H _ Hp) as [?|[_ ?]]; done.
        * apply Hrem in Hc as [Hc _]. destruct (H _ Hc) as [?|[_ ?]]; done.
    - destruct (has_column config.MERGE_KEY produced) eqn:Hmk; simpl in Hplace;
        injection Hplace as <- <-; rewrite list_insert_at_0.
      + apply has_column_true, assoc_is_Some in Hmk.
        fold (column_names produced) in Hmk.
        assert (HmkU : config.MERGE_KEY ∈ U).
        { apply HU. apply Hprod in Hmk as (r & ? & ? & _). by exists r. }
        rewrite decide_True by done.
        rewrite column_names_rename.
        split.
        * intros H c Hc. left.
          destruct (decide (c = config.MERGE_KEY)) as [->|Hne]; [done|].
          assert (Hin : c ∈ patient_id_col
                          :: list_replace_first config.MERGE_KEY patient_id_col U).
          { right. apply Hrep. by right. }
          apply H, list_elem_of_fmap in Hin as (c' & Hc' & Hin).
          case_decide; [|by subst]. subst c. done.
        * intros H c Hc. apply list_elem_of_fmap.
          assert (Hpid : ∃ y, patient_id_col
                              = (if decide (y = config.MERGE_KEY)
                                 then patient_id_col else y)
                            ∧ y ∈ column_names produced).
          { exists config.MERGE_KEY. by rewrite decide_True. }
          apply elem_of_cons in Hc as [->|Hc]; [done|].
          apply Hrep in Hc as [[-> _]|[Hc Hne]]; [done|].
          exists c. rewrite decide_False by done. split; [done|].
          destruct (H c Hc) as [?|[? _]]; done.
      + assert (Hno : config.MERGE_KEY ∉ column_names produced).
        { unfold has_column in Hmk. by apply bool_decide_eq_false in Hmk. }
        split.
        * intros H c Hc.
          destruct (decide (c = config.MERGE_KEY)) as [->|Hne]; [by right|].
          left.
          assert (Hin : c ∈ config.MERGE_KEY
                          :: (if decide (config.MERGE_KEY ∈ U)
                              then list_remove config.MERGE_KEY U else U)).
          { right. case_decide; [by apply Hrem|done]. }
          apply H, elem_of_column_names_set in Hin as [?|?]; done.
        * intros H c Hc. apply elem_of_column_names_set.
          apply elem_of_cons in Hc as [->|Hc]; [by left|].
          assert (Hin : c ∈ U).
          { case_decide; [by apply Hrem in Hc as [? _]|done]. }
          destruct (H c Hin) as [?|[-> _]]; [by right|by left]. }
  destruct (place_patient_id pdf U produced) as [cols placed] eqn:Hplace.
  specialize (Hgoal cols placed eq_refl).
  assert (Hsel : is_Some (match df_select cols placed with
                          | Some out => Some (reset_index out)
                          | None => None
                          end) ↔ is_Some (df_select cols placed)).
  { destruct (df_select cols placed); [split; eauto|split; by intros []]. }
  rewrite Hsel, df_select_is_Some, Hgoal.
  split.
  - intros H. exists pd. repeat split; try done.
    intros r Hr.
    destruct (H (TargetACGColumn r)) as [Hc|[Hc Hp]].
    + apply HU. by exists r.
    + left. apply Hprod in Hc as (r' & ? & ? & ?). by exists r'.
    + right. split; [done|]. intros Hin. apply Hp. unfold U.
      by apply elem_of_pd_unique.
  - intros (pd' & [= <-] & _ & _ & H) c (r & Hr & <-)%HU.
    destruct (H r Hr) as [(r' & ? & ? & ?)|[Hc Hp]].
    + left. apply Hprod. by exists r'.
    + right. split; [done|]. intros Hin. apply Hp.
      apply (elem_of_pd_unique (TargetACGColumn <$> rules)). exact Hin.
Qed.

Lemma list_replace_first_lookup (old new : string) (l : list string) (i : nat) :
  NoDup l → l !! i = Some old → list_replace_first old new l !! i = Some new.
Proof.
  revert i. induction l as [|z l IH]; intros i Hnd Hi; [done|].
  apply NoDup_cons in Hnd as [Hz Hnd]. simpl.
  destruct i as [|i]; simpl in Hi.
  - injection Hi as ->. by rewrite decide_True.
  - case_decide as Hoz.
    + subst z. exfalso. apply Hz. by eapply list_elem_of_lookup_2.
    + simpl. by apply IH.
Qed.

(** X8. When no patient_data rule targets patient_id and a rule that is not
    skipped targets PatientID, a successful generation carries that rule's
    column twice, both times under the name patient_id: as the first
    column, and again at the place the target has among the declared
    columns. *)
Theorem patient_id_column_is_duplicated (input_data_dict : gmap string DataFrame)
    (mapping_df : list MappingRule) (out : DataFrame) (row : MappingRule) :
  _generate_patient_data input_data_dict mapping_df = Some out →
  row ∈ patient_rules mapping_df →
  TargetACGColumn row = config.MERGE_KEY →
  ¬ skipped row →
  patient_id_col ∉ TargetACGColumn <$> patient_rules mapping_df →
  ∃ i s,
    pd_unique (TargetACGColumn <$> patient_rules mapping_df) !! i
      = Some config.MERGE_KEY
    ∧ df_columns out !! 0 = Some (patient_id_col, s)
    ∧ df_columns out !! S i = Some (patient_id_col, s).
Proof.
  intros Hgen Hrow Htarget Hskip Hp.
  unfold _generate_patient_data in Hgen.
  destruct (input_data_dict !! required_input_key) as [pd|]; [|done].
  destruct (df_get config.MERGE_KEY pd) as [keys|] eqn:Hkeys; [|done].
  unfold assemble_patient_data in Hgen. fold (patient_rules mapping_df) in Hgen.
  set (rules := patient_rules mapping_df) in *.
  case_decide as Hempty; [done|].
  set (pdf := prepare_patient_details pd keys) in *.
  set (produced := patient_loop pdf rules (mkDataFrame (df_index pdf) [])) in *.
  set (U := pd_unique (TargetACGColumn <$> rules)) in *.
  assert (Hmk : has_column config.MERGE_KEY produced = true).
  { unfold has_column. apply bool_decide_eq_true. unfold produced.
    apply patient_loop_names_iff. right. by exists row. }
  assert (HmkU : config.MERGE_KEY ∈ U).
  { apply elem_of_pd_unique, list_elem_of_fmap. by exists row. }
  destruct (prepare_patient_details_keys pd keys Hkeys) as [Hids _]. fold pdf in Hids.
  unfold place_patient_id in Hgen.
  assert (HnU : patient_id_col ∉ U).
  { intros HU. apply Hp. unfold U in HU. by rewrite elem_of_pd_unique in HU. }
  rewrite decide_False in Hgen by done.
  rewrite Hids, Hmk in Hgen. simpl in Hgen.
  rewrite decide_True, list_insert_at_0 in Hgen by done.
  destruct (df_select _ _) as [sel|] eqn:Hsel; [|done]. injection Hgen as <-.
  apply df_select_Some in Hsel as [_ Hsel]. simpl.
  apply list_elem_of_lookup in HmkU as [i Hi]. exists i.
  pose proof (list_replace_first_lookup _ patient_id_col U i
                (NoDup_pd_unique _) Hi) as Hrep.
  destruct (Forall2_lookup_l _ _ _ 0 _ Hsel eq_refl) as ([c0 s0] & H0 & Hc0 & Hs0).
  destruct (Forall2_lookup_l _ _ _ (S i) _ Hsel Hrep) as ([c1 s1] & H1 & Hc1 & Hs1).
  simpl in *. subst c0 c1. exists s0. split; [done|]. split; [done|].
  rewrite H1. congruence.
Qed.

(** ** Rectangular tables in, rectangular tables out *)

Lemma apply_transformation_length (target_col_name transform_key : string)
    (source_df : DataFrame) (source_col_name : option string) :
  length (_apply_transformation target_col_name transform_key source_df source_col_name).1
    = nrows source_df.
Proof.
  unfold _apply_transformation.
  destruct (config.TRANSFORMATIONS to_datetime !! transform_key) as [f|];
    [|apply length_nan_series].
  assert (Hcall : ∀ o : config.outcome,
            length (tell DEBUG "Applying transformation";;
                    match o with
                    | config.RetSeries result_series =>
                        if bool_decide (length result_series ≠ nrows source_df)
                        then tell ERROR "Transformation returned Series of wrong length";;
                             mret (nan_series (nrows source_df))
                        else mret result_series
                    | config.RetIndex vals =>
                        if bool_decide (length vals ≠ nrows source_df)
                        then tell ERROR "Transformation did not return a Series and couldn't be cast";;
                             mret (nan_series (nrows source_df))
                        else mret vals
                    | config.Raised _ =>
                        tell EXCEPTION "Error applying transformation";;
                        mret (nan_series (nrows source_df))
                    end).1 = nrows source_df).
  { intros [vals|vals|e]; logged_step; try case_bool_decide; cbn;
      rewrite ?length_nan_series; try done; by apply dec_stable. }
  destruct (truthy source_col_name) as [c|]; [|apply Hcall].
  destruct (df_get c source_df) as [input|]; [apply Hcall|apply length_nan_series].
Qed.

Lemma rectangular_get (df : DataFrame) (c : string) (s : Series) :
  rectangular df → df_get c df = Some s → length s = nrows df.
Proof.
  destruct df as [idx cols]. unfold rectangular, df_get, nrows. simpl. intros Hr.
  induction Hr as [|[c' s'] l Hc _ IH]; simpl; [done|].
  case_decide; [by intros [= <-]|done].
Qed.

Lemma rectangular_set (df : DataFrame) (c : string) (s : Series) :
  rectangular df → length s = nrows df → rectangular (df_set c s df).
Proof.
  destruct df as [idx cols]. unfold rectangular, df_set, nrows. simpl. intros Hr Hs.
  induction Hr as [|[c' s'] l Hc Hl IH]; simpl.
  - constructor; [done|constructor].
  - case_decide; constructor; done.
Qed.

Lemma filter_mask_length {A B} (mask : list bool) (l1 : list A) (l2 : list B) :
  length l1 = length l2 →
  length (filter_mask mask l1) = length (filter_mask mask l2).
Proof.
  revert l1 l2. induction mask as [|b mask IH]; intros [|x l1] [|y l2] H;
    simpl in *; try done.
  injection H as H. destruct b; simpl; auto.
Qed.

Lemma rectangular_filter (mask : list bool) (df : DataFrame) :
  rectangular df → rectangular (df_filter mask df).
Proof.
  unfold rectangular, df_filter, nrows. simpl. intros Hr.
  apply Forall_fmap. eapply Forall_impl; [exact Hr|].
  intros [c s] Hs. simpl in *. by apply filter_mask_length.
Qed.

Lemma rectangular_set_index (key : string) (df : DataFrame) :
  rectangular df → rectangular (set_index key df) ∧ nrows (set_index key df) = nrows df.
Proof.
  intros Hr. unfold set_index.
  destruct (df_get key df) as [keys|] eqn:Hk; [|done].
  pose proof (rectangular_get _ _ _ Hr Hk) as Hlen.
  unfold rectangular, nrows in *. simpl. rewrite length_fmap. split; [|done].
  eapply Forall_impl; [exact Hr|]. intros [c s] Hs. simpl in *. congruence.
Qed.

Lemma rectangular_prepare (pd : DataFrame) (keys : Series) :
  rectangular pd → rectangular (prepare_patient_details pd keys).
Proof.
  intros Hr. unfold prepare_patient_details.
  apply rectangular_set_index.
  destruct (negb (is_unique keys)); [|done].
  unfold drop_duplicates. destruct (df_get config.MERGE_KEY pd); [|done].
  by apply rectangular_filter.
Qed.

Lemma input_column_step_length (source_df : DataFrame) (row : MappingRule) :
  rectangular source_df →
  length (input_column_step source_df row).1.1 = nrows source_df.
Proof.
  intros Hr. unfold input_column_step.
  destruct (negb (blank (InputColumn row))).
  - destruct (df_get _ source_df) as [col|] eqn:Hc; logged_step; cbn.
    + case_decide; [by eapply rectangular_get|apply length_nan_series].
    + apply length_replicate.
  - case_decide; logged_step; cbn; apply length_replicate.
Qed.

Lemma patient_rule_length (patient_details_df : DataFrame) (row : MappingRule)
    (s : Series) :
  rectangular patient_details_df →
  (patient_rule patient_details_df row).1 = Some s →
  length s = nrows patient_details_df.
Proof.
  intros Hr. unfold patient_rule. logged_step.
  destruct (decide (InputConfigKey row ≠ Str required_input_key)).
  - destruct (blank (InputColumn row)); [|done].
    case_decide.
    + pose proof (apply_transformation_length (TargetACGColumn row)
                    (TransformationFunction row) patient_details_df None) as Hlen.
      destruct (_apply_transformation _ _ _ _) as [s' lg]. cbn.
      by intros [= <-].
    + cbn. intros [= <-]. apply length_replicate.
  - pose proof (input_column_step_length patient_details_df row Hr) as Hstep.
    destruct (input_column_step patient_details_df row) as [[rs sc] lg].
    cbn in Hstep. case_decide; [|by cbn; intros [= <-]].
    destruct (_ || _); [|by cbn; intros [= <-]].
    pose proof (apply_transformation_length (TargetACGColumn row)
                  (TransformationFunction row) patient_details_df sc) as Hlen.
    destruct (_apply_transformation _ _ _ _) as [s' lg']. cbn.
    by intros [= <-].
Qed.

Lemma rectangular_patient_loop (patient_details_df : DataFrame)
    (rules : list MappingRule) (out : DataFrame) :
  rectangular patient_details_df →
  rectangular out → nrows out = nrows patient_details_df →
  rectangular (patient_loop patient_details_df rules out).
Proof.
  intros Hpd. unfold patient_loop. revert out.
  induction rules as [|r rules IH]; intros out Hr Hn; simpl; [done|].
  destruct (patient_rule patient_details_df r).1 as [s|] eqn:Hs; [|by apply IH].
  apply IH; [|done].
  apply rectangular_set; [done|]. rewrite Hn. by eapply patient_rule_length.
Qed.

Lemma rectangular_rename (old new : string) (df : DataFrame) :
  rectangular df → rectangular (df_rename old new df).
Proof.
  unfold rectangular, df_rename, nrows. simpl. intros Hr.
  apply Forall_fmap. eapply Forall_impl; [exact Hr|]. by intros [c s].
Qed.

Lemma rectangular_select (cols : list string) (df out : DataFrame) :
  rectangular df → df_select cols df = Some out → rectangular out.
Proof.
  intros Hr (Hidx & Hsel)%df_select_Some.
  unfold rectangular, nrows. rewrite Hidx.
  apply Forall_forall. intros cs Hcs.
  apply list_elem_of_lookup in Hcs as [i Hi].
  destruct (Forall2_lookup_r _ _ _ _ _ Hsel Hi) as (c & _ & _ & Hget).
  by eapply rectangular_get.
Qed.

Lemma rectangular_reset_index (df : DataFrame) :
  rectangular df → rectangular (reset_index df).
Proof.
  unfold rectangular, reset_index, nrows. simpl.
  by rewrite length_fmap, length_seq.
Qed.

(** X9. From a rectangular Patient_Details table (every column as long as
    the index) the patient-data generator makes a rectangular table: every
    output column, copied, transformed or filled, has exactly one value per
    distinct merge-key identifier. *)
Theorem patient_data_is_rectangular (input_data_dict : gmap string DataFrame)
    (mapping_df : list MappingRule) (pd : DataFrame) (keys : Series) (out : DataFrame) :
  input_data_dict !! required_input_key = Some pd →
  rectangular pd →
  df_get config.MERGE_KEY pd = Some keys →
  _generate_patient_data input_data_dict mapping_df = Some out →
  Forall (λ cs, length cs.2 = length (pd_unique keys)) (df_columns out)
  ∧ nrows out = length (pd_unique keys).
Proof.
  intros Hpd Hrect Hkeys Hgen.
  unfold _generate_patient_data in Hgen. rewrite Hpd, Hkeys in Hgen.
  pose proof (rectangular_prepare pd keys Hrect) as Hprep.
  destruct (prepare_patient_details_keys pd keys Hkeys) as [Hids Hidx].
  set (pdf := prepare_patient_details pd keys) in *.
  unfold assemble_patient_data in Hgen. case_decide; [done|].
  set (rules := filter _ mapping_df) in *.
  set (produced := patient_loop pdf rules (mkDataFrame (df_index pdf) [])) in *.
  assert (Hproduced : rectangular produced).
  { apply rectangular_patient_loop; [done| |done]. constructor. }
  assert (Hn : nrows produced = nrows pdf).
  { exact (f_equal length
             (patient_loop_index pdf rules (mkDataFrame (df_index pdf) []))). }
  set (U := pd_unique (TargetACGColumn <$> rules)) in *.
  assert (Hplaced : rectangular (place_patient_id pdf U produced).2
                    ∧ nrows (place_patient_id pdf U produced).2 = nrows pdf).
  { split; [|rewrite <- Hn; unfold nrows; apply (f_equal length),
                                           place_patient_id_index].
    unfold place_patient_id. rewrite Hids.
    case_decide; [done|].
    destruct (has_column config.MERGE_KEY produced); simpl.
    - by apply rectangular_rename.
    - apply rectangular_set; [done|]. rewrite Hn. by eapply rectangular_get. }
  destruct (place_patient_id pdf U produced) as [cols placed]. simpl in Hplaced.
  destruct Hplaced as [Hplaced Hnp].
  destruct (df_select cols placed) as [sel|] eqn:Hsel; [|done]. injection Hgen as <-.
  pose proof (rectangular_select _ _ _ Hplaced Hsel) as Hrs.
  apply df_select_Some in Hsel as [Hidx' _].
  assert (Hrows : nrows sel = length (pd_unique keys)).
  { unfold nrows in *. rewrite Hidx', Hnp, Hidx. apply length_fmap. }
  split.
  - unfold rectangular in Hrs. simpl. by rewrite <- Hrows.
  - unfold nrows, reset_index. simpl. rewrite length_fmap, length_seq. done.
Qed.

(** ** The columns of the multi-source outputs *)

Lemma list_remove_perm (x : string) (l : list string) :
  x ∈ l → x :: list_remove x l ≡ₚ l.
Proof.
  induction l as [|y l IH]; [by intros ?%elem_of_nil|].
  simpl. case_decide as Hxy; [by subst|].
  intros [?|Hin]%elem_of_cons; [done|].
  rewrite Permutation_swap. by rewrite IH.
Qed.

Lemma prioritize_perm (i : nat) (c : string) (cols : list string) :
  prioritize i c cols ≡ₚ cols.
Proof.
  unfold prioritize. case_decide; [|done]. unfold list_insert_at.
  rewrite <- Permutation_middle, take_drop. by apply list_remove_perm.
Qed.

Lemma prioritize_0 (c : string) (cols : list string) :
  c ∈ cols → prioritize 0 c cols = c :: list_remove c cols.
Proof. intros H. unfold prioritize. by rewrite decide_True, list_insert_at_0. Qed.

Lemma prioritize_1 (c a : string) (cols : list string) :
  c ≠ a → c ∈ a :: cols →
  prioritize 1 c (a :: cols) = a :: c :: list_remove c cols.
Proof.
  intros Hca Hin. unfold prioritize. rewrite decide_True by done.
  simpl. by rewrite decide_False.
Qed.

Lemma prioritize_2 (c a b : string) (cols : list string) :
  c ≠ a → c ≠ b → c ∈ a :: b :: cols →
  prioritize 2 c (a :: b :: cols) = a :: b :: c :: list_remove c cols.
Proof.
  intros Hca Hcb Hin. unfold prioritize. rewrite decide_True by done.
  simpl. by rewrite !decide_False.
Qed.

Lemma prioritize_two (a b : string) (cols : list string) :
  a ≠ b →
  a ∈ prioritize 1 b (prioritize 0 a cols) →
  b ∈ prioritize 1 b (prioritize 0 a cols) →
  ∃ rest, prioritize 1 b (prioritize 0 a cols) = a :: b :: rest.
Proof.
  intros Hab Ha Hb. rewrite !prioritize_perm in Ha, Hb.
  rewrite (prioritize_0 a cols Ha).
  rewrite prioritize_1; [by eexists|done|].
  by rewrite (list_remove_perm a cols Ha).
Qed.

Lemma concat_sources_nonempty (target_columns : list string)
    (all_dfs : list DataFrame) (out : DataFrame) :
  concat_sources target_columns all_dfs = Some out → all_dfs ≠ [].
Proof. unfold concat_sources. by case_decide. Qed.

Lemma concat_sources_names (target_columns : list string)
    (all_dfs : list DataFrame) (out : DataFrame) :
  concat_sources target_columns all_dfs = Some out →
  Forall (λ df, column_names df = target_columns) all_dfs →
  column_names out = target_columns.
Proof.
  unfold concat_sources. case_decide as Hne; [done|]. intros Hout Hnames.
  destruct (df_select target_columns (pd_concat all_dfs)) as [sel|] eqn:Hsel.
  - injection Hout as <-. by eapply df_select_names.
  - exfalso.
    assert (is_Some (df_select target_columns (pd_concat all_dfs))) as [? ?];
      [|congruence].
    apply df_select_is_Some. intros c Hc.
    apply (assoc_is_Some c (df_columns (pd_concat all_dfs))).
    change (is_Some (df_get c (pd_concat all_dfs))). rewrite df_get_concat.
    rewrite decide_True; [done|].
    destruct all_dfs as [|df dfs]; [done|]. apply Forall_cons in Hnames as [Hdf _].
    apply list_elem_of_bind. exists df. split; [by rewrite Hdf|left].
Qed.

(** X10. Whenever the medical-services generator yields a table, its
    columns are the target columns of the medical_services rules, each
    once, with patient_id first and dx_cd_1 second. *)
Theorem medical_services_column_order (input_data_dict : gmap string DataFrame)
    (mapping_df : list MappingRule) (out : DataFrame) :
  _generate_medical_services input_data_dict mapping_df = Ok (Some out) →
  (∃ rest, column_names out = "patient_id" :: "dx_cd_1" :: rest)
  ∧ NoDup (column_names out)
  ∧ ∀ c, c ∈ column_names out
         ↔ ∃ row, row ∈ mapping_df ∧ TargetACGFile row = Str "medical_services"
                  ∧ TargetACGColumn row = c.
Proof.
  unfold _generate_medical_services. case_decide; [done|].
  destruct (no_source_label _); [done|].
  set (U := pd_unique _).
  set (tc := prioritize 1 "dx_cd_1" _).
  destruct (source_loop _ _ []) as [all|] eqn:Hloop; simpl; [|done].
  intros [= Hout].
  assert (Hall : Forall (medical_rows_ok tc) all).
  { eapply source_loop_Forall; [|constructor|exact Hloop].
    intros l f. apply medical_source_rows_ok. }
  assert (Hnames : column_names out = tc).
  { eapply concat_sources_names; [exact Hout|].
    eapply Forall_impl; [exact Hall|]. by intros df (? & _). }
  assert (Hperm : tc ≡ₚ U) by (unfold tc; by rewrite !prioritize_perm).
  apply concat_sources_nonempty in Hout.
  destruct all as [|df dfs]; [done|].
  apply Forall_cons in Hall as [(Hdf & Hp & Hd & _) _].
  apply column_all_has_column in Hp, Hd. rewrite Hdf in Hp, Hd.
  rewrite Hnames. split; [by apply prioritize_two|].
  split; [rewrite Hperm; apply NoDup_pd_unique|].
  intros c. rewrite Hperm. unfold U. rewrite elem_of_pd_unique, list_elem_of_fmap.
  split.
  - intros (row & -> & (? & ?)%list_elem_of_filter). by exists row.
  - intros (row & ? & ? & <-). exists row. split; [done|].
    by apply list_elem_of_filter.
Qed.

(** X11. Whenever the pharmacy-data generator yields a table, its columns
    are the target columns of the pharmacy_data rules, each once, with
    patient_id first, rx_cd second and, when a rule targets it,
    rx_fill_date third. *)
Theorem pharmacy_data_column_order (input_data_dict : gmap string DataFrame)
    (mapping_df : list MappingRule) (out : DataFrame) :
  _generate_pharmacy_data input_data_dict mapping_df = Ok (Some out) →
  (∃ rest, column_names out = "patient_id" :: "rx_cd" :: rest
           ∧ ("rx_fill_date" ∈ column_names out → head rest = Some "rx_fill_date"))
  ∧ NoDup (column_names out)
  ∧ ∀ c, c ∈ column_names out
         ↔ ∃ row, row ∈ mapping_df ∧ TargetACGFile row = Str "pharmacy_data"
                  ∧ TargetACGColumn row = c.
Proof.
  unfold _generate_pharmacy_data. case_decide; [done|].
  destruct (no_source_label _); [done|].
  set (U := pd_unique _).
  set (tc := prioritize 2 "rx_fill_date" _).
  destruct (source_loop _ _ []) as [all|] eqn:Hloop; simpl; [|done].
  intros [= Hout].
  assert (Hall : Forall (pharmacy_rows_ok tc) all).
  { eapply source_loop_Forall; [|constructor|exact Hloop].
    intros l f. apply pharmacy_source_rows_ok. }
  assert (Hnames : column_names out = tc).
  { eapply concat_sources_names; [exact Hout|].
    eapply Forall_impl; [exact Hall|]. by intros df (? & _). }
  assert (Hperm : tc ≡ₚ U) by (unfold tc; by rewrite !prioritize_perm).
  apply concat_sources_nonempty in Hout.
  destruct all as [|df dfs]; [done|].
  apply Forall_cons in Hall as [(Hdf & Hp & Hd) _].
  apply column_all_has_column in Hp, Hd. rewrite Hdf in Hp, Hd.
  rewrite Hnames. split; [|split].
  - unfold tc in *. rewrite prioritize_perm in Hp, Hd.
    destruct (prioritize_two "patient_id" "rx_cd" U) as [rest Hrest]; [done..|].
    rewrite Hrest. unfold prioritize at 1. case_decide as Hfill.
    + exists ("rx_fill_date" :: list_remove "rx_fill_date" rest).
      split; [|done]. simpl. rewrite ?decide_False by done. done.
    + exists rest. split; [done|]. intros Hin.
      rewrite prioritize_perm in Hin. by destruct (Hfill Hin).
  - rewrite Hperm. apply NoDup_pd_unique.
  - intros c. rewrite Hperm. unfold U. rewrite elem_of_pd_unique, list_elem_of_fmap.
    split.
    + intros (row & -> & (? & ?)%list_elem_of_filter). by exists row.
    + intros (row & ? & ? & <-). exists row. split; [done|].
      by apply list_elem_of_filter.
Qed.

(** ** When the multi-source generators raise *)

Lemma source_table_Ok (input_data_dict : gmap string DataFrame)
    (source_mapping : list MappingRule) :
  source_mapping ≠ [] → ∃ r, source_table input_data_dict source_mapping = Ok r.
Proof.
  intros Hne. unfold source_table. case_decide; [by eexists|].
  destruct (pd_unique (InputConfigKey <$> source_mapping)) as [|k ks] eqn:Hk.
  - destruct source_mapping as [|row rows]; [done|]. exfalso.
    assert (Hin : InputConfigKey row ∈ pd_unique (InputConfigKey <$> row :: rows)).
    { apply elem_of_pd_unique. left. }
    rewrite Hk in Hin. by apply elem_of_nil in Hin.
  - destruct (dict_get input_data_dict k) as [df|]; [|by eexists].
    destruct (df_empty df); by eexists.
Qed.

Lemma df_get_is_Some (c : string) (df : DataFrame) :
  c ∈ column_names df → ∃ s, df_get c df = Some s.
Proof. intros H. by apply (assoc_is_Some c (df_columns df)) in H as [s Hs]; exists s. Qed.

Lemma dropna_pair_Ok (c1 c2 : string) (df : DataFrame) :
  c1 ∈ column_names df → c2 ∈ column_names df →
  ∃ g, dropna [c1; c2] df = Ok g ∧ column_names g = column_names df.
Proof.
  intros [s1 H1]%df_get_is_Some [s2 H2]%df_get_is_Some.
  unfold dropna. simpl. rewrite H1, H2. simpl.
  eexists. split; [done|]. apply column_names_filter.
Qed.

Lemma dropna_raises (subset : list string) (df : DataFrame) (e : exn) :
  dropna subset df = Raise e → e = KeyError.
Proof. unfold dropna. destruct (mapM _ _); [done|]. by intros [= <-]. Qed.

Lemma filter_nonempty_Ok (c1 c2 : string) (df : DataFrame) :
  c1 ∈ column_names df → c2 ∈ column_names df →
  ∃ f, filter_nonempty c1 c2 df = Ok f.
Proof.
  intros [s1 H1]%df_get_is_Some [s2 H2]%df_get_is_Some.
  unfold filter_nonempty. rewrite H1, H2. by eexists.
Qed.

Lemma filter_nonempty_raises (c1 c2 : string) (df : DataFrame) (e : exn) :
  filter_nonempty c1 c2 df = Raise e → e = KeyError.
Proof.
  unfold filter_nonempty. destruct (df_get c1 df), (df_get c2 df); try done;
    by intros [= <-].
Qed.

Lemma labelled_rules_nonempty (rules : list MappingRule) (source_label : string) :
  source_label ∈ pd_unique (SourceLabel <$> rules) →
  filter (λ r, SourceLabel r = source_label) rules ≠ [].
Proof.
  intros (row & -> & Hrow)%elem_of_pd_unique%list_elem_of_fmap Hnil.
  assert (Hin : row ∈ filter (λ r, SourceLabel r = SourceLabel row) rules)
    by by apply list_elem_of_filter.
  rewrite Hnil in Hin. by apply elem_of_nil in Hin.
Qed.

Lemma medical_source_raises (input_data_dict : gmap string DataFrame)
    (medical_mapping : list MappingRule) (target_columns : list string)
    (source_label : string) (e : exn) :
  source_label ∈ pd_unique (SourceLabel <$> medical_mapping) →
  medical_source input_data_dict medical_mapping target_columns source_label = Raise e →
  e = KeyError ∧ ¬ ("patient_id" ∈ target_columns ∧ "dx_cd_1" ∈ target_columns).
Proof.
  intros Hl%labelled_rules_nonempty. unfold medical_source. case_decide; [done|].
  destruct (source_table_Ok input_data_dict _ Hl) as [[source_df|] ->]; simpl; [|done].
  destruct (df_select target_columns _) as [sel|] eqn:Hsel; [|done].
  apply df_select_names in Hsel.
  set (h := match df_get "dx_version_1" sel with
            | Some version => df_filter (nonempty_mask version) sel
            | None => sel
            end).
  assert (Hh : column_names h = target_columns).
  { unfold h. destruct (df_get "dx_version_1" sel); [|done].
    by rewrite column_names_filter. }
  destruct (dropna _ h) as [g|e'] eqn:Hg; simpl.
  - destruct (filter_nonempty _ _ g) as [f|e'] eqn:Hf; simpl.
    + by destruct (negb (df_empty f)).
    + intros [= <-]. split; [by eapply filter_nonempty_raises|].
      intros [Hp Hd]. rewrite <- Hh in Hp, Hd.
      destruct (dropna_pair_Ok _ _ h Hp Hd) as (g' & Hg' & Hn).
      rewrite Hg in Hg'. injection Hg' as <-. rewrite <- Hn in Hp, Hd.
      destruct (filter_nonempty_Ok _ _ g Hp Hd) as [f Hf']. congruence.
  - intros [= <-]. split; [by eapply dropna_raises|].
    intros [Hp Hd]. rewrite <- Hh in Hp, Hd.
    destruct (dropna_pair_Ok _ _ h Hp Hd) as (g' & Hg' & _). congruence.
Qed.

Lemma pharmacy_source_raises (input_data_dict : gmap string DataFrame)
    (pharmacy_mapping : list MappingRule) (target_columns : list string)
    (source_label : string) (e : exn) :
  source_label ∈ pd_unique (SourceLabel <$> pharmacy_mapping) →
  pharmacy_source input_data_dict pharmacy_mapping target_columns source_label = Raise e →
  e = KeyError ∧ ¬ ("patient_id" ∈ target_columns ∧ "rx_cd" ∈ target_columns).
Proof.
  intros Hl%labelled_rules_nonempty. unfold pharmacy_source. case_decide; [done|].
  destruct (source_table_Ok input_data_dict _ Hl) as [[source_df|] ->]; simpl; [|done].
  destruct (df_select target_columns _) as [sel|] eqn:Hsel; [|done].
  apply df_select_names in Hsel.
  destruct (dropna _ sel) as [g|e'] eqn:Hg; simpl.
  - destruct (filter_nonempty _ _ g) as [f|e'] eqn:Hf; simpl.
    + by destruct (negb (df_empty f)).
    + intros [= <-]. split; [by eapply filter_nonempty_raises|].
      intros [Hp Hd]. rewrite <- Hsel in Hp, Hd.
      destruct (dropna_pair_Ok _ _ sel Hp Hd) as (g' & Hg' & Hn).
      rewrite Hg in Hg'. injection Hg' as <-. rewrite <- Hn in Hp, Hd.
      destruct (filter_nonempty_Ok _ _ g Hp Hd) as [f Hf']. congruence.
  - intros [= <-]. split; [by eapply dropna_raises|].
    intros [Hp Hd]. rewrite <- Hsel in Hp, Hd.
    destruct (dropna_pair_Ok _ _ sel Hp Hd) as (g' & Hg' & _). congruence.
Qed.

Lemma source_loop_raises (body : string → result (option DataFrame))
    (source_labels : list string) (all_dfs : list DataFrame) (e : exn) :
  source_loop body source_labels all_dfs = Raise e →
  ∃ source_label, source_label ∈ source_labels ∧ body source_label = Raise e.
Proof.
  revert all_dfs. induction source_labels as [|l ls IH]; intros all_dfs; simpl; [done|].
  destruct (body l) as [r|e'] eqn:Hl; simpl.
  - intros (l' & ? & ?)%IH. exists l'. split; [by right|done].
  - intros [= <-]. exists l. split; [left|done].
Qed.

(** X12. The medical-services generator raises nothing but a KeyError, and
    raises it only when the medical_services rules do not declare both a
    patient_id and a dx_cd_1 target column: with both declared, missing
    datasets, missing source columns and failing transformations all end
    in a returned result. *)
Theorem medical_services_raises_only_without_key_columns
    (input_data_dict : gmap string DataFrame) (mapping_df : list MappingRule)
    (e : exn) :
  _generate_medical_services input_data_dict mapping_df = Raise e →
  e = KeyError
  ∧ ¬ (∃ r1 r2, r1 ∈ mapping_df ∧ r2 ∈ mapping_df
                ∧ TargetACGFile r1 = Str "medical_services"
                ∧ TargetACGFile r2 = Str "medical_services"
                ∧ TargetACGColumn r1 = "patient_id"
                ∧ TargetACGColumn r2 = "dx_cd_1").
Proof.
  unfold _generate_medical_services. case_decide; [done|].
  destruct (no_source_label _); [done|].
  set (U := pd_unique _).
  set (tc := prioritize 1 "dx_cd_1" _).
  destruct (source_loop _ _ []) as [all|e'] eqn:Hloop; simpl; [done|].
  intros [= <-].
  apply source_loop_raises in Hloop as (l & Hl & Hraise).
  apply medical_source_raises in Hraise as [-> Hkeys]; [|done].
  split; [done|].
  intros (r1 & r2 & H1 & H2 & Hf1 & Hf2 & Ht1 & Ht2). apply Hkeys.
  unfold tc. rewrite !prioritize_perm. unfold U. rewrite !elem_of_pd_unique.
  split; apply list_elem_of_fmap; [exists r1|exists r2];
    (split; [done|by apply list_elem_of_filter]).
Qed.

(** X13. The pharmacy-data generator raises nothing but a KeyError, and
    raises it only when the pharmacy_data rules do not declare both a
    patient_id and an rx_cd target column. *)
Theorem pharmacy_data_raises_only_without_key_columns
    (input_data_dict : gmap string DataFrame) (mapping_df : list MappingRule)
    (e : exn) :
  _generate_pharmacy_data input_data_dict mapping_df = Raise e →
  e = KeyError
  ∧ ¬ (∃ r1 r2, r1 ∈ mapping_df ∧ r2 ∈ mapping_df
                ∧ TargetACGFile r1 = Str "pharmacy_data"
                ∧ TargetACGFile r2 = Str "pharmacy_data"
                ∧ TargetACGColumn r1 = "patient_id"
                ∧ TargetACGColumn r2 = "rx_cd").
Proof.
  unfold _generate_pharmacy_data. case_decide; [done|].
  destruct (no_source_label _); [done|].
  set (U := pd_unique _).
  set (tc := prioritize 2 "rx_fill_date" _).
  destruct (source_loop _ _ []) as [all|e'] eqn:Hloop; simpl; [done|].
  intros [= <-].
  apply source_loop_raises in Hloop as (l & Hl & Hraise).
  apply pharmacy_source_raises in Hraise as [-> Hkeys]; [|done].
  split; [done|].
  intros (r1 & r2 & H1 & H2 & Hf1 & Hf2 & Ht1 & Ht2). apply Hkeys.
  unfold tc. rewrite !prioritize_perm. unfold U. rewrite !elem_of_pd_unique.
  split; apply list_elem_of_fmap; [exists r1|exists r2];
    (split; [done|by apply list_elem_of_filter]).
Qed.

(** ** Columns made by a transformation alone *)

Lemma blank_false_strip (v : value) :
  blank v = false → Py.strip (py_str v) ≠ "".
Proof.
  unfold blank. intros [_ H]%orb_false_iff. by apply bool_decide_eq_false in H.
Qed.

Lemma input_column_step_present (source_df : DataFrame) (row : MappingRule)
    (col : Series) :
  blank (InputColumn row) = false →
  df_get (Py.strip (py_str (InputColumn row))) source_df = Some col →
  TransformationFunction row ≠ "" →
  input_column_step source_df row
    = (nan_series (nrows source_df), Some (Py.strip (py_str (InputColumn row))), []).
Proof.
  intros Hb Hcol Ht. unfold input_column_step. rewrite Hb. cbn [negb].
  rewrite Hcol. by rewrite decide_False.
Qed.

Lemma source_rule_generation (special_key needed_target : string)
    (source_mapping : list MappingRule) (source_df : DataFrame) (row : MappingRule) :
  blank (InputColumn row) = true →
  TransformationFunction row ≠ "" →
  TransformationFunction row ≠ special_key →
  (source_rule special_key needed_target source_mapping source_df row).1
    = (_apply_transformation (TargetACGColumn row) (TransformationFunction row)
         source_df None).1.
Proof.
  intros Hb Ht Hs. unfold source_rule.
  rewrite input_column_step_blank by done.
  logged_step.
  rewrite decide_True by done. rewrite decide_False by done.
  cbn [orb]. rewrite Hb. cbn [orb truthy].
  by destruct (_apply_transformation _ _ _ _).
Qed.

Lemma source_rule_own_column (special_key needed_target : string)
    (source_mapping : list MappingRule) (source_df : DataFrame) (row : MappingRule)
    (col : Series) :
  blank (InputColumn row) = false →
  df_get (Py.strip (py_str (InputColumn row))) source_df = Some col →
  TransformationFunction row ≠ "" →
  TransformationFunction row ≠ special_key →
  (source_rule special_key needed_target source_mapping source_df row).1
    = (_apply_transformation (TargetACGColumn row) (TransformationFunction row)
         source_df (Some (Py.strip (py_str (InputColumn row))))).1.
Proof.
  intros Hb Hcol Ht Hs. unfold source_rule.
  rewrite (input_column_step_present _ _ col) by done.
  logged_step.
  rewrite decide_True by done. rewrite decide_False by done.
  assert (Hh : has_column (Py.strip (py_str (InputColumn row))) source_df = true).
  { apply bool_decide_eq_true. apply (assoc_is_Some _ (df_columns source_df)).
    unfold df_get in Hcol. by rewrite Hcol. }
  rewrite Hh. cbn [orb].
  rewrite truthy_Some by by apply blank_false_strip.
  by destruct (_apply_transformation _ _ _ _).
Qed.

Lemma patient_rule_generation (patient_details_df : DataFrame) (row : MappingRule) :
  blank (InputColumn row) = true →
  TransformationFunction row ≠ "" →
  (patient_rule patient_details_df row).1
    = Some (nan_series (nrows patient_details_df))
  ∨ (patient_rule patient_details_df row).1
    = Some (_apply_transformation (TargetACGColumn row) (TransformationFunction row)
              patient_details_df None).1.
Proof.
  intros Hb Ht. unfold patient_rule. logged_step.
  destruct (decide (InputConfigKey row ≠ Str required_input_key)).
  - rewrite Hb. rewrite decide_True by done. right.
    by destruct (_apply_transformation _ _ _ _).
  - rewrite input_column_step_blank by done. logged_step.
    rewrite decide_True by done. cbn [truthy].
    rewrite bool_decide_eq_false_2 by (by intros [? ?]). cbn [orb].
    destruct (negb (isna (InputColumn row)) && _); [right|by left].
    by destruct (_apply_transformation _ _ _ _).
Qed.

Lemma patient_rule_own_column (patient_details_df : DataFrame) (row : MappingRule)
    (col : Series) :
  InputConfigKey row = Str required_input_key →
  blank (InputColumn row) = false →
  df_get (Py.strip (py_str (InputColumn row))) patient_details_df = Some col →
  TransformationFunction row ≠ "" →
  (patient_rule patient_details_df row).1
    = Some (_apply_transformation (TargetACGColumn row) (TransformationFunction row)
              patient_details_df (Some (Py.strip (py_str (InputColumn row))))).1.
Proof.
  intros Hk Hb Hcol Ht. unfold patient_rule. logged_step.
  rewrite decide_False by (by intros H; apply H).
  rewrite (input_column_step_present _ _ col) by done. logged_step.
  rewrite decide_True by done.
  rewrite truthy_Some by by apply blank_false_strip.
  rewrite bool_decide_eq_true_2 by by eexists. cbn [orb].
  by destruct (_apply_transformation _ _ _ _).
Qed.

Lemma apply_on_index_raises (target_col_name transform_key : string)
    (source_df : DataFrame) (f : config.tinput → config.outcome) (e : exn) :
  config.TRANSFORMATIONS to_datetime !! transform_key = Some f →
  f (config.InIndex (df_index source_df)) = config.Raised e →
  (_apply_transformation target_col_name transform_key source_df None).1
    = nan_series (nrows source_df).
Proof.
  intros Hkey Hf. unfold _apply_transformation. rewrite Hkey. cbn [truthy].
  logged_step. by rewrite Hf.
Qed.

Lemma needs_source_column (transform_key : string) :
  transform_key ∈ ["format_date_yyyy_mm_dd"; "set_zero_cost"; "set_zero_utilization"] →
  transform_key ≠ "" ∧ transform_key ≠ "determine_dx_version"
  ∧ transform_key ≠ "determine_rx_code_type"
  ∧ ∃ f, config.TRANSFORMATIONS to_datetime !! transform_key = Some f
         ∧ ∀ labels, f (config.InIndex labels) = config.Raised AttributeError.
Proof.
  rewrite !elem_of_cons, elem_of_nil.
  intros [->|[->|[->|[]]]]; (do 3 (split; [done|])); eexists; (split; [reflexivity|done]).
Qed.

(** X14. A rule that names no source column cannot generate a column with
    format_date_yyyy_mm_dd, set_zero_cost or set_zero_utilization: these
    functions are then called on the row index, which has neither the
    [index] attribute nor [apply], the failure is caught, and the column
    comes out missing in every row (not "0", not ""), in all three
    generators. *)
Theorem generated_columns_need_a_source_column (source_mapping : list MappingRule)
    (source_df : DataFrame) (row : MappingRule) :
  blank (InputColumn row) = true →
  TransformationFunction row
    ∈ ["format_date_yyyy_mm_dd"; "set_zero_cost"; "set_zero_utilization"] →
  (patient_rule source_df row).1 = Some (nan_series (nrows source_df))
  ∧ (medical_rule source_mapping source_df row).1 = nan_series (nrows source_df)
  ∧ (pharmacy_rule source_mapping source_df row).1 = nan_series (nrows source_df).
Proof.
  intros Hb (Hne & Hdx & Hrx & f & Hf & Hidx)%needs_source_column.
  pose proof (apply_on_index_raises (TargetACGColumn row) _ source_df f _ Hf
                (Hidx _)) as Happly.
  split; [|split].
  - destruct (patient_rule_generation source_df row Hb Hne) as [->| ->]; [done|].
    by rewrite Happly.
  - unfold medical_rule. by rewrite source_rule_generation.
  - unfold pharmacy_rule. by rewrite source_rule_generation.
Qed.

Lemma apply_zero (target_col_name transform_key : string) (source_df : DataFrame)
    (c : string) (col : Series) :
  transform_key ∈ ["set_zero_cost"; "set_zero_utilization"] →
  c ≠ "" →
  df_get c source_df = Some col →
  length col = nrows source_df →
  (_apply_transformation target_col_name transform_key source_df (Some c)).1
    = const_series "0" (nrows source_df).
Proof.
  rewrite !elem_of_cons, elem_of_nil. intros Hkey Hc Hcol Hlen.
  unfold _apply_transformation.
  assert (Hf : ∃ f, config.TRANSFORMATIONS to_datetime !! transform_key = Some f
                    ∧ f (config.InSeries col)
                      = config.RetSeries (const_series "0" (length col))).
  { destruct Hkey as [->|[->|[]]]; eexists; (split; [reflexivity|done]). }
  destruct Hf as (f & -> & Hf). rewrite truthy_Some, Hcol by done.
  logged_step. rewrite Hf.
  unfold const_series. rewrite length_replicate.
  rewrite bool_decide_eq_false_2 by (by intros H; apply H).
  cbn. by rewrite Hlen.
Qed.

(** X15. With a source column that the table has, whatever it holds,
    set_zero_cost and set_zero_utilization give "0" in every row, in the
    medical-services and pharmacy-data generators and, for a rule reading
    Patient_Details, in the patient-data generator. *)
Theorem zero_column_from_source_column (source_mapping : list MappingRule)
    (source_df : DataFrame) (row : MappingRule) (col : Series) :
  TransformationFunction row ∈ ["set_zero_cost"; "set_zero_utilization"] →
  blank (InputColumn row) = false →
  df_get (Py.strip (py_str (InputColumn row))) source_df = Some col →
  length col = nrows source_df →
  (medical_rule source_mapping source_df row).1 = const_series "0" (nrows source_df)
  ∧ (pharmacy_rule source_mapping source_df row).1 = const_series "0" (nrows source_df)
  ∧ (InputConfigKey row = Str required_input_key →
     (patient_rule source_df row).1 = Some (const_series "0" (nrows source_df))).
Proof.
  intros Hkey Hb Hcol Hlen.
  pose proof (apply_zero (TargetACGColumn row) _ source_df _ col Hkey
                (blank_false_strip _ Hb) Hcol Hlen) as Happly.
  assert (Hne : TransformationFunction row ≠ ""
                ∧ TransformationFunction row ≠ "determine_dx_version"
                ∧ TransformationFunction row ≠ "determine_rx_code_type").
  { revert Hkey. rewrite !elem_of_cons, elem_of_nil.
    intros [->|[->|[]]]; done. }
  destruct Hne as (Hne & Hdx & Hrx).
  split; [|split].
  - unfold medical_rule. by rewrite (source_rule_own_column _ _ _ _ _ col).
  - unfold pharmacy_rule. by rewrite (source_rule_own_column _ _ _ _ _ col).
  - intros Hk. rewrite (patient_rule_own_column _ _ col) by done.
    by rewrite Happly.
Qed.

(** ** The values of dx_version_1 *)

Lemma column_if_present_set (P : value → Prop) (c c' : string) (s : Series)
    (df : DataFrame) :
  (c = c' → Forall P s) →
  column_if_present P c df →
  column_if_present P c (df_set c' s df).
Proof.
  unfold column_if_present. rewrite df_get_set. case_decide; auto.
Qed.

Lemma rule_loop_column_if_present (P : value → Prop) (c : string)
    (g : MappingRule → Series) (rules : list MappingRule) (out : DataFrame) :
  Forall (λ row, TargetACGColumn row = c → Forall P (g row)) rules →
  column_if_present P c out →
  column_if_present P c
    (foldl (λ out row, df_set (TargetACGColumn row) (g row) out) out rules).
Proof.
  intros Hrules. revert out.
  induction Hrules as [|row rules Hrow _ IH]; intros out Hout; simpl; [done|].
  apply IH. apply column_if_present_set; [|done]. intros Hc. by apply Hrow.
Qed.

Lemma std_loop_column_if_present (P : value → Prop) (c : string)
    (target_columns : list string) (out : DataFrame) :
  P (Str "") →
  column_if_present P c out →
  column_if_present P c
    (foldl (λ out std_col,
              if negb (has_column std_col out)
              then df_set std_col (const_series "" (nrows out)) out
              else out)
           out target_columns).
Proof.
  intros Hempty. revert out.
  induction target_columns as [|std_col cols IH]; intros out Hout; simpl; [done|].
  apply IH. destruct (negb (has_column std_col out)); [|done].
  apply column_if_present_set; [|done]. intros _. by apply Forall_replicate.
Qed.

Lemma source_columns_column_if_present (P : value → Prop) (c : string)
    (rule : list MappingRule → DataFrame → MappingRule → logged Series)
    (source_mapping : list MappingRule) (target_columns : list string)
    (source_df : DataFrame) :
  P (Str "") →
  (∀ row, row ∈ source_mapping → TargetACGColumn row = c →
          Forall P (rule source_mapping source_df row).1) →
  column_if_present P c
    (source_columns rule source_mapping target_columns source_df).
Proof.
  intros Hempty Hrules. unfold source_columns.
  apply std_loop_column_if_present; [done|].
  apply (rule_loop_column_if_present P c
           (λ row, (rule source_mapping source_df row).1)).
  - apply Forall_forall. intros row Hrow Hc. by apply Hrules.
  - unfold column_if_present. done.
Qed.

Lemma apply_dx_version_values (target_col_name : string) (source_df : DataFrame)
    (source_col_name : option string) :
  Forall (λ v, v = Str "" ∨ v = Str "S" ∨ v = NaN)
    (_apply_transformation target_col_name "determine_dx_version" source_df
       source_col_name).1.
Proof.
  assert (Hnan : ∀ n, Forall (λ v, v = Str "" ∨ v = Str "S" ∨ v = NaN) (nan_series n)).
  { intros n. apply Forall_replicate. auto. }
  unfold _apply_transformation. rewrite lookup_determine_dx_version.
  destruct (truthy source_col_name) as [c|]; [|apply Hnan].
  destruct (df_get c source_df) as [input|]; [|apply Hnan].
  logged_step. cbn [config.determine_dx_version].
  case_bool_decide; cbn [fst]; [apply Hnan|].
  apply Forall_fmap, Forall_true. intros v. unfold config.get_version. simpl.
  destruct (_ || _); auto.
Qed.

Lemma medical_rule_version_values (source_mapping : list MappingRule)
    (source_df : DataFrame) (row : MappingRule) :
  TransformationFunction row = "determine_dx_version" →
  Forall (λ v, v = Str "" ∨ v = Str "S" ∨ v = NaN)
    (medical_rule source_mapping source_df row).1.
Proof.
  intros Ht. unfold medical_rule, source_rule.
  destruct (input_column_step source_df row) as [[rs sc] lg].
  logged_step.
  rewrite Ht. rewrite decide_True by done. rewrite decide_True by done.
  pose proof (apply_dx_version_values (TargetACGColumn row) source_df) as Happly.
  destruct (filter _ source_mapping) as [|needed rest];
    [|destruct (orb (blank (InputColumn needed)) _)]; cbn beta iota zeta.
  all: match goal with
       | |- context [if ?b then _apply_transformation ?t ?k ?d ?o else _] =>
           destruct b;
           [specialize (Happly o);
            destruct (_apply_transformation t k d o) as [s l]; exact Happly
           |apply Forall_replicate; auto]
       end.
Qed.

Lemma medical_source_version_values (input_data_dict : gmap string DataFrame)
    (medical_mapping : list MappingRule) (target_columns : list string)
    (source_label : string) (f : DataFrame) :
  (∀ row, row ∈ medical_mapping → TargetACGColumn row = "dx_version_1" →
          TransformationFunction row = "determine_dx_version") →
  medical_source input_data_dict medical_mapping target_columns source_label
    = Ok (Some f) →
  column_if_present (λ v, v = Str "S" ∨ v = NaN) "dx_version_1" f.
Proof.
  intros Hrules. unfold medical_source. case_decide; [done|].
  destruct (source_table _ _) as [[source_df|]|]; simpl; try done.
  set (sm := filter _ medical_mapping).
  pose proof (source_columns_column_if_present
                (λ v, v = Str "" ∨ v = Str "S" ∨ v = NaN) "dx_version_1"
                medical_rule sm target_columns source_df) as Hcols.
  destruct (df_select target_columns _) as [sel|] eqn:Hsel; [|done].
  assert (Hsel' : column_if_present (λ v, v = Str "" ∨ v = Str "S" ∨ v = NaN)
                    "dx_version_1" sel).
  { unfold column_if_present. rewrite (df_get_select _ _ _ _ Hsel).
    case_decide; [|done]. apply Hcols; [auto|].
    intros row (_ & Hrow)%list_elem_of_filter Hc.
    apply medical_rule_version_values. by apply Hrules. }
  set (h := match df_get "dx_version_1" sel with
            | Some version => df_filter (nonempty_mask version) sel
            | None => sel
            end).
  assert (Hh : column_if_present (λ v, v = Str "S" ∨ v = NaN) "dx_version_1" h).
  { unfold h, column_if_present in *.
    destruct (df_get "dx_version_1" sel) as [ver|] eqn:Hver; [|by rewrite Hver].
    rewrite df_get_filter, Hver. simpl.
    apply filter_mask_Forall_mask. intros i x Hm Hx.
    pose proof (nonempty_mask_true ver i x Hm Hx) as Hnb.
    rewrite Forall_lookup in Hsel'.
    destruct (Hsel' i x Hx) as [->|[->| ->]]; [done|by left|by right]. }
  destruct (dropna _ h) as [g|] eqn:Hg; simpl; [|done].
  destruct (filter_nonempty _ _ g) as [f'|] eqn:Hf; simpl; [|done].
  destruct (required_columns_filtered _ _ _ _ _ Hg Hf) as (_ & _ & _ & Hk).
  destruct (negb (df_empty f')); [|done].
  intros [= <-]. by apply Hk.
Qed.

(** X16. When every medical_services rule that targets dx_version_1 uses
    determine_dx_version, each dx_version_1 cell of the output is "S" or
    missing: the empty versions of blank codes are filtered out with their
    rows, and what a failed or fallen-back transformation leaves is a
    missing value, never another text. *)
Theorem dx_version_is_S_or_missing (input_data_dict : gmap string DataFrame)
    (mapping_df : list MappingRule) :
  Forall (λ row, TargetACGFile row = Str "medical_services" →
                 TargetACGColumn row = "dx_version_1" →
                 TransformationFunction row = "determine_dx_version") mapping_df →
  on_output (_generate_medical_services input_data_dict mapping_df)
    (column_if_present (λ v, v = Str "S" ∨ v = NaN) "dx_version_1").
Proof.
  intros Hrules. rewrite Forall_forall in Hrules.
  unfold _generate_medical_services. case_decide; [done|].
  destruct (no_source_label _); [done|].
  set (tc := prioritize 1 "dx_cd_1" _).
  destruct (source_loop _ _ []) as [all|] eqn:Hloop; simpl; [|done].
  destruct (concat_sources tc all) as [out|] eqn:Hout; [|done]. simpl.
  eapply concat_sources_column_if_present; [by right|exact Hout|].
  eapply source_loop_Forall; [|constructor|exact Hloop].
  intros l f. apply medical_source_version_values.
  intros row (Hfile & Hrow)%list_elem_of_filter. by apply Hrules.
Qed.

Lemma std_loop_get (c : string) (target_columns : list string) (out : DataFrame) :
  c ∈ target_columns →
  c ∉ column_names out →
  df_get c
    (foldl (λ out std_col,
              if negb (has_column std_col out)
              then df_set std_col (const_series "" (nrows out)) out
              else out)
           out target_columns)
  = Some (const_series "" (nrows out)).
Proof.
  revert out. induction target_columns as [|std_col cols IH]; intros out Hc Hout;
    [by apply elem_of_nil in Hc|].
  assert (Hkeep : ∀ cols' out', df_get c out' = Some (const_series "" (nrows out)) →
            df_get c
              (foldl (λ out std_col,
                        if negb (has_column std_col out)
                        then df_set std_col (const_series "" (nrows out)) out
                        else out)
                     out' cols')
            = Some (const_series "" (nrows out))).
  { clear. induction cols' as [|c' cols' IH']; intros out' Hget; simpl; [done|].
    apply IH'. unfold has_column. case_bool_decide as Hin; simpl; [done|].
    rewrite df_get_set. case_decide as Hcc; [|done]. subst c'.
    exfalso. apply Hin. apply (assoc_is_Some c (df_columns out')).
    unfold df_get in Hget. by rewrite Hget. }
  simpl. destruct (decide (c = std_col)) as [<-|Hne].
  - unfold has_column. rewrite bool_decide_eq_false_2 by done. simpl.
    apply Hkeep. rewrite df_get_set. by rewrite decide_True.
  - apply elem_of_cons in Hc as [?|Hc]; [done|].
    destruct (negb (has_column std_col out)).
    + rewrite IH; [done|done|]. rewrite elem_of_column_names_set. by intros [?|?].
    + by apply IH.
Qed.

Lemma rule_loop_names (g : MappingRule → Series) (rules : list MappingRule)
    (out : DataFrame) (c : string) :
  c ∈ column_names
        (foldl (λ out row, df_set (TargetACGColumn row) (g row) out) out rules) →
  c ∈ column_names out ∨ ∃ row, row ∈ rules ∧ TargetACGColumn row = c.
Proof.
  revert out. induction rules as [|row rules IH]; intros out; simpl; [by left|].
  intros [Hin|(row' & ? & ?)]%IH.
  - apply elem_of_column_names_set in Hin as [->|?]; [|by left].
    right. exists row. split; [left|done].
  - right. exists row'. split; [by right|done].
Qed.

Lemma rule_loop_nrows (g : MappingRule → Series) (rules : list MappingRule)
    (out : DataFrame) :
  nrows (foldl (λ out row, df_set (TargetACGColumn row) (g row) out) out rules)
    = nrows out.
Proof. revert out. induction rules as [|row rules IH]; intros out; simpl; [done|]. by rewrite IH. Qed.

Lemma std_loop_nrows (target_columns : list string) (out : DataFrame) :
  nrows (foldl (λ out std_col,
                  if negb (has_column std_col out)
                  then df_set std_col (const_series "" (nrows out)) out
                  else out)
               out target_columns)
    = nrows out.
Proof.
  revert out. induction target_columns as [|c cols IH]; intros out; simpl; [done|].
  rewrite IH. by destruct (negb (has_column c out)).
Qed.

Lemma filter_mask_nil {A} (mask : list bool) : filter_mask mask (@nil A) = [].
Proof. by destruct mask. Qed.

Lemma filter_mask_all_false {A} (mask : list bool) (l : list A) :
  Forall (λ b, b = false) mask → filter_mask mask l = [].
Proof.
  intros Hmask. revert l. induction Hmask as [|b mask -> _ IH]; intros [|x l];
    simpl; auto.
  all: by destruct l.
Qed.

(** X17. When dx_version_1 is among the target columns (some
    medical_services rule declares it), a source label none of whose rules
    targets dx_version_1 contributes no rows: the column is filled with the
    empty string for that source, and the filter on dx_version_1 then
    removes every row. *)
Theorem source_without_version_rule_is_dropped
    (input_data_dict : gmap string DataFrame) (medical_mapping : list MappingRule)
    (target_columns : list string) (source_label : string) :
  "dx_version_1" ∈ target_columns →
  Forall (λ row, SourceLabel row = source_label →
                 TargetACGColumn row ≠ "dx_version_1") medical_mapping →
  ∀ f, medical_source input_data_dict medical_mapping target_columns source_label
       ≠ Ok (Some f).
Proof.
  intros Htc Hrules f. rewrite Forall_forall in Hrules. unfold medical_source. case_decide; [done|].
  destruct (source_table _ _) as [[source_df|]|]; simpl; try done.
  set (sm := filter _ medical_mapping).
  destruct (df_select target_columns _) as [sel|] eqn:Hsel; [|done].
  assert (Hver : df_get "dx_version_1" sel = Some (const_series "" (nrows sel))).
  { rewrite (df_get_select _ _ _ _ Hsel), decide_True by done.
    apply df_select_Some in Hsel as [Hidx _].
    unfold source_columns in *. rewrite std_loop_get; [| done |].
    - f_equal. f_equal. unfold nrows at 2. rewrite Hidx.
      symmetry. apply std_loop_nrows.
    - intros [Hin|(row & (Hl & Hrow)%list_elem_of_filter & Hc)]%rule_loop_names.
      + by apply elem_of_nil in Hin.
      + by eapply Hrules. }
  rewrite Hver.
  set (h := df_filter _ sel).
  assert (Hh : nrows h = 0).
  { unfold h, nrows, df_filter. simpl. rewrite filter_mask_all_false; [done|].
    unfold nonempty_mask, astype_str, const_series.
    rewrite !fmap_replicate. apply Forall_replicate. done. }
  destruct (dropna _ h) as [g|] eqn:Hg; simpl; [|done].
  destruct (filter_nonempty _ _ g) as [f'|] eqn:Hf; simpl; [|done].
  assert (Hf' : df_empty f' = true).
  { unfold df_empty. apply orb_true_iff. left. apply bool_decide_eq_true.
    unfold dropna in Hg. case_match; [|done]. injection Hg as <-.
    unfold filter_nonempty in Hf. repeat case_match; try done. injection Hf as <-.
    unfold nrows, df_filter in *. simpl in *.
    apply length_zero_iff_nil in Hh. rewrite Hh.
    by rewrite !filter_mask_nil. }
  by rewrite Hf'.
Qed.

(** ** Directly copied patient columns, end to end *)

Lemma first_seen_mask_NoDup (seen keys : Series) :
  NoDup keys → (∀ k, k ∈ keys → k ∉ seen) →
  first_seen_mask seen keys = replicate (length keys) true.
Proof.
  intros Hnd. revert seen. induction Hnd as [|k keys Hk _ IH]; intros seen Hseen;
    simpl; [done|].
  rewrite decide_False by (apply Hseen; left).
  f_equal. apply IH. intros k' Hk' [->|Hin]%elem_of_cons; [done|].
  by apply (Hseen k'); [right|].
Qed.

Lemma filter_mask_all_true {A} (l : list A) :
  filter_mask (replicate (length l) true) l = l.
Proof. induction l as [|x l IH]; simpl; [done|]. by rewrite IH. Qed.

Lemma df_get_set_index (c key : string) (df : DataFrame) :
  df_get c (set_index key df) = df_get c df.
Proof. unfold set_index. by destruct (df_get key df). Qed.

Lemma df_get_prepare (c : string) (pd : DataFrame) (keys col : Series) :
  df_get config.MERGE_KEY pd = Some keys →
  df_get c pd = Some col →
  length col = length keys →
  df_get c (prepare_patient_details pd keys)
    = Some (filter_mask (first_occurrence_mask keys) col).
Proof.
  intros Hkeys Hcol Hlen. unfold prepare_patient_details, is_unique.
  rewrite df_get_set_index, <- first_seen_mask_first_occurrence.
  case_bool_decide as Hnd; simpl.
  - rewrite first_seen_mask_NoDup by (done || intros ? _; apply not_elem_of_nil).
    by rewrite <- Hlen, filter_mask_all_true.
  - unfold drop_duplicates. rewrite Hkeys, df_get_filter, Hcol. done.
Qed.

Lemma patient_rule_direct (patient_details_df : DataFrame) (row : MappingRule)
    (col : Series) :
  InputConfigKey row = Str required_input_key →
  TransformationFunction row = "" →
  blank (InputColumn row) = false →
  df_get (Py.strip (py_str (InputColumn row))) patient_details_df = Some col →
  (patient_rule patient_details_df row).1 = Some col.
Proof.
  intros Hk Ht Hb Hcol. unfold patient_rule. logged_step.
  rewrite decide_False by (by intros H; apply H).
  rewrite (input_column_step_direct _ _ col) by done. logged_step.
  by rewrite decide_False by (by intros H; apply H).
Qed.

Lemma patient_loop_keeps (patient_details_df : DataFrame)
    (rules : list MappingRule) (out : DataFrame) (c : string) (col : Series) :
  (∀ r, r ∈ rules → TargetACGColumn r = c →
        (patient_rule patient_details_df r).1 = Some col) →
  df_get c out = Some col →
  df_get c (patient_loop patient_details_df rules out) = Some col.
Proof.
  unfold patient_loop. revert out.
  induction rules as [|r rules IH]; intros out Hrules Hout; simpl; [done|].
  apply IH; [intros r' Hr'; apply Hrules; by right|].
  destruct (decide (TargetACGColumn r = c)) as [Hc|Hc].
  - rewrite (Hrules r) by (done || left). rewrite df_get_set. subst c.
    by rewrite decide_True.
  - destruct (patient_rule patient_details_df r).1; [|done].
    rewrite df_get_set. by rewrite decide_False.
Qed.

Lemma patient_loop_sets (patient_details_df : DataFrame)
    (rules : list MappingRule) (out : DataFrame) (c : string) (col : Series) :
  (∀ r, r ∈ rules → TargetACGColumn r = c →
        (patient_rule patient_details_df r).1 = Some col) →
  (∃ r, r ∈ rules ∧ TargetACGColumn r = c) →
  df_get c (patient_loop patient_details_df rules out) = Some col.
Proof.
  revert out.
  induction rules as [|r rules IH]; intros out Hrules (r0 & Hr0 & Hc0);
    [by apply elem_of_nil in Hr0|].
  destruct (decide (TargetACGColumn r = c)) as [Hc|Hc].
  - change (patient_loop patient_details_df (r :: rules) out)
      with (patient_loop patient_details_df rules
              (match (patient_rule patient_details_df r).1 with
               | Some result_series => df_set (TargetACGColumn r) result_series out
               | None => out
               end)).
    apply patient_loop_keeps; [intros r' Hr'; apply Hrules; by right|].
    rewrite (Hrules r) by (done || left). rewrite df_get_set. subst c.
    by rewrite decide_True.
  - change (patient_loop patient_details_df (r :: rules) out)
      with (patient_loop patient_details_df rules
              (match (patient_rule patient_details_df r).1 with
               | Some result_series => df_set (TargetACGColumn r) result_series out
               | None => out
               end)).
    apply IH; [intros r' Hr'; apply Hrules; by right|].
    apply elem_of_cons in Hr0 as [->|Hr0]; [done|]. by exists r0.
Qed.

Lemma df_get_rename_other (c old new : string) (df : DataFrame) :
  c ≠ old → c ≠ new → df_get c (df_rename old new df) = df_get c df.
Proof.
  intros Ho Hn. destruct df as [idx cols]. unfold df_get, df_rename. simpl.
  induction cols as [|[c' s] cols IH]; [done|].
  cbn [fmap list_fmap prod_map assoc fst snd id].
  fold (fmap (M:=list) (prod_map (λ c, if decide (c = old) then new else c) id) cols).
  destruct (decide (c' = old)) as [->|Hc'].
  - rewrite (decide_False (P:=c = new)), (decide_False (P:=c = old)) by done.
    apply IH.
  - destruct (decide (c = c')); [done|]. apply IH.
Qed.

Lemma df_get_reset_index (c : string) (df : DataFrame) :
  df_get c (reset_index df) = df_get c df.
Proof. done. Qed.

Lemma patient_output_column (input_data_dict : gmap string DataFrame)
    (mapping_df : list MappingRule) (pd : DataFrame) (keys X : Series)
    (out : DataFrame) (row : MappingRule) :
  input_data_dict !! required_input_key = Some pd →
  df_get config.MERGE_KEY pd = Some keys →
  _generate_patient_data input_data_dict mapping_df = Some out →
  row ∈ patient_rules mapping_df →
  (∀ r, r ∈ patient_rules mapping_df →
        TargetACGColumn r = TargetACGColumn row → r = row) →
  (patient_rule (prepare_patient_details pd keys) row).1 = Some X →
  TargetACGColumn row ≠ config.MERGE_KEY →
  df_get (TargetACGColumn row) out = Some X.
Proof.
  intros Hpd Hkeys Hgen Hrow Honly Hrule Hmk.
  unfold _generate_patient_data in Hgen. rewrite Hpd, Hkeys in Hgen.
  unfold assemble_patient_data in Hgen. fold (patient_rules mapping_df) in Hgen.
  case_decide as Hempty; [done|].
  destruct (prepare_patient_details_keys pd keys Hkeys) as [Hids _].
  set (pdf := prepare_patient_details pd keys) in *.
  set (c := TargetACGColumn row) in *.
  assert (Hproduced : df_get c (patient_loop pdf (patient_rules mapping_df)
                                  (mkDataFrame (df_index pdf) [])) = Some X).
  { apply patient_loop_sets; [|by exists row].
    intros r Hr Hc. by rewrite (Honly r Hr Hc). }
  set (produced := patient_loop _ _ _) in *.
  assert (HcU : c ∈ pd_unique (TargetACGColumn <$> patient_rules mapping_df)).
  { apply elem_of_pd_unique, list_elem_of_fmap. by exists row. }
  set (U := pd_unique _) in *.
  assert (Hplaced : c ∈ (place_patient_id pdf U produced).1
                    ∧ df_get c (place_patient_id pdf U produced).2 = Some X).
  { unfold place_patient_id. rewrite Hids.
    case_decide as Hpid; simpl.
    - split; [|done]. rewrite list_insert_at_0.
      destruct (decide (c = patient_id_col)) as [->|Hne]; [left|right].
      by apply elem_of_list_remove.
    - assert (Hcp : c ≠ patient_id_col) by (by intros Heq; rewrite Heq in HcU).
      destruct (has_column config.MERGE_KEY produced); simpl.
      + split.
        * rewrite list_insert_at_0. right.
          case_decide; [by apply elem_of_list_replace_first|done].
        * by rewrite df_get_rename_other.
      + split.
        * rewrite list_insert_at_0. right.
          case_decide; [by apply elem_of_list_remove|done].
        * rewrite df_get_set. by rewrite decide_False. }
  destruct (place_patient_id pdf U produced) as [cols placed]. simpl in Hplaced.
  destruct Hplaced as [Hin Hget].
  destruct (df_select cols placed) as [sel|] eqn:Hsel; [|done]. injection Hgen as <-.
  rewrite df_get_reset_index, (df_get_select _ _ _ _ Hsel).
  by rewrite decide_True.
Qed.

(** X18. A patient_data rule that copies a column of Patient_Details (no
    transformation), is the only rule for its target, and does not target
    PatientID, puts into a successful output exactly that column's values
    at the rows holding the first occurrence of their merge-key
    identifier, in order. *)
Theorem patient_data_copies_first_occurrences
    (input_data_dict : gmap string DataFrame) (mapping_df : list MappingRule)
    (pd : DataFrame) (keys col : Series) (out : DataFrame) (row : MappingRule) :
  input_data_dict !! required_input_key = Some pd →
  df_get config.MERGE_KEY pd = Some keys →
  _generate_patient_data input_data_dict mapping_df = Some out →
  row ∈ patient_rules mapping_df →
  (∀ r, r ∈ patient_rules mapping_df →
        TargetACGColumn r = TargetACGColumn row → r = row) →
  InputConfigKey row = Str required_input_key →
  TransformationFunction row = "" →
  blank (InputColumn row) = false →
  df_get (Py.strip (py_str (InputColumn row))) pd = Some col →
  length col = length keys →
  TargetACGColumn row ≠ config.MERGE_KEY →
  df_get (TargetACGColumn row) out
    = Some (filter_mask (first_occurrence_mask keys) col).
Proof.
  intros Hpd Hkeys Hgen Hrow Honly Hk Ht Hb Hcol Hlen Hmk.
  eapply patient_output_column; try done.
  apply patient_rule_direct; try done. by apply df_get_prepare.
Qed.

Lemma apply_transform_sex (target_col_name : string) (source_df : DataFrame)
    (c : string) (col : Series) :
  c ≠ "" →
  df_get c source_df = Some col →
  length col = nrows source_df →
  (_apply_transformation target_col_name "transform_sex" source_df (Some c)).1
    = (λ v, config.sex_code (py_str v)) <$> col.
Proof.
  intros Hc Hcol Hlen. unfold _apply_transformation.
  assert (Hkey : config.TRANSFORMATIONS to_datetime !! "transform_sex"
                 = Some config.transform_sex) by reflexivity.
  rewrite Hkey, truthy_Some, Hcol by done.
  logged_step. cbn [config.transform_sex]. unfold astype_str.
  rewrite !length_fmap, bool_decide_eq_false_2 by (by intros ?).
  cbn [fst]. by rewrite <- list_fmap_compose.
Qed.

(** X19. A patient_data rule that applies transform_sex to a column of a
    rectangular Patient_Details table, is the only rule for its target and
    does not target PatientID, puts into a successful output the sex code
    of that column's value at each row holding the first occurrence of its
    merge-key identifier, in order. *)
Theorem patient_data_sex_codes_first_occurrences
    (input_data_dict : gmap string DataFrame) (mapping_df : list MappingRule)
    (pd : DataFrame) (keys col : Series) (out : DataFrame) (row : MappingRule) :
  input_data_dict !! required_input_key = Some pd →
  rectangular pd →
  df_get config.MERGE_KEY pd = Some keys →
  _generate_patient_data input_data_dict mapping_df = Some out →
  row ∈ patient_rules mapping_df →
  (∀ r, r ∈ patient_rules mapping_df →
        TargetACGColumn r = TargetACGColumn row → r = row) →
  InputConfigKey row = Str required_input_key →
  TransformationFunction row = "transform_sex" →
  blank (InputColumn row) = false →
  df_get (Py.strip (py_str (InputColumn row))) pd = Some col →
  TargetACGColumn row ≠ config.MERGE_KEY →
  df_get (TargetACGColumn row) out
    = Some ((λ v, config.sex_code (py_str v))
              <$> filter_mask (first_occurrence_mask keys) col).
Proof.
  intros Hpd Hrect Hkeys Hgen Hrow Honly Hk Ht Hb Hcol Hmk.
  eapply patient_output_column; try done.
  assert (Hlen : length col = length keys).
  { by rewrite (rectangular_get _ _ _ Hrect Hcol), (rectangular_get _ _ _ Hrect Hkeys). }
  pose proof (df_get_prepare _ pd keys col Hkeys Hcol Hlen) as Hsrc.
  rewrite (patient_rule_own_column _ _ _ Hk Hb Hsrc) by (by rewrite Ht).
  f_equal. rewrite Ht. apply apply_transform_sex; [by apply blank_false_strip|done|].
  eapply rectangular_get; [by apply rectangular_prepare|done].
Qed.

(** ** The cross-column dependency of [determine_rx_code_type] *)

Lemma apply_determine_rx_code_type (target_col_name : string) (source_df : DataFrame)
    (c : string) (col : Series) :
  c ≠ "" →
  df_get c source_df = Some col →
  length col = nrows source_df →
  (_apply_transformation target_col_name "determine_rx_code_type" source_df (Some c)).1
    = config.get_rx_type <$> col.
Proof.
  intros Hc Hcol Hlen. unfold _apply_transformation.
  assert (Hkey : config.TRANSFORMATIONS to_datetime !! "determine_rx_code_type"
                 = Some config.determine_rx_code_type) by reflexivity.
  rewrite Hkey, truthy_Some, Hcol by done.
  logged_step. cbn [config.determine_rx_code_type].
  rewrite length_fmap, bool_decide_eq_false_2 by (by intros ?). done.
Qed.

(** X20. What a pharmacy_data rule with determine_rx_code_type produces:
    when the first rx_cd rule of its group names a column of the source
    table, the type of every code of that column ("" for a missing or
    empty code, "RRxUK" otherwise), whatever the rule's own source column
    is; otherwise, when the rule names no source column of its own, the
    function is still called, on the row index, fails there, and the
    column is missing in every row; and otherwise the empty string in
    every row. *)
Theorem determine_rx_code_type_reads_rx_cd_source (source_mapping : list MappingRule)
    (source_df : DataFrame) (row : MappingRule) :
  TransformationFunction row = "determine_rx_code_type" →
  rectangular source_df →
  let result := (pharmacy_rule source_mapping source_df row).1 in
  match rx_cd_source source_mapping source_df with
  | Some c => ∃ col, df_get c source_df = Some col
                     ∧ result = config.get_rx_type <$> col
  | None => result = if blank (InputColumn row)
                     then nan_series (nrows source_df)
                     else const_series "" (nrows source_df)
  end.
Proof.
  intros Ht Hrect result. subst result.
  unfold rx_cd_source, pharmacy_rule, source_rule.
  destruct (input_column_step source_df row) as [[rs sc] lg].
  logged_step.
  rewrite Ht. rewrite decide_True by done. rewrite decide_True by done.
  assert (Hidx : (_apply_transformation (TargetACGColumn row)
                    "determine_rx_code_type" source_df None).1
                 = nan_series (nrows source_df)).
  { by eapply apply_on_index_raises. }
  destruct (filter _ source_mapping) as [|needed rest].
  - cbn [orb truthy]. destruct (blank (InputColumn row)); cbn [fst]; [|done].
    by destruct (_apply_transformation _ _ _ _).
  - destruct (blank (InputColumn needed)) eqn:Hb; cbn [orb].
    { cbn [orb truthy]. destruct (blank (InputColumn row)); cbn [fst]; [|done].
      by destruct (_apply_transformation _ _ _ _). }
    destruct (has_column (py_str (InputColumn needed)) source_df) eqn:Hh; cbn [negb].
    2: { cbn [orb truthy]. destruct (blank (InputColumn row)); cbn [fst]; [|done].
         by destruct (_apply_transformation _ _ _ _). }
    rewrite Hh. cbn [orb].
    apply has_column_true in Hh as [col Hcol]. exists col. split; [done|].
    assert (Hne : py_str (InputColumn needed) ≠ "").
    { destruct (InputColumn needed) as [|s]; [done|]. simpl.
      by apply blank_false_nonempty. }
    rewrite truthy_Some by done.
    pose proof (apply_determine_rx_code_type (TargetACGColumn row) source_df _ col
                  Hne Hcol (rectangular_get _ _ _ Hrect Hcol)) as Happly.
    clear Hidx. by destruct (_apply_transformation _ _ _ _).
Qed.

(** ** Output rows are source rows *)

Lemma filter_mask_rows (mask : list bool) (i : nat) :
  (∃ j, ∀ (A : Type) (l : list A), filter_mask mask l !! i = l !! j)
  ∨ (∀ (A : Type) (l : list A), filter_mask mask l !! i = None).
Proof.
  revert i. induction mask as [|b mask IH]; intros i.
  - right. intros A l. by destruct l.
  - destruct b.
    + destruct i as [|i].
      * left. exists 0. by intros A [|x l].
      * destruct (IH i) as [[j Hj]|Hn].
        -- left. exists (S j). intros A [|x l]; [done|]. simpl. apply Hj.
        -- right. intros A [|x l]; [done|]. simpl. apply Hn.
    + destruct (IH i) as [[j Hj]|Hn].
      * left. exists (S j). intros A [|x l]; [done|]. simpl. apply Hj.
      * right. intros A [|x l]; [done|]. simpl. apply Hn.
Qed.

Lemma rows_of_refl (df : DataFrame) : rows_of df df.
Proof. intros i Hi. by exists i. Qed.

Lemma rows_of_trans (f g h : DataFrame) : rows_of f g → rows_of g h → rows_of f h.
Proof.
  intros Hfg Hgh i Hi. destruct (Hfg i Hi) as (j & Hj & Hc).
  destruct (Hgh j Hj) as (k & Hk & Hc'). exists k. split; [done|].
  intros c. by rewrite Hc, Hc'.
Qed.

Lemma rows_of_filter (mask : list bool) (df : DataFrame) :
  rows_of (df_filter mask df) df.
Proof.
  intros i Hi. unfold nrows, df_filter in Hi. simpl in Hi.
  apply lookup_lt_is_Some in Hi as [x Hx].
  destruct (filter_mask_rows mask i) as [[j Hj]|Hn].
  - exists j. split.
    + apply lookup_lt_is_Some. rewrite <- Hj. by exists x.
    + intros c. unfold cell. rewrite df_get_filter.
      destruct (df_get c df); simpl; [apply Hj|done].
  - by rewrite Hn in Hx.
Qed.

Lemma dropna_is_filter (subset : list string) (df g : DataFrame) :
  dropna subset df = Ok g → ∃ mask, g = df_filter mask df.
Proof.
  unfold dropna. destruct (mapM _ _); [|done]. intros [= <-]. by eexists.
Qed.

Lemma filter_nonempty_is_filter (c1 c2 : string) (df g : DataFrame) :
  filter_nonempty c1 c2 df = Ok g → ∃ mask, g = df_filter mask df.
Proof.
  unfold filter_nonempty. destruct (df_get c1 df), (df_get c2 df); try done.
  intros [= <-]. by eexists.
Qed.

Lemma source_rule_length (special_key needed_target : string)
    (source_mapping : list MappingRule) (source_df : DataFrame) (row : MappingRule) :
  rectangular source_df →
  length (source_rule special_key needed_target source_mapping source_df row).1
    = nrows source_df.
Proof.
  intros Hr. unfold source_rule.
  pose proof (input_column_step_length source_df row Hr) as Hstep.
  destruct (input_column_step source_df row) as [[rs sc] lg]. cbn in Hstep.
  logged_step.
  pose proof (apply_transformation_length (TargetACGColumn row)
                (TransformationFunction row) source_df) as Happly.
  case_decide; [|done].
  case_decide; [destruct (filter _ source_mapping) as [|needed rest];
                [|destruct (orb (blank (InputColumn needed)) _)]|];
    cbn beta iota zeta.
  all: match goal with
       | |- context [if ?b then _apply_transformation ?t ?k ?d ?o else _] =>
           destruct b;
           [specialize (Happly o);
            destruct (_apply_transformation t k d o) as [s l]; exact Happly
           |apply length_replicate]
       end.
Qed.

Lemma rule_loop_rectangular (g : MappingRule → Series) (rules : list MappingRule)
    (out : DataFrame) :
  rectangular out →
  (∀ row, length (g row) = nrows out) →
  rectangular (foldl (λ out row, df_set (TargetACGColumn row) (g row) out) out rules).
Proof.
  revert out. induction rules as [|row rules IH]; intros out Hr Hg; simpl; [done|].
  apply IH; [by apply rectangular_set|done].
Qed.

Lemma std_loop_rectangular (target_columns : list string) (out : DataFrame) :
  rectangular out →
  rectangular (foldl (λ out std_col,
                        if negb (has_column std_col out)
                        then df_set std_col (const_series "" (nrows out)) out
                        else out)
                     out target_columns).
Proof.
  revert out. induction target_columns as [|c cols IH]; intros out Hr; simpl; [done|].
  apply IH. destruct (negb (has_column c out)); [|done].
  apply rectangular_set; [done|apply length_replicate].
Qed.

Lemma source_columns_rectangular
    (rule : list MappingRule → DataFrame → MappingRule → logged Series)
    (source_mapping : list MappingRule) (target_columns : list string)
    (source_df : DataFrame) :
  (∀ row, length (rule source_mapping source_df row).1 = nrows source_df) →
  rectangular (source_columns rule source_mapping target_columns source_df)
  ∧ nrows (source_columns rule source_mapping target_columns source_df)
    = nrows source_df.
Proof.
  intros Hrule. unfold source_columns. split.
  - apply std_loop_rectangular.
    apply (rule_loop_rectangular (λ row, (rule source_mapping source_df row).1));
      [constructor|done].
  - rewrite std_loop_nrows.
    by rewrite (rule_loop_nrows (λ row, (rule source_mapping source_df row).1)).
Qed.

Lemma rule_loop_keeps (g : MappingRule → Series) (rules : list MappingRule)
    (out : DataFrame) (c : string) (col : Series) :
  (∀ r, r ∈ rules → TargetACGColumn r = c → g r = col) →
  df_get c out = Some col →
  df_get c (foldl (λ out row, df_set (TargetACGColumn row) (g row) out) out rules)
    = Some col.
Proof.
  revert out. induction rules as [|r rules IH]; intros out Hrules Hout; simpl; [done|].
  apply IH; [intros r' Hr'; apply Hrules; by right|].
  rewrite df_get_set. case_decide as Hc; [|done].
  f_equal. apply Hrules; [left|done].
Qed.

Lemma rule_loop_sets (g : MappingRule → Series) (rules : list MappingRule)
    (out : DataFrame) (c : string) (col : Series) :
  (∀ r, r ∈ rules → TargetACGColumn r = c → g r = col) →
  (∃ r, r ∈ rules ∧ TargetACGColumn r = c) →
  df_get c (foldl (λ out row, df_set (TargetACGColumn row) (g row) out) out rules)
    = Some col.
Proof.
  revert out. induction rules as [|r rules IH]; intros out Hrules (r0 & Hr0 & Hc0);
    [by apply elem_of_nil in Hr0|].
  simpl. destruct (decide (TargetACGColumn r = c)) as [Hc|Hc].
  - apply rule_loop_keeps; [intros r' Hr'; apply Hrules; by right|].
    rewrite df_get_set, decide_True by done. f_equal. apply Hrules; [left|done].
  - apply IH; [intros r' Hr'; apply Hrules; by right|].
    apply elem_of_cons in Hr0 as [->|Hr0]; [done|]. by exists r0.
Qed.

Lemma std_loop_keeps (c : string) (target_columns : list string) (out : DataFrame)
    (col : Series) :
  df_get c out = Some col →
  df_get c (foldl (λ out std_col,
                     if negb (has_column std_col out)
                     then df_set std_col (const_series "" (nrows out)) out
                     else out)
                  out target_columns)
    = Some col.
Proof.
  revert out. induction target_columns as [|c' cols IH]; intros out Hget; simpl;
    [done|].
  apply IH. unfold has_column. case_bool_decide as Hin; simpl; [done|].
  rewrite df_get_set. case_decide as Hcc; [|done]. subst c'.
  exfalso. apply Hin. apply (assoc_is_Some c (df_columns out)).
  unfold df_get in Hget. by rewrite Hget.
Qed.

Lemma source_columns_get
    (rule : list MappingRule → DataFrame → MappingRule → logged Series)
    (source_mapping : list MappingRule) (target_columns : list string)
    (source_df : DataFrame) (row : MappingRule) :
  row ∈ source_mapping →
  (∀ r, r ∈ source_mapping → TargetACGColumn r = TargetACGColumn row → r = row) →
  df_get (TargetACGColumn row)
    (source_columns rule source_mapping target_columns source_df)
    = Some (rule source_mapping source_df row).1.
Proof.
  intros Hrow Honly. unfold source_columns. apply std_loop_keeps.
  apply (rule_loop_sets (λ row, (rule source_mapping source_df row).1)).
  - intros r Hr Hc. by rewrite (Honly r Hr Hc).
  - by exists row.
Qed.

Lemma source_table_rectangular (input_data_dict : gmap string DataFrame)
    (source_mapping : list MappingRule) (source_df : DataFrame) :
  map_Forall (λ _ df, rectangular df) input_data_dict →
  source_table input_data_dict source_mapping = Ok (Some source_df) →
  rectangular source_df.
Proof.
  intros Hd. unfold source_table. case_decide; [done|].
  destruct (pd_unique _) as [|[|k] ks]; try done. simpl.
  destruct (input_data_dict !! k) as [df|] eqn:Hk; [|done].
  destruct (df_empty df); [done|]. intros [= <-]. by eapply Hd.
Qed.

Lemma source_rule_direct (special_key needed_target : string)
    (source_mapping : list MappingRule) (source_df : DataFrame) (row : MappingRule)
    (col : Series) :
  TransformationFunction row = "" →
  blank (InputColumn row) = false →
  df_get (Py.strip (py_str (InputColumn row))) source_df = Some col →
  (source_rule special_key needed_target source_mapping source_df row).1 = col.
Proof.
  intros Ht Hb Hcol. unfold source_rule.
  rewrite (input_column_step_direct _ _ col) by done. logged_step.
  by rewrite decide_False by (by intros H; apply H).
Qed.

Lemma filtered_source_rows (sel h g f : DataFrame) :
  rectangular sel →
  (h = sel ∨ ∃ mask, h = df_filter mask sel) →
  (∃ mask, g = df_filter mask h) →
  (∃ mask, f = df_filter mask g) →
  rectangular f ∧ column_names f = column_names sel ∧ rows_of f sel.
Proof.
  intros Hr Hh [m2 ->] [m3 ->].
  assert (Hh' : rectangular h ∧ column_names h = column_names sel ∧ rows_of h sel).
  { destruct Hh as [->|[m1 ->]].
    - split; [done|]. split; [done|apply rows_of_refl].
    - split; [by apply rectangular_filter|].
      split; [apply column_names_filter|apply rows_of_filter]. }
  destruct Hh' as (Hrh & Hnh & Hrows).
  split; [by do 2 apply rectangular_filter|].
  split; [by rewrite !column_names_filter|].
  eapply rows_of_trans; [apply rows_of_filter|].
  eapply rows_of_trans; [apply rows_of_filter|done].
Qed.

Lemma selected_source_rows
    (rule : list MappingRule → DataFrame → MappingRule → logged Series)
    (source_mapping : list MappingRule) (target_columns : list string)
    (source_df sel f : DataFrame) :
  (∀ row, length (rule source_mapping source_df row).1 = nrows source_df) →
  df_select target_columns
    (source_columns rule source_mapping target_columns source_df) = Some sel →
  rows_of f sel →
  ∀ i, i < nrows f →
    ∃ j, j < nrows source_df
         ∧ ∀ row, row ∈ source_mapping →
             (∀ r, r ∈ source_mapping →
                   TargetACGColumn r = TargetACGColumn row → r = row) →
             TargetACGColumn row ∈ target_columns →
             cell f (TargetACGColumn row) i
               = (rule source_mapping source_df row).1 !! j.
Proof.
  intros Hlen Hsel Hrows i Hi.
  destruct (source_columns_rectangular rule source_mapping target_columns
              source_df Hlen) as [_ Hn].
  destruct (Hrows i Hi) as (j & Hj & Hc). exists j. split.
  - apply df_select_Some in Hsel as [Hidx _]. unfold nrows in *.
    by rewrite Hidx, Hn in Hj.
  - intros row Hrow Honly Htc. rewrite Hc. unfold cell.
    rewrite (df_get_select _ _ _ _ Hsel), decide_True by done.
    by rewrite source_columns_get.
Qed.

Lemma medical_source_rows (input_data_dict : gmap string DataFrame)
    (medical_mapping : list MappingRule) (target_columns : list string)
    (source_label : string) (f : DataFrame) :
  map_Forall (λ _ df, rectangular df) input_data_dict →
  medical_source input_data_dict medical_mapping target_columns source_label
    = Ok (Some f) →
  let source_mapping := filter (λ r, SourceLabel r = source_label) medical_mapping in
  ∃ source_df,
    source_table input_data_dict source_mapping = Ok (Some source_df)
    ∧ rectangular f
    ∧ column_names f = target_columns
    ∧ ∀ i, i < nrows f →
        ∃ j, j < nrows source_df
             ∧ ∀ row, row ∈ source_mapping →
                 (∀ r, r ∈ source_mapping →
                       TargetACGColumn r = TargetACGColumn row → r = row) →
                 TargetACGColumn row ∈ target_columns →
                 cell f (TargetACGColumn row) i
                   = (medical_rule source_mapping source_df row).1 !! j.
Proof.
  intros Hd. unfold medical_source. case_decide; [done|].
  destruct (source_table _ _) as [[source_df|]|] eqn:Hsrc; simpl; try done.
  set (sm := filter _ medical_mapping).
  pose proof (source_table_rectangular _ _ _ Hd Hsrc) as Hrect.
  assert (Hlen : ∀ row, length (medical_rule sm source_df row).1 = nrows source_df).
  { intros row. by apply source_rule_length. }
  destruct (df_select target_columns _) as [sel|] eqn:Hsel; [|done].
  destruct (source_columns_rectangular medical_rule sm target_columns source_df Hlen)
    as [Hrc _].
  pose proof (rectangular_select _ _ _ Hrc Hsel) as Hrs.
  set (h := match df_get "dx_version_1" sel with
            | Some version => df_filter (nonempty_mask version) sel
            | None => sel
            end).
  assert (Hh : h = sel ∨ ∃ mask, h = df_filter mask sel).
  { unfold h. destruct (df_get "dx_version_1" sel); [right; by eexists|by left]. }
  destruct (dropna _ h) as [g|] eqn:Hg; simpl; [|done].
  destruct (filter_nonempty _ _ g) as [f'|] eqn:Hf; simpl; [|done].
  destruct (negb (df_empty f')); [|done]. intros [= <-].
  destruct (filtered_source_rows sel h g f' Hrs Hh (dropna_is_filter _ _ _ Hg)
              (filter_nonempty_is_filter _ _ _ _ Hf)) as (Hrf & Hnf & Hrows).
  exists source_df. split; [done|]. split; [done|].
  split; [by rewrite Hnf; eapply df_select_names|].
  by eapply selected_source_rows.
Qed.

Lemma pharmacy_source_rows (input_data_dict : gmap string DataFrame)
    (pharmacy_mapping : list MappingRule) (target_columns : list string)
    (source_label : string) (f : DataFrame) :
  map_Forall (λ _ df, rectangular df) input_data_dict →
  pharmacy_source input_data_dict pharmacy_mapping target_columns source_label
    = Ok (Some f) →
  let source_mapping := filter (λ r, SourceLabel r = source_label) pharmacy_mapping in
  ∃ source_df,
    source_table input_data_dict source_mapping = Ok (Some source_df)
    ∧ rectangular f
    ∧ column_names f = target_columns
    ∧ ∀ i, i < nrows f →
        ∃ j, j < nrows source_df
             ∧ ∀ row, row ∈ source_mapping →
                 (∀ r, r ∈ source_mapping →
                       TargetACGColumn r = TargetACGColumn row → r = row) →
                 TargetACGColumn row ∈ target_columns →
                 cell f (TargetACGColumn row) i
                   = (pharmacy_rule source_mapping source_df row).1 !! j.
Proof.
  intros Hd. unfold pharmacy_source. case_decide; [done|].
  destruct (source_table _ _) as [[source_df|]|] eqn:Hsrc; simpl; try done.
  set (sm := filter _ pharmacy_mapping).
  pose proof (source_table_rectangular _ _ _ Hd Hsrc) as Hrect.
  assert (Hlen : ∀ row, length (pharmacy_rule sm source_df row).1 = nrows source_df).
  { intros row. by apply source_rule_length. }
  destruct (df_select target_columns _) as [sel|] eqn:Hsel; [|done].
  destruct (source_columns_rectangular pharmacy_rule sm target_columns source_df Hlen)
    as [Hrc _].
  pose proof (rectangular_select _ _ _ Hrc Hsel) as Hrs.
  destruct (dropna _ sel) as [g|] eqn:Hg; simpl; [|done].
  destruct (filter_nonempty _ _ g) as [f'|] eqn:Hf; simpl; [|done].
  destruct (negb (df_empty f')); [|done]. intros [= <-].
  destruct (filtered_source_rows sel sel g f' Hrs (or_introl eq_refl)
              (dropna_is_filter _ _ _ Hg)
              (filter_nonempty_is_filter _ _ _ _ Hf)) as (Hrf & Hnf & Hrows).
  exists source_df. split; [done|]. split; [done|].
  split; [by rewrite Hnf; eapply df_select_names|].
  by eapply selected_source_rows.
Qed.

Lemma locate_row (dfs : list DataFrame) (i : nat) :
  i < sum_list (nrows <$> dfs) →
  ∃ df j, df ∈ dfs ∧ j < nrows df
          ∧ ∀ g : DataFrame → Series,
              Forall (λ df, length (g df) = nrows df) dfs →
              (dfs ≫= g) !! i = g df !! j.
Proof.
  revert i. induction dfs as [|df dfs IH]; intros i Hi; [simpl in Hi; lia|].
  change (i < nrows df + sum_list (nrows <$> dfs)) in Hi.
  destruct (decide (i < nrows df)) as [Hlt|Hge].
  - exists df, i. split; [left|]. split; [done|].
    intros g [Hg _]%Forall_cons. simpl.
    apply lookup_app_l. by rewrite Hg.
  - destruct (IH (i - nrows df)) as (df' & j & Hin & Hj & Hg'); [lia|].
    exists df', j. split; [by right|]. split; [done|].
    intros g [Hg Hgs]%Forall_cons. simpl.
    rewrite lookup_app_r by (rewrite Hg; lia). rewrite Hg. by apply Hg'.
Qed.

Lemma nrows_concat (dfs : list DataFrame) :
  nrows (pd_concat dfs) = sum_list (nrows <$> dfs).
Proof. unfold nrows, pd_concat. simpl. by rewrite length_fmap, length_seq. Qed.

Lemma concat_rows (dfs : list DataFrame) (target_columns : list string) (i : nat) :
  Forall rectangular dfs →
  Forall (λ df, column_names df = target_columns) dfs →
  i < nrows (pd_concat dfs) →
  ∃ df j, df ∈ dfs ∧ j < nrows df
          ∧ ∀ c, c ∈ target_columns → cell (pd_concat dfs) c i = cell df c j.
Proof.
  intros Hrect Hnames Hi. rewrite nrows_concat in Hi.
  destruct (locate_row dfs i Hi) as (df & j & Hin & Hj & Hg).
  exists df, j. split; [done|]. split; [done|].
  intros c Hc. unfold cell at 1. rewrite df_get_concat.
  rewrite decide_True.
  2: { apply list_elem_of_bind. exists df. split; [|done].
       rewrite Forall_forall in Hnames. by rewrite (Hnames df Hin). }
  simpl. rewrite Hg.
  - unfold cell. rewrite Forall_forall in Hnames.
    destruct (df_get_is_Some c df) as [s Hs]; [by rewrite (Hnames df Hin)|].
    by rewrite Hs.
  - rewrite Forall_forall in Hrect |- *. intros df' Hdf'.
    destruct (df_get c df') as [s|] eqn:Hs; simpl.
    + by eapply rectangular_get; [apply Hrect|].
    + apply length_replicate.
Qed.

Lemma concat_sources_cells (target_columns : list string) (all_dfs : list DataFrame)
    (out : DataFrame) :
  concat_sources target_columns all_dfs = Some out →
  nrows out = nrows (pd_concat all_dfs)
  ∧ ∀ c i, c ∈ target_columns → cell out c i = cell (pd_concat all_dfs) c i.
Proof.
  unfold concat_sources. case_decide; [done|].
  destruct (df_select target_columns (pd_concat all_dfs)) as [sel|] eqn:Hsel;
    intros [= <-]; [|done].
  split.
  - apply df_select_Some in Hsel as [Hidx _]. unfold nrows. by rewrite Hidx.
  - intros c i Hc. unfold cell.
    by rewrite (df_get_select _ _ _ _ Hsel), decide_True.
Qed.

Lemma source_loop_from (body : string → result (option DataFrame))
    (source_labels : list string) (res : list DataFrame) :
  source_loop body source_labels [] = Ok res →
  Forall (λ f, ∃ source_label, body source_label = Ok (Some f)) res.
Proof.
  intros Hloop. eapply source_loop_Forall; [|constructor|exact Hloop].
  intros l f Hl. by exists l.
Qed.

(** X21. Every row of the medical-services output is one row of one source
    table: there are a source label, the non-empty table its rules read
    and one row of that table such that, in every column whose rule is the
    only rule of that label for its target, the output cell is what that
    rule made of the table at that row; for a rule that copies a column
    without transformation, it is that column's cell in that row. *)
Theorem medical_services_rows_come_from_source_rows
    (input_data_dict : gmap string DataFrame) (mapping_df : list MappingRule)
    (out : DataFrame) (i : nat) :
  map_Forall (λ _ df, rectangular df) input_data_dict →
  _generate_medical_services input_data_dict mapping_df = Ok (Some out) →
  i < nrows out →
  ∃ source_label source_df j,
    let source_mapping :=
      filter (λ r, SourceLabel r = source_label)
        (filter (λ r, TargetACGFile r = Str "medical_services") mapping_df) in
    source_table input_data_dict source_mapping = Ok (Some source_df)
    ∧ j < nrows source_df
    ∧ ∀ row, row ∈ source_mapping →
        (∀ r, r ∈ source_mapping →
              TargetACGColumn r = TargetACGColumn row → r = row) →
        cell out (TargetACGColumn row) i
          = (medical_rule source_mapping source_df row).1 !! j
        ∧ (TransformationFunction row = "" →
           blank (InputColumn row) = false →
           ∀ col, df_get (Py.strip (py_str (InputColumn row))) source_df = Some col →
                  cell out (TargetACGColumn row) i = col !! j).
Proof.
  intros Hd. unfold _generate_medical_services. case_decide; [done|].
  destruct (no_source_label _); [done|].
  set (mm := filter _ mapping_df).
  set (tc := prioritize 1 "dx_cd_1" _).
  destruct (source_loop _ _ []) as [all|] eqn:Hloop; simpl; [|done].
  intros [= Hout] Hi.
  apply source_loop_from in Hloop.
  assert (Hall : Forall (λ f, rectangular f ∧ column_names f = tc) all).
  { eapply Forall_impl; [exact Hloop|]. intros f [l Hl].
    destruct (medical_source_rows _ _ _ _ _ Hd Hl) as (? & _ & ? & ? & _). done. }
  destruct (concat_sources_cells _ _ _ Hout) as [Hn Hcells].
  rewrite Hn in Hi.
  destruct (concat_rows all tc i) as (f & k & Hf & Hk & Hcat); [| |done|].
  { eapply Forall_impl; [exact Hall|]. by intros ? [? _]. }
  { eapply Forall_impl; [exact Hall|]. by intros ? [_ ?]. }
  rewrite Forall_forall in Hloop. destruct (Hloop f Hf) as [l Hl].
  destruct (medical_source_rows _ _ _ _ _ Hd Hl) as (src & Hsrc & _ & _ & Hrows).
  destruct (Hrows k Hk) as (j & Hj & Hrule).
  exists l, src, j. split; [done|]. split; [done|].
  intros row Hrow Honly.
  assert (Htc : TargetACGColumn row ∈ tc).
  { unfold tc. rewrite !prioritize_perm. apply elem_of_pd_unique, list_elem_of_fmap.
    exists row. split; [done|]. by apply list_elem_of_filter in Hrow as [_ ?]. }
  assert (Hcell : cell out (TargetACGColumn row) i
                  = (medical_rule (filter (λ r, SourceLabel r = l) mm) src row).1 !! j).
  { rewrite Hcells, Hcat by done. by apply Hrule. }
  split; [done|]. intros Ht Hb col Hcol. rewrite Hcell.
  unfold medical_rule. by rewrite (source_rule_direct _ _ _ _ _ col).
Qed.

(** X22. Every row of the pharmacy-data output is one row of one source
    table, in the same sense: the cells of the columns whose rule is the
    only one of its label for its target all come from the same row of the
    table that label reads. *)
Theorem pharmacy_data_rows_come_from_source_rows
    (input_data_dict : gmap string DataFrame) (mapping_df : list MappingRule)
    (out : DataFrame) (i : nat) :
  map_Forall (λ _ df, rectangular df) input_data_dict →
  _generate_pharmacy_data input_data_dict mapping_df = Ok (Some out) →
  i < nrows out →
  ∃ source_label source_df j,
    let source_mapping :=
      filter (λ r, SourceLabel r = source_label)
        (filter (λ r, TargetACGFile r = Str "pharmacy_data") mapping_df) in
    source_table input_data_dict source_mapping = Ok (Some source_df)
    ∧ j < nrows source_df
    ∧ ∀ row, row ∈ source_mapping →
        (∀ r, r ∈ source_mapping →
              TargetACGColumn r = TargetACGColumn row → r = row) →
        cell out (TargetACGColumn row) i
          = (pharmacy_rule source_mapping source_df row).1 !! j
        ∧ (TransformationFunction row = "" →
           blank (InputColumn row) = false →
           ∀ col, df_get (Py.strip (py_str (InputColumn row))) source_df = Some col →
                  cell out (TargetACGColumn row) i = col !! j).
Proof.
  intros Hd. unfold _generate_pharmacy_data. case_decide; [done|].
  destruct (no_source_label _); [done|].
  set (mm := filter _ mapping_df).
  set (tc := prioritize 2 "rx_fill_date" _).
  destruct (source_loop _ _ []) as [all|] eqn:Hloop; simpl; [|done].
  intros [= Hout] Hi.
  apply source_loop_from in Hloop.
  assert (Hall : Forall (λ f, rectangular f ∧ column_names f = tc) all).
  { eapply Forall_impl; [exact Hloop|]. intros f [l Hl].
    destruct (pharmacy_source_rows _ _ _ _ _ Hd Hl) as (? & _ & ? & ? & _). done. }
  destruct (concat_sources_cells _ _ _ Hout) as [Hn Hcells].
  rewrite Hn in Hi.
  destruct (concat_rows all tc i) as (f & k & Hf & Hk & Hcat); [| |done|].
  { eapply Forall_impl; [exact Hall|]. by intros ? [? _]. }
  { eapply Forall_impl; [exact Hall|]. by intros ? [_ ?]. }
  rewrite Forall_forall in Hloop. destruct (Hloop f Hf) as [l Hl].
  destruct (pharmacy_source_rows _ _ _ _ _ Hd Hl) as (src & Hsrc & _ & _ & Hrows).
  destruct (Hrows k Hk) as (j & Hj & Hrule).
  exists l, src, j. split; [done|]. split; [done|].
  intros row Hrow Honly.
  assert (Htc : TargetACGColumn row ∈ tc).
  { unfold tc. rewrite !prioritize_perm. apply elem_of_pd_unique, list_elem_of_fmap.
    exists row. split; [done|]. by apply list_elem_of_filter in Hrow as [_ ?]. }
  assert (Hcell : cell out (TargetACGColumn row) i
                  = (pharmacy_rule (filter (λ r, SourceLabel r = l) mm) src row).1 !! j).
  { rewrite Hcells, Hcat by done. by apply Hrule. }
  split; [done|]. intros Ht Hb col Hcol. rewrite Hcell.
  unfold pharmacy_rule. by rewrite (source_rule_direct _ _ _ _ _ col).
Qed.

End processing.

(** * The properties on sample inputs *)

Example demo_medical_services :
  _generate_medical_services no_dates demo_input demo_mapping
    = Ok (Some demo_medical_output).
Proof. vm_compute. reflexivity. Qed.

Example demo_pharmacy_data :
  _generate_pharmacy_data no_dates demo_input demo_mapping
    = Ok (Some demo_pharmacy_output).
Proof. vm_compute. reflexivity. Qed.

Example demo_patient_data :
  _generate_patient_data no_dates demo_input demo_mapping = Some demo_patient_output.
Proof. vm_compute. reflexivity. Qed.

(** A run on the sample inputs with a writable disk. *)
Lemma generate_acg_files_fails_at_end_witness :
  _generate_medical_services no_dates demo_input demo_mapping
    = Ok (Some demo_medical_output)
  ∧ _generate_pharmacy_data no_dates demo_input demo_mapping
    = Ok (Some demo_pharmacy_output)
  ∧ let run := generate_acg_files no_dates (Some demo_mapping) disk_ok demo_input in
    generators_run run.1 = ["patient_data"; "medical_services"; "pharmacy_data"]
    ∧ errors_raised run.1 = []
    ∧ run.2 = Ok ()
    ∧ True.
Proof.
  assert (Hm : _generate_medical_services no_dates demo_input demo_mapping
               = Ok (Some demo_medical_output)) by (vm_compute; reflexivity).
  assert (Hx : _generate_pharmacy_data no_dates demo_input demo_mapping
               = Ok (Some demo_pharmacy_output)) by (vm_compute; reflexivity).
  split; [exact Hm|]. split; [exact Hx|].
  exact (generate_acg_files_fails_at_end no_dates demo_mapping disk_ok demo_input
           _ _ Hm Hx).
Defined.

(** C1, as stated, fails: both required generators yield rows, yet the run
    raises its run-level error, because the patient file cannot be
    written. *)
Lemma run_raises_when_patient_file_is_not_written :
  has_rows (_generate_patient_data no_dates demo_input demo_mapping) = true
  ∧ _generate_medical_services no_dates demo_input demo_mapping
    = Ok (Some demo_medical_output)
  ∧ has_rows (Some demo_medical_output) = true
  ∧ (generate_acg_files no_dates (Some demo_mapping) patient_file_unwritable demo_input).2
    = Raise RuntimeError.
Proof. repeat split; vm_compute; reflexivity. Qed.

(** What the amended C1 leaves out: when the medical_services mapping
    declares no patient_id column, [dropna] raises [KeyError]; nothing
    catches it, the run ends with it and the pharmacy-data generator is not
    called. *)
Example run_ends_with_key_error :
  generate_acg_files no_dates (Some code_only_mapping) disk_ok demo_input
    = ([Generates "patient_data"; Generates "medical_services"; Raises KeyError],
       Raise KeyError).
Proof. vm_compute. reflexivity. Qed.

(** The patient_id rule of the sample mapping puts its column first. *)
Lemma patient_data_first_column_witness :
  demo_input !! required_input_key = Some demo_patients
  ∧ df_get config.MERGE_KEY demo_patients = Some [Str "1"; Str "2"; Str "1"]
  ∧ _generate_patient_data no_dates demo_input demo_mapping = Some demo_patient_output
  ∧ ∃ s, first_column demo_patient_output = Some (patient_id_col, s)
         ∧ df_get patient_id_col
             (patient_loop no_dates
                (prepare_patient_details demo_patients [Str "1"; Str "2"; Str "1"])
                (filter (λ r, TargetACGFile r = Str "patient_data") demo_mapping)
                (mkDataFrame
                   (df_index (prepare_patient_details demo_patients
                                [Str "1"; Str "2"; Str "1"])) []))
           = Some s.
Proof.
  assert (H1 : demo_input !! required_input_key = Some demo_patients)
    by (vm_compute; reflexivity).
  assert (H2 : df_get config.MERGE_KEY demo_patients = Some [Str "1"; Str "2"; Str "1"])
    by (vm_compute; reflexivity).
  assert (H3 : _generate_patient_data no_dates demo_input demo_mapping
               = Some demo_patient_output) by (vm_compute; reflexivity).
  split; [exact H1|]. split; [exact H2|]. split; [exact H3|].
  exact (patient_data_first_column no_dates demo_input demo_mapping demo_patients
           [Str "1"; Str "2"; Str "1"] demo_patient_output H1 H2 H3).
Defined.

(** C2, as stated, fails: with no rule for patient_id and the merge key not
    mapped, the generation succeeds and its first column is named
    PatientID. *)
Lemma first_column_is_named_after_the_merge_key :
  ∃ out, _generate_patient_data no_dates demo_input age_only_mapping = Some out
         ∧ first_column out = Some ("PatientID", [Str "1"; Str "2"])
         ∧ "PatientID" ≠ "patient_id".
Proof.
  eexists. split; [vm_compute; reflexivity|]. split; [reflexivity|discriminate].
Qed.

(** C3, as stated, fails: a row whose dx_version_1 is missing passes the
    filters and is part of the final medical-services output. *)
Lemma missing_dx_version_is_not_filtered :
  ∃ out,
    _generate_medical_services no_dates
        {["Care_History" := care_with_code_system]} code_system_mapping
      = Ok (Some out)
    ∧ df_get "dx_version_1" out = Some [NaN; Str "S"]
    ∧ ¬ column_if_present non_empty "dx_version_1" out.
Proof.
  eexists. split; [vm_compute; reflexivity|]. split; [reflexivity|].
  unfold column_if_present. cbn. intros H.
  apply Forall_cons in H as [[H _] _]. done.
Qed.

(** C4: the code at the failing input.  The group has no dx_cd_1 rule and
    the dx_version_1 rule names no source column: the error is logged, but
    the transform is then called on the row index instead of being skipped;
    it fails there, the failure is caught and logged, and the column is
    missing, not the empty string, in every row. *)
Theorem determine_dx_version_is_called_without_dx_cd_1_rule :
  medical_rule no_dates version_only_mapping demo_care version_rule
    = (nan_series 3,
       [(DEBUG, "Processing column");
        (ERROR, "Cannot apply: No mapping found for the required TargetACGColumn");
        (DEBUG, "Applying transformation");
        (EXCEPTION, "Error applying transformation")]).
Proof. vm_compute. reflexivity. Qed.

(** The Age rule of the sample mapping copies the Age column. *)
Lemma direct_copy_identity_witness :
  let row := mkRule (Str "Patient_Details") (Str "Age") (Str "patient_data") "age" "" "" in
  blank (InputColumn row) = false
  ∧ df_get (Py.strip (py_str (InputColumn row))) demo_patients
    = Some [Str "38"; Str "31"; Str "39"]
  ∧ TransformationFunction row = ""
  ∧ (medical_rule no_dates demo_mapping demo_patients row).1
    = [Str "38"; Str "31"; Str "39"]
  ∧ (pharmacy_rule no_dates demo_mapping demo_patients row).1
    = [Str "38"; Str "31"; Str "39"]
  ∧ (patient_rule no_dates demo_patients row).1
    = if decide (InputConfigKey row = Str required_input_key)
      then Some [Str "38"; Str "31"; Str "39"] else None.
Proof.
  intros row.
  assert (H1 : blank (InputColumn row) = false) by (vm_compute; reflexivity).
  assert (H2 : df_get (Py.strip (py_str (InputColumn row))) demo_patients
               = Some [Str "38"; Str "31"; Str "39"]) by (vm_compute; reflexivity).
  assert (H3 : TransformationFunction row = "") by reflexivity.
  split; [exact H1|]. split; [exact H2|]. split; [exact H3|].
  exact (direct_copy_identity no_dates demo_mapping demo_patients row _ H1 H2 H3).
Defined.

(** C6, as stated, fails: the rule's source column is non-empty and names a
    column of the table, the transform is empty, and the produced column is
    empty, because the name is looked up with its white space stripped. *)
Lemma direct_copy_looks_up_the_stripped_name :
  blank (InputColumn padded_rule) = false
  ∧ df_get (py_str (InputColumn padded_rule)) padded_table = Some [Str "38"]
  ∧ TransformationFunction padded_rule = ""
  ∧ (medical_rule no_dates [padded_rule] padded_table padded_rule).1 = [Str ""]
  ∧ (patient_rule no_dates padded_table padded_rule).1 = Some [Str ""].
Proof. repeat split; vm_compute; reflexivity. Qed.

(** The sample patient table holds identifier 1 twice. *)
Lemma patient_data_keeps_first_occurrence_witness :
  let keys := [Str "1"; Str "2"; Str "1"] in
  let first_rows := df_filter (first_occurrence_mask keys) demo_patients in
  demo_input !! required_input_key = Some demo_patients
  ∧ df_get config.MERGE_KEY demo_patients = Some keys
  ∧ ¬ NoDup keys
  ∧ _generate_patient_data no_dates demo_input demo_mapping = Some demo_patient_output
  ∧ assemble_patient_data no_dates (set_index config.MERGE_KEY first_rows) demo_mapping
    = Some demo_patient_output
  ∧ df_get config.MERGE_KEY first_rows = Some (pd_unique keys)
  ∧ NoDup (pd_unique keys)
  ∧ (∀ k, k ∈ pd_unique keys ↔ k ∈ keys)
  ∧ nrows demo_patient_output = length (pd_unique keys).
Proof.
  intros keys first_rows.
  assert (H1 : demo_input !! required_input_key = Some demo_patients)
    by (vm_compute; reflexivity).
  assert (H2 : df_get config.MERGE_KEY demo_patients = Some keys)
    by (vm_compute; reflexivity).
  assert (H3 : ¬ NoDup keys).
  { apply (bool_decide_eq_false_1 (NoDup keys)). vm_compute. reflexivity. }
  assert (H4 : _generate_patient_data no_dates demo_input demo_mapping
               = Some demo_patient_output) by (vm_compute; reflexivity).
  split; [exact H1|]. split; [exact H2|]. split; [exact H3|]. split; [exact H4|].
  exact (patient_data_keeps_first_occurrence no_dates demo_input demo_mapping
           demo_patients keys demo_patient_output H1 H2 H3 H4).
Defined.

(** A patient_data rule that reads Care_History makes the generation
    fail. *)
Lemma patient_data_fails_on_foreign_dataset_witness :
  foreign_code_rule ∈ foreign_code_mapping
  ∧ TargetACGFile foreign_code_rule = Str "patient_data"
  ∧ InputConfigKey foreign_code_rule ≠ Str required_input_key
  ∧ blank (InputColumn foreign_code_rule) = false
  ∧ TargetACGColumn foreign_code_rule ≠ config.MERGE_KEY
  ∧ _generate_patient_data no_dates demo_input foreign_code_mapping = None.
Proof.
  assert (H1 : foreign_code_rule ∈ foreign_code_mapping) by (right; left).
  assert (H2 : TargetACGFile foreign_code_rule = Str "patient_data") by reflexivity.
  assert (H3 : InputConfigKey foreign_code_rule ≠ Str required_input_key) by discriminate.
  assert (H4 : blank (InputColumn foreign_code_rule) = false) by (vm_compute; reflexivity).
  assert (H5 : TargetACGColumn foreign_code_rule ≠ config.MERGE_KEY) by discriminate.
  split; [exact H1|]. split; [exact H2|]. split; [exact H3|].
  split; [exact H4|]. split; [exact H5|].
  refine (patient_data_fails_on_foreign_dataset no_dates demo_input foreign_code_mapping
            foreign_code_rule H1 H2 H3 H4 _ (or_introl H5)).
  intros r Hr Hf Ht.
  apply elem_of_cons in Hr as [->|Hr]; [discriminate Ht|].
  apply elem_of_cons in Hr as [->|Hr]; [split; [exact H3|exact H4]|].
  by apply elem_of_nil in Hr.
Defined.

(** C10, as stated, fails: the rule reads another dataset, has a non-empty
    source column and no other rule supplies its target, yet the generation
    succeeds, because the target is named like the merge key and the
    merge-key column is inserted under that name. *)
Lemma foreign_rule_targeting_the_merge_key_does_not_fail :
  let row := mkRule (Str "Care_History") (Str "PatientID") (Str "patient_data")
                    "PatientID" "" "" in
  foreign_key_mapping = [row]
  ∧ InputConfigKey row ≠ Str required_input_key
  ∧ blank (InputColumn row) = false
  ∧ _generate_patient_data no_dates demo_input foreign_key_mapping
    = Some (mkDataFrame [LPos 0; LPos 1] [("PatientID", [Str "1"; Str "2"])]).
Proof.
  repeat split; try discriminate; vm_compute; reflexivity.
Qed.

(** ** The further properties at the sample data *)

(** The Care_History header, in another column order and letter case, is
    identified as Care_History. *)
Lemma identify_file_type_ignores_order_and_case_witness :
  Py.lower <$> care_header
    ≡ₚ Py.lower <$> ["PatientID"; "Code"; "CodeTerm"; "EffectiveDate"; "Value"; "Unit"]
  ∧ _identify_file_type (HeaderColumns care_header)
    = _identify_file_type
        (HeaderColumns ["PatientID"; "Code"; "CodeTerm"; "EffectiveDate"; "Value"; "Unit"]).
Proof.
  assert (H1 : Py.lower <$> care_header
               ≡ₚ Py.lower <$> ["PatientID"; "Code"; "CodeTerm"; "EffectiveDate";
                                "Value"; "Unit"])
    by (vm_compute; apply perm_swap).
  split; [exact H1|].
  exact (identify_file_type_ignores_order_and_case _ _ H1).
Defined.

(** The sample run completes and writes all three files. *)
Lemma completed_run_wrote_required_files_witness :
  (generate_acg_files no_dates (Some demo_mapping) disk_ok demo_input).2 = Ok ()
  ∧ Saves "patient_data"
      ∈ (generate_acg_files no_dates (Some demo_mapping) disk_ok demo_input).1.
Proof.
  assert (H1 : (generate_acg_files no_dates (Some demo_mapping) disk_ok demo_input).2
               = Ok ()) by (vm_compute; reflexivity).
  split; [exact H1|].
  destruct (completed_run_wrote_required_files no_dates _ _ _ H1)
    as (? & ? & ? & _ & _ & _ & _ & _ & Hsaves & _).
  exact Hsaves.
Defined.

(** A care file without the merge key stops the worker before any
    generator runs. *)
Lemma worker_rejects_table_without_merge_key_witness :
  ("Care_History", "care.csv") ∈ demo_files
  ∧ "Care_History" ≠ "Patient_Details"
  ∧ read_care_without_key "care.csv" = ReadTable care_without_key
  ∧ has_column config.MERGE_KEY care_without_key = false
  ∧ worker_run no_dates read_care_without_key (Some demo_mapping) disk_ok demo_files
    = ([], false).
Proof.
  assert (H1 : ("Care_History", "care.csv") ∈ demo_files) by (right; left).
  assert (H2 : "Care_History" ≠ "Patient_Details") by discriminate.
  assert (H3 : read_care_without_key "care.csv" = ReadTable care_without_key)
    by reflexivity.
  assert (H4 : has_column config.MERGE_KEY care_without_key = false)
    by (vm_compute; reflexivity).
  split; [exact H1|]. split; [exact H2|]. split; [exact H3|]. split; [exact H4|].
  exact (worker_rejects_table_without_merge_key no_dates read_care_without_key
           (Some demo_mapping) disk_ok demo_files _ _ _ H1 H2 H3 H4).
Defined.

(** An empty patient file is loaded, the other sample files too, the
    generation is started, and the worker fails. *)
Lemma worker_fails_on_empty_patient_details_witness :
  NoDup demo_files.*1
  ∧ ("Patient_Details", "patients.csv") ∈ demo_files
  ∧ read_empty_patients "patients.csv" = ReadEmptyData
  ∧ (worker_run no_dates read_empty_patients (Some demo_mapping) disk_ok demo_files).2
    = false
  ∧ ∃ loaded_data_dict,
      load_files read_empty_patients demo_files ∅ = Ok loaded_data_dict
      ∧ loaded_data_dict !! "Patient_Details" = Some (mkDataFrame [] [])
      ∧ worker_run no_dates read_empty_patients (Some demo_mapping) disk_ok demo_files
        = ((generate_acg_files no_dates (Some demo_mapping) disk_ok
              loaded_data_dict).1, false).
Proof.
  assert (H1 : NoDup demo_files.*1).
  { apply (bool_decide_unpack (NoDup demo_files.*1)). vm_compute. exact I. }
  assert (H2 : ("Patient_Details", "patients.csv") ∈ demo_files) by left.
  assert (H3 : read_empty_patients "patients.csv" = ReadEmptyData) by reflexivity.
  assert (H4 : Forall (λ kp, read_empty_patients kp.2 = ReadEmptyData
                             ∨ ∃ df, read_empty_patients kp.2 = ReadTable df
                                     ∧ (kp.1 = "Patient_Details"
                                        ∨ has_column config.MERGE_KEY df = true))
                 demo_files).
  { apply Forall_cons. split; [left; reflexivity|].
    apply Forall_cons. split.
    { right. exists demo_care. split; [reflexivity|right; vm_compute; reflexivity]. }
    apply Forall_cons. split; [|apply Forall_nil_2].
    right. exists demo_meds. split; [reflexivity|right; vm_compute; reflexivity]. }
  split; [exact H1|]. split; [exact H2|]. split; [exact H3|].
  destruct (worker_fails_on_empty_patient_details no_dates read_empty_patients
              (Some demo_mapping) disk_ok demo_files _ H1 H2 H3)
    as (_ & Hfalse & Hrun).
  split; [exact Hfalse|].
  destruct (Hrun H4) as (loaded & Hl & Hdf & Hw & _).
  exists loaded. split; [exact Hl|]. split; [exact Hdf|exact Hw].
Defined.

(** The worker succeeds on the sample files. *)
Lemma worker_success_wrote_required_files_witness :
  (worker_run no_dates demo_read_csv (Some demo_mapping) disk_ok demo_files).2 = true
  ∧ Saves "medical_services"
      ∈ (worker_run no_dates demo_read_csv (Some demo_mapping) disk_ok demo_files).1.
Proof.
  assert (H1 : (worker_run no_dates demo_read_csv (Some demo_mapping) disk_ok
                  demo_files).2 = true) by (vm_compute; reflexivity).
  split; [exact H1|].
  destruct (worker_success_wrote_required_files no_dates _ _ _ _ H1)
    as (_ & _ & Hsaves).
  exact Hsaves.
Defined.

(** With a rule targeting PatientID and none targeting patient_id, the Age
    column appears twice under the name patient_id. *)
Lemma patient_id_column_is_duplicated_witness :
  ∃ out,
    _generate_patient_data no_dates demo_input merge_key_target_mapping = Some out
    ∧ merge_key_target_rule ∈ patient_rules merge_key_target_mapping
    ∧ TargetACGColumn merge_key_target_rule = config.MERGE_KEY
    ∧ ¬ skipped merge_key_target_rule
    ∧ (patient_id_col ∉ (TargetACGColumn <$> patient_rules merge_key_target_mapping))
    ∧ ∃ i s,
        pd_unique (TargetACGColumn <$> patient_rules merge_key_target_mapping) !! i
          = Some config.MERGE_KEY
        ∧ df_columns out !! 0 = Some (patient_id_col, s)
        ∧ df_columns out !! S i = Some (patient_id_col, s).
Proof.
  eexists.
  assert (H1 : _generate_patient_data no_dates demo_input merge_key_target_mapping
               = Some _) by (vm_compute; reflexivity).
  assert (H2 : merge_key_target_rule ∈ patient_rules merge_key_target_mapping)
    by (vm_compute; right; left).
  assert (H3 : TargetACGColumn merge_key_target_rule = config.MERGE_KEY)
    by reflexivity.
  assert (H4 : ¬ skipped merge_key_target_rule) by (by intros [H _]; apply H).
  assert (H5 : patient_id_col
               ∉ TargetACGColumn <$> patient_rules merge_key_target_mapping).
  { apply (bool_decide_eq_false_1 (_ ∈ _)). vm_compute. reflexivity. }
  split; [exact H1|]. split; [exact H2|]. split; [exact H3|]. split; [exact H4|].
  split; [exact H5|].
  exact (patient_id_column_is_duplicated no_dates demo_input merge_key_target_mapping
           _ merge_key_target_rule H1 H2 H3 H4 H5).
Defined.

(** The sample patient table is rectangular, and so is the output. *)
Lemma patient_data_is_rectangular_witness :
  demo_input !! required_input_key = Some demo_patients
  ∧ rectangular demo_patients
  ∧ df_get config.MERGE_KEY demo_patients = Some [Str "1"; Str "2"; Str "1"]
  ∧ _generate_patient_data no_dates demo_input demo_mapping = Some demo_patient_output
  ∧ nrows demo_patient_output = length (pd_unique [Str "1"; Str "2"; Str "1"]).
Proof.
  assert (H1 : demo_input !! required_input_key = Some demo_patients)
    by (vm_compute; reflexivity).
  assert (H2 : rectangular demo_patients) by (repeat constructor).
  assert (H3 : df_get config.MERGE_KEY demo_patients = Some [Str "1"; Str "2"; Str "1"])
    by (vm_compute; reflexivity).
  assert (H4 : _generate_patient_data no_dates demo_input demo_mapping
               = Some demo_patient_output) by (vm_compute; reflexivity).
  split; [exact H1|]. split; [exact H2|]. split; [exact H3|]. split; [exact H4|].
  exact (proj2 (patient_data_is_rectangular no_dates demo_input demo_mapping
                  demo_patients _ demo_patient_output H1 H2 H3 H4)).
Defined.

(** The sample medical-services output starts with patient_id and
    dx_cd_1. *)
Lemma medical_services_column_order_witness :
  _generate_medical_services no_dates demo_input demo_mapping
    = Ok (Some demo_medical_output)
  ∧ ∃ rest, column_names demo_medical_output = "patient_id" :: "dx_cd_1" :: rest.
Proof.
  assert (H1 : _generate_medical_services no_dates demo_input demo_mapping
               = Ok (Some demo_medical_output)) by (vm_compute; reflexivity).
  split; [exact H1|].
  exact (proj1 (medical_services_column_order no_dates demo_input demo_mapping
                  demo_medical_output H1)).
Defined.

(** The sample pharmacy-data output starts with patient_id and rx_cd. *)
Lemma pharmacy_data_column_order_witness :
  _generate_pharmacy_data no_dates demo_input demo_mapping
    = Ok (Some demo_pharmacy_output)
  ∧ NoDup (column_names demo_pharmacy_output).
Proof.
  assert (H1 : _generate_pharmacy_data no_dates demo_input demo_mapping
               = Ok (Some demo_pharmacy_output)) by (vm_compute; reflexivity).
  split; [exact H1|].
  exact (proj1 (proj2 (pharmacy_data_column_order no_dates demo_input demo_mapping
                         demo_pharmacy_output H1))).
Defined.

(** A medical_services mapping without a patient_id rule makes the
    generator raise a KeyError. *)
Lemma medical_services_raises_only_without_key_columns_witness :
  _generate_medical_services no_dates demo_input code_only_mapping = Raise KeyError
  ∧ KeyError = KeyError.
Proof.
  assert (H1 : _generate_medical_services no_dates demo_input code_only_mapping
               = Raise KeyError) by (vm_compute; reflexivity).
  split; [exact H1|].
  exact (proj1 (medical_services_raises_only_without_key_columns no_dates demo_input
                  code_only_mapping KeyError H1)).
Defined.

(** A pharmacy_data mapping without a patient_id rule makes the generator
    raise a KeyError. *)
Lemma pharmacy_data_raises_only_without_key_columns_witness :
  _generate_pharmacy_data no_dates demo_input drug_only_mapping = Raise KeyError
  ∧ KeyError = KeyError.
Proof.
  assert (H1 : _generate_pharmacy_data no_dates demo_input drug_only_mapping
               = Raise KeyError) by (vm_compute; reflexivity).
  split; [exact H1|].
  exact (proj1 (pharmacy_data_raises_only_without_key_columns no_dates demo_input
                  drug_only_mapping KeyError H1)).
Defined.

(** A cost rule without a source column gives a missing cost in every row
    of the care table. *)
Lemma generated_columns_need_a_source_column_witness :
  blank (InputColumn zero_cost_rule) = true
  ∧ TransformationFunction zero_cost_rule
      ∈ ["format_date_yyyy_mm_dd"; "set_zero_cost"; "set_zero_utilization"]
  ∧ (medical_rule no_dates [zero_cost_rule] demo_care zero_cost_rule).1
    = nan_series (nrows demo_care).
Proof.
  assert (H1 : blank (InputColumn zero_cost_rule) = true) by reflexivity.
  assert (H2 : TransformationFunction zero_cost_rule
               ∈ ["format_date_yyyy_mm_dd"; "set_zero_cost"; "set_zero_utilization"])
    by (right; left).
  split; [exact H1|]. split; [exact H2|].
  exact (proj1 (proj2 (generated_columns_need_a_source_column no_dates
                         [zero_cost_rule] demo_care zero_cost_rule H1 H2))).
Defined.

(** A cost rule that names the Code column gives "0" in every row of the
    care table. *)
Lemma zero_column_from_source_column_witness :
  TransformationFunction zero_cost_from_code_rule
    ∈ ["set_zero_cost"; "set_zero_utilization"]
  ∧ blank (InputColumn zero_cost_from_code_rule) = false
  ∧ df_get (Py.strip (py_str (InputColumn zero_cost_from_code_rule))) demo_care
    = Some [Str "G30.."; Str ""; Str "XE0Uc"]
  ∧ length [Str "G30.."; Str ""; Str "XE0Uc"] = nrows demo_care
  ∧ (medical_rule no_dates [zero_cost_from_code_rule] demo_care
       zero_cost_from_code_rule).1
    = const_series "0" (nrows demo_care).
Proof.
  assert (H1 : TransformationFunction zero_cost_from_code_rule
               ∈ ["set_zero_cost"; "set_zero_utilization"]) by left.
  assert (H2 : blank (InputColumn zero_cost_from_code_rule) = false)
    by (vm_compute; reflexivity).
  assert (H3 : df_get (Py.strip (py_str (InputColumn zero_cost_from_code_rule)))
                 demo_care
               = Some [Str "G30.."; Str ""; Str "XE0Uc"]) by (vm_compute; reflexivity).
  assert (H4 : length [Str "G30.."; Str ""; Str "XE0Uc"] = nrows demo_care)
    by reflexivity.
  split; [exact H1|]. split; [exact H2|]. split; [exact H3|]. split; [exact H4|].
  exact (proj1 (zero_column_from_source_column no_dates [zero_cost_from_code_rule]
                  demo_care zero_cost_from_code_rule _ H1 H2 H3 H4)).
Defined.

(** The dx_version_1 rule of the sample mapping uses determine_dx_version,
    and the sample output holds "S" in every row. *)
Lemma dx_version_is_S_or_missing_witness :
  Forall (λ row, TargetACGFile row = Str "medical_services" →
                 TargetACGColumn row = "dx_version_1" →
                 TransformationFunction row = "determine_dx_version") demo_mapping
  ∧ on_output (_generate_medical_services no_dates demo_input demo_mapping)
      (column_if_present (λ v, v = Str "S" ∨ v = NaN) "dx_version_1").
Proof.
  assert (H1 : Forall (λ row, TargetACGFile row = Str "medical_services" →
                              TargetACGColumn row = "dx_version_1" →
                              TransformationFunction row = "determine_dx_version")
                 demo_mapping).
  { repeat constructor; simpl; intros; (done || discriminate). }
  split; [exact H1|].
  exact (dx_version_is_S_or_missing no_dates demo_input demo_mapping H1).
Defined.

(** The second source has rows and rules for patient_id and dx_cd_1, but
    no dx_version_1 rule: it contributes nothing. *)
Lemma source_without_version_rule_is_dropped_witness :
  "dx_version_1" ∈ ["patient_id"; "dx_cd_1"; "dx_version_1"]
  ∧ Forall (λ row, SourceLabel row = "LTC" → TargetACGColumn row ≠ "dx_version_1")
      two_source_mapping
  ∧ medical_source no_dates two_source_input two_source_mapping
      ["patient_id"; "dx_cd_1"; "dx_version_1"] "LTC"
    ≠ Ok (Some demo_conditions).
Proof.
  assert (H1 : "dx_version_1" ∈ ["patient_id"; "dx_cd_1"; "dx_version_1"])
    by (right; right; left).
  assert (H2 : Forall (λ row, SourceLabel row = "LTC" →
                              TargetACGColumn row ≠ "dx_version_1")
                 two_source_mapping).
  { repeat constructor; simpl; intros; discriminate. }
  split; [exact H1|]. split; [exact H2|].
  exact (source_without_version_rule_is_dropped no_dates two_source_input
           two_source_mapping _ "LTC" H1 H2 demo_conditions).
Defined.

(** The Age rule of the sample mapping: the output holds the ages of the
    first row of each patient. *)
Lemma patient_data_copies_first_occurrences_witness :
  demo_input !! required_input_key = Some demo_patients
  ∧ df_get config.MERGE_KEY demo_patients = Some [Str "1"; Str "2"; Str "1"]
  ∧ _generate_patient_data no_dates demo_input demo_mapping = Some demo_patient_output
  ∧ age_rule ∈ patient_rules demo_mapping
  ∧ df_get (Py.strip (py_str (InputColumn age_rule))) demo_patients
    = Some [Str "38"; Str "31"; Str "39"]
  ∧ df_get (TargetACGColumn age_rule) demo_patient_output
    = Some (filter_mask (first_occurrence_mask [Str "1"; Str "2"; Str "1"])
              [Str "38"; Str "31"; Str "39"]).
Proof.
  assert (H1 : demo_input !! required_input_key = Some demo_patients)
    by (vm_compute; reflexivity).
  assert (H2 : df_get config.MERGE_KEY demo_patients = Some [Str "1"; Str "2"; Str "1"])
    by (vm_compute; reflexivity).
  assert (H3 : _generate_patient_data no_dates demo_input demo_mapping
               = Some demo_patient_output) by (vm_compute; reflexivity).
  assert (H4 : age_rule ∈ patient_rules demo_mapping) by (vm_compute; right; left).
  assert (H5 : ∀ r, r ∈ patient_rules demo_mapping →
                    TargetACGColumn r = TargetACGColumn age_rule → r = age_rule).
  { intros r Hr. vm_compute in Hr.
    repeat (apply elem_of_cons in Hr as [->|Hr]); try (by apply elem_of_nil in Hr);
      intros Hc; (done || discriminate Hc). }
  assert (H6 : InputConfigKey age_rule = Str required_input_key) by reflexivity.
  assert (H7 : TransformationFunction age_rule = "") by reflexivity.
  assert (H8 : blank (InputColumn age_rule) = false) by (vm_compute; reflexivity).
  assert (H9 : df_get (Py.strip (py_str (InputColumn age_rule))) demo_patients
               = Some [Str "38"; Str "31"; Str "39"]) by (vm_compute; reflexivity).
  assert (H10 : length [Str "38"; Str "31"; Str "39"]
                = length [Str "1"; Str "2"; Str "1"]) by reflexivity.
  assert (H11 : TargetACGColumn age_rule ≠ config.MERGE_KEY) by discriminate.
  split; [exact H1|]. split; [exact H2|]. split; [exact H3|]. split; [exact H4|].
  split; [exact H9|].
  exact (patient_data_copies_first_occurrences no_dates demo_input demo_mapping
           demo_patients _ _ demo_patient_output age_rule
           H1 H2 H3 H4 H5 H6 H7 H8 H9 H10 H11).
Defined.

(** The group has no rx_cd rule and the rx_code_type rule names no source
    column: the column is missing in every row. *)
Lemma determine_rx_code_type_reads_rx_cd_source_witness :
  TransformationFunction type_rule = "determine_rx_code_type"
  ∧ rectangular demo_meds
  ∧ rx_cd_source type_only_mapping demo_meds = None
  ∧ (pharmacy_rule no_dates type_only_mapping demo_meds type_rule).1 = [NaN; NaN].
Proof.
  assert (H1 : TransformationFunction type_rule = "determine_rx_code_type")
    by reflexivity.
  assert (H2 : rectangular demo_meds) by (repeat constructor).
  split; [exact H1|]. split; [exact H2|]. split; [reflexivity|].
  exact (determine_rx_code_type_reads_rx_cd_source no_dates type_only_mapping
           demo_meds type_rule H1 H2).
Defined.

(** The sex rule of the sample mapping: the output holds the sex codes of
    the first row of each patient. *)
Lemma patient_data_sex_codes_first_occurrences_witness :
  demo_input !! required_input_key = Some demo_patients
  ∧ rectangular demo_patients
  ∧ df_get config.MERGE_KEY demo_patients = Some [Str "1"; Str "2"; Str "1"]
  ∧ _generate_patient_data no_dates demo_input demo_mapping = Some demo_patient_output
  ∧ sex_rule ∈ patient_rules demo_mapping
  ∧ df_get (Py.strip (py_str (InputColumn sex_rule))) demo_patients
    = Some [Str "M"; Str "F"; Str "M"]
  ∧ df_get (TargetACGColumn sex_rule) demo_patient_output
    = Some ((λ v, config.sex_code (py_str v))
              <$> filter_mask (first_occurrence_mask [Str "1"; Str "2"; Str "1"])
                    [Str "M"; Str "F"; Str "M"]).
Proof.
  assert (H1 : demo_input !! required_input_key = Some demo_patients)
    by (vm_compute; reflexivity).
  assert (H2 : rectangular demo_patients) by (repeat constructor).
  assert (H3 : df_get config.MERGE_KEY demo_patients = Some [Str "1"; Str "2"; Str "1"])
    by (vm_compute; reflexivity).
  assert (H4 : _generate_patient_data no_dates demo_input demo_mapping
               = Some demo_patient_output) by (vm_compute; reflexivity).
  assert (H5 : sex_rule ∈ patient_rules demo_mapping)
    by (vm_compute; right; right; left).
  assert (H6 : ∀ r, r ∈ patient_rules demo_mapping →
                    TargetACGColumn r = TargetACGColumn sex_rule → r = sex_rule).
  { intros r Hr. vm_compute in Hr.
    repeat (apply elem_of_cons in Hr as [->|Hr]); try (by apply elem_of_nil in Hr);
      intros Hc; (done || discriminate Hc). }
  assert (H7 : InputConfigKey sex_rule = Str required_input_key) by reflexivity.
  assert (H8 : TransformationFunction sex_rule = "transform_sex") by reflexivity.
  assert (H9 : blank (InputColumn sex_rule) = false) by (vm_compute; reflexivity).
  assert (H10 : df_get (Py.strip (py_str (InputColumn sex_rule))) demo_patients
                = Some [Str "M"; Str "F"; Str "M"]) by (vm_compute; reflexivity).
  assert (H11 : TargetACGColumn sex_rule ≠ config.MERGE_KEY) by discriminate.
  split; [exact H1|]. split; [exact H2|]. split; [exact H3|]. split; [exact H4|].
  split; [exact H5|]. split; [exact H10|].
  exact (patient_data_sex_codes_first_occurrences no_dates demo_input demo_mapping
           demo_patients _ _ demo_patient_output sex_rule
           H1 H2 H3 H4 H5 H6 H7 H8 H9 H10 H11).
Defined.

(** The first row of the sample medical-services output is a row of the
    care table. *)
Lemma medical_services_rows_come_from_source_rows_witness :
  map_Forall (λ _ df, rectangular df) demo_input
  ∧ _generate_medical_services no_dates demo_input demo_mapping
    = Ok (Some demo_medical_output)
  ∧ 0 < nrows demo_medical_output
  ∧ ∃ source_label source_df j,
      source_table demo_input
        (filter (λ r, SourceLabel r = source_label)
           (filter (λ r, TargetACGFile r = Str "medical_services") demo_mapping))
        = Ok (Some source_df)
      ∧ j < nrows source_df.
Proof.
  assert (H1 : map_Forall (λ _ df, rectangular df) demo_input).
  { apply (bool_decide_unpack _). vm_compute. exact I. }
  assert (H2 : _generate_medical_services no_dates demo_input demo_mapping
               = Ok (Some demo_medical_output)) by (vm_compute; reflexivity).
  assert (H3 : 0 < nrows demo_medical_output) by (vm_compute; lia).
  split; [exact H1|]. split; [exact H2|]. split; [exact H3|].
  destruct (medical_services_rows_come_from_source_rows no_dates demo_input
              demo_mapping demo_medical_output 0 H1 H2 H3)
    as (l & src & j & Hsrc & Hj & _).
  exists l, src, j. split; [exact Hsrc|exact Hj].
Defined.

(** The first row of the sample pharmacy-data output is a row of the
    medication table. *)
Lemma pharmacy_data_rows_come_from_source_rows_witness :
  map_Forall (λ _ df, rectangular df) demo_input
  ∧ _generate_pharmacy_data no_dates demo_input demo_mapping
    = Ok (Some demo_pharmacy_output)
  ∧ 0 < nrows demo_pharmacy_output
  ∧ ∃ source_label source_df j,
      source_table demo_input
        (filter (λ r, SourceLabel r = source_label)
           (filter (λ r, TargetACGFile r = Str "pharmacy_data") demo_mapping))
        = Ok (Some source_df)
      ∧ j < nrows source_df.
Proof.
  assert (H1 : map_Forall (λ _ df, rectangular df) demo_input).
  { apply (bool_decide_unpack _). vm_compute. exact I. }
  assert (H2 : _generate_pharmacy_data no_dates demo_input demo_mapping
               = Ok (Some demo_pharmacy_output)) by (vm_compute; reflexivity).
  assert (H3 : 0 < nrows demo_pharmacy_output) by (vm_compute; lia).
  split; [exact H1|]. split; [exact H2|]. split; [exact H3|].
  destruct (pharmacy_data_rows_come_from_source_rows no_dates demo_input
              demo_mapping demo_pharmacy_output 0 H1 H2 H3)
    as (l & src & j & Hsrc & Hj & _).
  exists l, src, j. split; [exact Hsrc|exact Hj].
Defined.

(** ** White space outside ASCII *)

(** [str.strip] removes the white space of Unicode: a no-break space or an
    em space around a name goes, and a cell that holds only such
    characters is blank. *)
Example unicode_white_space_is_stripped :
  Py.strip (Py.nbsp +:+ " Age" +:+ Py.em_space) = "Age"
  ∧ Py.strip ("Onset Date" +:+ Py.nbsp) = "Onset Date"
  ∧ blank (Str Py.nbsp) = true
  ∧ blank (Str (Py.em_space +:+ " ")) = true
  ∧ config.get_version (Str Py.nbsp) = Str ""
  ∧ config.get_rx_type (Str Py.nbsp) = Str "RRxUK".
Proof. repeat split; vm_compute; reflexivity. Qed.

(** A source column named with a trailing no-break space is looked up
    without it: the header that carries the no-break space is not found
    and the column comes out empty. *)
Example nbsp_padded_name_is_not_found :
  blank (InputColumn nbsp_padded_rule) = false
  ∧ df_get (py_str (InputColumn nbsp_padded_rule)) nbsp_padded_table
    = Some [Str "38"]
  ∧ (medical_rule no_dates [nbsp_padded_rule] nbsp_padded_table nbsp_padded_rule).1
    = [Str ""]
  ∧ (patient_rule no_dates nbsp_padded_table nbsp_padded_rule).1 = Some [Str ""].
Proof. repeat split; vm_compute; reflexivity. Qed.

(** A patient_data rule on another dataset whose source column is a
    no-break space only names no source column: it is not skipped, its
    column is filled with the empty string, and the table is returned. *)
Example nbsp_only_source_column_is_blank :
  ∃ out, _generate_patient_data no_dates demo_input nbsp_foreign_mapping = Some out
         ∧ column_names out = ["PatientID"; "age"; "last_code"]
         ∧ df_get "last_code" out = Some [Str ""; Str ""].
Proof. eexists. split; [vm_compute; reflexivity|]. split; reflexivity. Qed.
